(** * Weekly Target Planner: the normalizer and the allocator of [app.py]

    A shallow embedding of [clean_and_validate_data] and
    [calculate_smart_recommendations], the two procedures of [app.py] that
    carry the planning logic, and the properties their specification states
    about them.

    Modelling choices.
    - A pandas [DataFrame] is a list of column labels and a list of rows; a
      row is a finite map from column labels to cells.  The index labels
      of the frames of the application are unique; a row is identified by
      its position, which stands for its label.  The argument is a frame,
      never [None].
    - A cell holds a number, the missing value (NaN, None), or an object
      that [float()] rejects (a non-numeric payload).
    - Numbers are exact rationals.  Python computes on binary floating
      point; the rounding error of its multiplications and divisions is not
      modelled, [round] is Python 3's round-half-to-even.
    - Stores.  In [clean_and_validate_data] and
      [calculate_smart_recommendations] every store [df.loc[idx, col] = v]
      and [df.at[idx, col] = v] succeeds.  That is the code on metric
      columns of dtype float64 or object, and on every column before
      pandas 3, where a store that a column cannot hold widens the column.
      From pandas 3 on such a store raises.  [clean_and_validate_data_typed]
      and [calculate_smart_recommendations_typed] take the dtypes of the
      columns and follow pandas 3: a store of a number that is not whole
      into an int64 column, or of any number into a text column, raises;
      the handler of the row then stores its zeros, and when one of these
      stores raises as well the outer [except] returns the frame that was
      passed in.  On float64 and object columns the two pairs of functions
      agree ([clean_typed_wide], [calculate_typed_wide]).
    - The Streamlit messages ([st.warning], [st.error]) are not modelled:
      they do not influence the returned frame. *)

From Stdlib Require Import QArith Qround Qabs Lqa.
From stdpp Require Import gmap strings list fin_maps sorting.

Local Open Scope Q_scope.

(** ** Numbers *)

Module PyNum.

(** [x > 0] and [x <= 0] on Python numbers. *)
Definition gtb0 (x : Q) : bool := negb (Qle_bool x 0%Q).
Definition leb0 (x : Q) : bool := Qle_bool x 0%Q.

(** [max(0, x)]: Python keeps the first argument unless the second is
    strictly greater. *)
Definition max0 (x : Q) : Q := if gtb0 x then x else 0%Q.

(** Round half to even, to the nearest integer. *)
Definition round_half_even (x : Q) : Z :=
  let f := Qfloor x in
  match Qcompare (x - inject_Z f) (1 # 2) with
  | Lt => f
  | Gt => (f + 1)%Z
  | Eq => if Z.even f then f else (f + 1)%Z
  end.

(** [round(x, 0)] and [round(x, 2)]. *)
Definition round0 (x : Q) : Q := inject_Z (round_half_even x).
Definition round2 (x : Q) : Q := Qred (round_half_even (x * 100)%Q # 100).

End PyNum.

(** ** Cells, rows and frames *)

Inductive cell : Type :=
  | Num (q : Q)          (* a number *)
  | NaN                  (* missing: NaN or None, [pd.notna] is false *)
  | Obj (s : string).    (* a payload on which [float()] raises *)

(** The frame. [rows] are in index order. *)
Record DataFrame : Type := mkDataFrame {
  columns : list string;
  rows : list (gmap string cell)
}.

(** [pd.DataFrame()] *)
Definition DataFrame_new : DataFrame := mkDataFrame [] [].

(** [df.empty]: some axis has length 0. *)
Definition empty (df : DataFrame) : bool :=
  match columns df, rows df with
  | [], _ | _, [] => true
  | _, _ => false
  end.

(** [row[col]]: a hole of a ragged frame reads as NaN. *)
Definition loc (row : gmap string cell) (col : string) : cell :=
  default NaN (row !! col).

Definition required_cols : list string := ["Tonnage"; "Yield"; "Revenue"]%string.

(** [[col for col in required_cols if col not in df.columns]] *)
Definition missing_cols (df : DataFrame) : list string :=
  filter (fun col => col ∉ columns df) required_cols.

(** [float(x) if pd.notna(x) else 0]; [None] when [float] raises. *)
Definition to_float (c : cell) : option Q :=
  match c with
  | Num q => Some q
  | NaN => Some 0
  | Obj _ => None
  end.

(** The three assignments [df.loc[idx, col] = v] of one row. *)
Definition set_row (tonnage yield_val revenue : Q) (row : gmap string cell)
  : gmap string cell :=
  <["Revenue"%string := Num revenue]>
    (<["Yield"%string := Num yield_val]>
       (<["Tonnage"%string := Num tonnage]> row)).

Definition zero_row : gmap string cell -> gmap string cell := set_row 0 0 0.

(** ** The normalizer *)

(** The body of the [try] of one iteration; [None] when it raises.  The
    stores succeed (float64 or object columns); [clean_row_try_typed] is
    the body with stores that can raise. *)
Definition clean_row_try (row : gmap string cell) : option (gmap string cell) :=
  tonnage ← to_float (loc row "Tonnage");
  yield_val ← to_float (loc row "Yield");
  revenue ← to_float (loc row "Revenue");
  let tonnage := PyNum.max0 tonnage in
  let yield_val := PyNum.max0 yield_val in
  let revenue := PyNum.max0 revenue in
  if Qeq_bool tonnage 0 || Qeq_bool yield_val 0
  then Some (zero_row row)
  else Some (set_row (PyNum.round0 tonnage) (PyNum.round2 yield_val)
                     (PyNum.round2 (tonnage * yield_val)) row).

(** One iteration of the loop, with its [except] clause, whose stores
    succeed as well; [clean_row_typed] is the iteration with a handler that
    can raise. *)
Definition clean_row (row : gmap string cell) : gmap string cell :=
  match clean_row_try row with
  | Some row' => row'
  | None => zero_row row
  end.

Definition clean_and_validate_data (df : DataFrame) : DataFrame :=
  if empty df then DataFrame_new
  else
    match missing_cols df with
    | _ :: _ => df
    | [] => mkDataFrame (columns df) (clean_row <$> rows df)
    end.

(** ** The allocator *)

(** One cell of a column comparison [df[col] > 0]: a missing value compares
    false, a non-numeric object makes the comparison raise ([None]). *)
Definition gt0 (c : cell) : option bool :=
  match c with
  | Num q => Some (PyNum.gtb0 q)
  | NaN => Some false
  | Obj _ => None
  end.

(** [(Tonnage > 0) & (Yield > 0) & (Revenue > 0)] at one row.  The three
    comparisons are all evaluated before they are combined. *)
Definition row_valid (row : gmap string cell) : option bool :=
  t ← gt0 (loc row "Tonnage");
  y ← gt0 (loc row "Yield");
  r ← gt0 (loc row "Revenue");
  Some (t && y && r).

(** The boolean mask of the selection; [None] when a comparison raises. *)
Definition valid_mask (df : DataFrame) : option (list bool) :=
  mapM row_valid (rows df).

(** [df[mask]]: the selected rows, each with its index label. *)
Fixpoint select_from (idx : nat) (mask : list bool) (rs : list (gmap string cell))
  : list (nat * gmap string cell) :=
  match mask, rs with
  | b :: mask', row :: rs' =>
      (if b then [(idx, row)] else []) ++ select_from (S idx) mask' rs'
  | _, _ => []
  end.

(** The number a cell contributes to [Series.sum()] (missing values are
    skipped) or to an elementwise operation on a numeric column. *)
Definition cell_value (c : cell) : Q :=
  match c with
  | Num q => q
  | _ => 0
  end.

Definition Qsum (l : list Q) : Q := foldr Qplus 0 l.

(** [frame[col].sum()] *)
Definition col_sum (col : string) (rs : list (gmap string cell)) : Q :=
  Qsum ((fun row => cell_value (loc row col)) <$> rs).

(** The three weight columns added to [valid_data]; its rows hold numbers
    in Tonnage and Revenue. *)
Definition with_weights (total_current_tonnage total_current_revenue : Q)
    (row : gmap string cell) : gmap string cell :=
  let tonnage_weight := cell_value (loc row "Tonnage") / total_current_tonnage in
  let revenue_weight := cell_value (loc row "Revenue") / total_current_revenue in
  <["combined_weight"%string := Num ((tonnage_weight + revenue_weight) / 2)]>
    (<["revenue_weight"%string := Num revenue_weight]>
       (<["tonnage_weight"%string := Num tonnage_weight]> row)).

(** [valid_data.loc[idx]], [None] when [idx not in valid_data.index]. *)
Fixpoint at_index (idx : nat) (frame : list (nat * gmap string cell))
  : option (gmap string cell) :=
  match frame with
  | [] => None
  | (i, row) :: frame' => if Nat.eqb i idx then Some row else at_index idx frame'
  end.

(** One iteration of the distribution loop.  The stores succeed, so the
    [except] clause of the iteration is never entered;
    [distribute_row_typed] is the iteration with stores that can raise. *)
Definition distribute_row (target_tonnage target_revenue target_avg_yield : Q)
    (valid_data : list (nat * gmap string cell))
    (idx : nat) (row : gmap string cell) : gmap string cell :=
  match at_index idx valid_data with
  | Some vrow =>
      let weight := cell_value (loc vrow "combined_weight") in
      let agent_target_tonnage := target_tonnage * weight in
      let agent_target_revenue := target_revenue * weight in
      let calculated_yield :=
        if PyNum.gtb0 agent_target_tonnage
        then agent_target_revenue / agent_target_tonnage
        else target_avg_yield in
      set_row agent_target_tonnage calculated_yield agent_target_revenue row
  | None => zero_row row
  end.

(** The equal-split fallback: three whole-column assignments. *)
Definition equal_split (target_tonnage target_revenue target_avg_yield : Q)
    (df : DataFrame) : DataFrame :=
  let num_agents := length (rows df) in
  if (0 <? num_agents)%nat
  then mkDataFrame (columns df)
         (set_row (target_tonnage / inject_Z (Z.of_nat num_agents))
                  target_avg_yield
                  (target_revenue / inject_Z (Z.of_nat num_agents)) <$> rows df)
  else df.

(** The weighted distribution, before the final clean-up. *)
Definition distribute (target_tonnage target_revenue target_avg_yield : Q)
    (total_current_tonnage total_current_revenue : Q)
    (selected : list (nat * gmap string cell)) (df : DataFrame) : DataFrame :=
  let valid_data :=
    prod_map id (with_weights total_current_tonnage total_current_revenue)
      <$> selected in
  mkDataFrame (columns df)
    (imap (distribute_row target_tonnage target_revenue target_avg_yield valid_data)
          (rows df)).

Definition calculate_smart_recommendations (week_df : DataFrame)
    (target_tonnage target_revenue target_avg_yield : Q) : DataFrame :=
  if empty week_df then DataFrame_new
  else if PyNum.leb0 target_tonnage || PyNum.leb0 target_revenue
          || PyNum.leb0 target_avg_yield
  then week_df
  else
    match missing_cols week_df with
    | _ :: _ => week_df
    | [] =>
        match valid_mask week_df with
        | None => week_df   (* the comparison raised: the outer [except] *)
        | Some mask =>
            let valid_data := select_from 0 mask (rows week_df) in
            match valid_data with
            | [] =>
                clean_and_validate_data
                  (equal_split target_tonnage target_revenue target_avg_yield week_df)
            | _ :: _ =>
                let total_current_tonnage := col_sum "Tonnage" (snd <$> valid_data) in
                let total_current_revenue := col_sum "Revenue" (snd <$> valid_data) in
                if Qeq_bool total_current_tonnage 0 || Qeq_bool total_current_revenue 0
                then week_df
                else
                  clean_and_validate_data
                    (distribute target_tonnage target_revenue target_avg_yield
                       total_current_tonnage total_current_revenue valid_data week_df)
            end
        end
    end.

(** ** The notions the properties are stated with *)

(** [revenue == round(round(tonnage, 0) * round(yield, 2), 2)], or the row
    is [(0, 0, 0)]; as a boolean test on the three cells of a row. *)
Definition invariant_row (row : gmap string cell) : bool :=
  match loc row "Tonnage", loc row "Yield", loc row "Revenue" with
  | Num t, Num y, Num r =>
      Qeq_bool r (PyNum.round2 (PyNum.round0 t * PyNum.round2 y))
      || (Qeq_bool t 0 && Qeq_bool y 0 && Qeq_bool r 0)
  | _, _, _ => false
  end.

(** The columns other than the three metrics: what identifies a row. *)
Definition other_cols (row : gmap string cell) : gmap string cell :=
  delete "Tonnage"%string (delete "Yield"%string (delete "Revenue"%string row)).

(** Row [i] of the second frame is row [i] of the first, up to its metrics. *)
Definition same_rows (df df' : DataFrame) : Prop :=
  Forall2 (fun row row' => other_cols row' = other_cols row) (rows df) (rows df').

(** A frame of the application: an agent label and the three metrics. *)
Definition agent_row (name : string) (t y r : cell) : gmap string cell :=
  <["Revenue"%string := r]>
    (<["Yield"%string := y]>
       (<["Tonnage"%string := t]> (<["Agent"%string := Obj name]> ∅))).

Definition week_frame (rs : list (gmap string cell)) : DataFrame :=
  mkDataFrame ["Agent"; "Tonnage"; "Yield"; "Revenue"]%string rs.

Definition metrics (row : gmap string cell) : cell * cell * cell :=
  (loc row "Tonnage", loc row "Yield", loc row "Revenue").

(** One agent with 2.25 t at a yield of 2.00, revenue 4.50. *)
Definition fractional_week : DataFrame :=
  week_frame [agent_row "A" (Num (9 # 4)) (Num 2) (Num (9 # 2))].

Definition degenerate (target_tonnage target_revenue target_avg_yield : Q) : Prop :=
  target_tonnage <= 0 \/ target_revenue <= 0 \/ target_avg_yield <= 0.

Definition scenario_A : DataFrame :=
  week_frame [agent_row "A" (Num 100) (Num 2) (Num 200);
              agent_row "B" (Num 300) (Num 3) (Num 900)].

(** The frame [valid_data] of scenario A with its weight columns. *)
Definition scenario_A_valid_data : list (nat * gmap string cell) :=
  prod_map id (with_weights (col_sum "Tonnage" (rows scenario_A))
                            (col_sum "Revenue" (rows scenario_A)))
    <$> select_from 0 [true; true] (rows scenario_A).

(** The frame of scenario A after the distribution loop, before clean-up. *)
Definition scenario_A_distributed : DataFrame :=
  distribute 800 2400 3
    (col_sum "Tonnage" (rows scenario_A)) (col_sum "Revenue" (rows scenario_A))
    (select_from 0 [true; true] (rows scenario_A)) scenario_A.

Definition weight_column (col : string) (frame : list (nat * gmap string cell))
  : list Q :=
  (fun p => Qred (cell_value (loc p.2 col))) <$> frame.

Definition metric_column (col : string) (df : DataFrame) : list Q :=
  (fun row => Qred (cell_value (loc row col))) <$> rows df.

Definition close_to (tolerance : Q) (xs expected : list Q) : Prop :=
  Forall2 (fun x e => Qabs (x - e) <= tolerance) xs expected.

(** The frame of the valid rows. *)
Definition valid_rows (rs : list (gmap string cell)) : list (gmap string cell) :=
  filter (fun row => row_valid row = Some true) rs.

(** The combined weight of a row of [valid_data]. *)
Definition weight_of (total_tonnage total_revenue : Q) (row : gmap string cell) : Q :=
  (cell_value (loc row "Tonnage") / total_tonnage
   + cell_value (loc row "Revenue") / total_revenue) / 2.

(** What one iteration of the distribution loop assigns, read off the row
    itself rather than through its index label. *)
Definition allocated_row (tt tr ty total_tonnage total_revenue : Q)
    (row : gmap string cell) : gmap string cell :=
  if decide (row_valid row = Some true)
  then
    let weight := weight_of total_tonnage total_revenue row in
    set_row (tt * weight)
      (if PyNum.gtb0 (tt * weight) then tr * weight / (tt * weight) else ty)
      (tr * weight) row
  else zero_row row.

(** ** The buttons: the callers of the two procedures *)

(** [frame[col]]; [None] is the KeyError of an absent column. *)
Definition column (df : DataFrame) (col : string) : option (list cell) :=
  if decide (col ∈ columns df)
  then Some ((fun row => loc row col) <$> rows df)
  else None.

Definition is_obj (c : cell) : bool :=
  match c with
  | Obj _ => true
  | _ => false
  end.

(** [series.sum()] of a column of numbers and missing values.  [None]
    stands for every outcome that is no number: with a non-numeric payload
    in the column the addition raises or concatenates. *)
Definition series_sum (s : list cell) : option Q :=
  if existsb is_obj s then None else Some (Qsum (cell_value <$> s)).

(** [series[series > 0]]; [None] when the comparison raises. *)
Definition series_positive (s : list cell) : option (list Q) :=
  mask ← mapM gt0 s;
  Some (cell_value <$> (fst <$> filter (fun p => p.2 = true) (zip s mask))).

(** [valid_yields.mean() if len(valid_yields) > 0 else 0] *)
Definition mean_or_zero (valid_yields : list Q) : Q :=
  if (0 <? length valid_yields)%nat
  then Qsum valid_yields / inject_Z (Z.of_nat (length valid_yields))
  else 0.

(** The three entries of [weekly_data] that the buttons write. *)
Record performance : Type := mkPerformance {
  current_tonnage : Q;
  current_yield : Q;
  current_revenue : Q
}.

(** "Apply": the totals of the table on display; [None] when the [try]
    block fails and the current performance is left as it was. *)
Definition apply_totals (df : DataFrame) : option performance :=
  tonnage ← column df "Tonnage";
  total_tonnage ← series_sum tonnage;
  revenue ← column df "Revenue";
  total_revenue ← series_sum revenue;
  yields ← column df "Yield";
  valid_yields ← series_positive yields;
  Some (mkPerformance total_tonnage (mean_or_zero valid_yields) total_revenue).

(** One cell of [wa['Week'] == week_selected]: an equality test never
    raises, a missing value or a text such as 'Total' compares unequal. *)
Definition week_is (week_selected : Z) (row : gmap string cell) : bool :=
  match loc row "Week" with
  | Num q => Qeq_bool q (inject_Z week_selected)
  | _ => false
  end.

(** [wa[wa['Week'] == week_selected]] and [wa[wa['Week'] != week_selected]];
    [None] is the KeyError of a frame without the column Week. *)
Definition week_rows (wa : DataFrame) (week_selected : Z) : option DataFrame :=
  if decide ("Week"%string ∈ columns wa)
  then Some (mkDataFrame (columns wa)
               (filter (fun row => week_is week_selected row = true) (rows wa)))
  else None.

Definition other_week_rows (wa : DataFrame) (week_selected : Z) : option DataFrame :=
  if decide ("Week"%string ∈ columns wa)
  then Some (mkDataFrame (columns wa)
               (filter (fun row => week_is week_selected row <> true) (rows wa)))
  else None.

(** [pd.concat([a, b], ignore_index=True)] of two frames with the same
    columns: the rows of [b] follow the rows of [a]. *)
Definition concat_rows (a b : DataFrame) : DataFrame :=
  mkDataFrame (columns a) (rows a ++ rows b).

(** "Recommend": the new recommendations table, [None] when nothing is
    stored (no column Week, or no row for the week). *)
Definition recommend (wa : DataFrame) (week_selected : Z)
    (orig_ton conv_tgt_rev conv_tgt_yld : Q) : option DataFrame :=
  week_df ← week_rows wa week_selected;
  if empty week_df then None
  else
    let target_tonnage := PyNum.max0 orig_ton in
    let target_revenue := PyNum.max0 conv_tgt_rev in
    let target_avg_yield := PyNum.max0 conv_tgt_yld in
    Some (calculate_smart_recommendations week_df
            target_tonnage target_revenue target_avg_yield).

(** "Adjust" on the weekly average: the new value of
    [session_state.weekly_average]. *)
Definition adjust_weekly_average (wa : DataFrame) (week_selected : Z) : DataFrame :=
  match week_rows wa week_selected, other_week_rows wa week_selected with
  | Some week_df, Some other_weeks =>
      if empty week_df then wa
      else concat_rows other_weeks (clean_and_validate_data week_df)
  | _, _ => wa
  end.

(** ** The gap boxes *)

(** The percentage of achievement of one metric.  The quotient is exact;
    the code divides doubles, so that at a threshold of a gap box the last
    bit of the quotient decides. *)
Definition percentage (current_value target_value : Q) : Q :=
  if PyNum.gtb0 target_value then current_value / target_value * 100 else 0.

(** Background and text colour of a gap box. *)
Definition gap_colors (percentage : Q) : string * string :=
  if Qle_bool 95 percentage then ("#c8e6c9", "#2e7d32")%string
  else if Qle_bool 85 percentage then ("#fff9c4", "#f57c00")%string
  else ("#ffcdd2", "#c62828")%string.

(** ** Currencies *)

Record currency_config : Type := mkCurrency {
  rate : Q;
  symbol : string
}.

Definition config : gmap string currency_config :=
  <["AED"%string := mkCurrency 1 "AED"]>
    (<["USD"%string := mkCurrency (1 / (367 # 100)) "$"]>
       (<["BHD"%string := mkCurrency (102 # 1000) "BHD"]> ∅)).

(** [config.get(currency, config["USD"])] *)
Definition get_currency_config (currency : string) : currency_config :=
  default (mkCurrency (1 / (367 # 100)) "$") (config !! currency).

(** [orig / aed_rate * rate] with [aed_rate = 1.0]. *)
Definition convert_target (orig : Q) (currency : string) : Q :=
  orig / 1 * rate (get_currency_config currency).

(** ** The session state *)

Inductive session_value : Type :=
  | SNone
  | SBool (b : bool)
  | SText (s : string)
  | SFrame (df : DataFrame)
  | SWeekly (week : Z) (p : performance).

Definition defaults : list (string * session_value) :=
  [("selected_station", SNone); ("targets_data", SNone);
   ("weekly_average", SNone); ("weekly_data", SNone);
   ("recommendations", SNone); ("show_recommendations", SBool false)]%string.

Definition initialize_session_state (session_state : gmap string session_value)
  : gmap string session_value :=
  foldl (fun st kv => if decide (is_Some (st !! kv.1)) then st
                      else <[kv.1 := kv.2]> st)
        session_state defaults.

(** The loop of the logout button over [list(st.session_state.keys())]. *)
Definition logout (session_state : gmap string session_value)
  : gmap string session_value :=
  foldl (fun st key => delete key st) session_state
        (fst <$> map_to_list session_state).

(** ** Station files *)

(** [s.replace(old, new)] for a non-empty [old]: the occurrences are found
    from the left and do not overlap.  [skip] counts the characters of the
    occurrence under replacement that are still to be dropped. *)
Fixpoint replace_from (old new : string) (skip : nat) (s : string) : string :=
  match s with
  | EmptyString => EmptyString
  | String c s' =>
      match skip with
      | S k => replace_from old new k s'
      | O =>
          if String.prefix old s
          then (new ++ replace_from old new (String.length old - 1) s')%string
          else String c (replace_from old new 0 s')
      end
  end.

Definition replace (old new s : string) : string := replace_from old new 0 s.

(** The station name extracted from the base name of a station file. *)
Definition station_of_file (filename : string) : string :=
  replace ".xlsx" "" (replace "Database - " "" filename).

(** The order of [sorted] on strings. *)
Definition string_le (a b : string) : Prop := Is_true (String.leb a b).

#[global] Instance string_le_dec : RelDecision string_le :=
  fun a b => Is_true_dec (String.leb a b).

(** [get_available_stations], given the base names that the glob pattern
    ["Database - *.xlsx"] found. *)
Definition get_available_stations (files : list string) : list string :=
  merge_sort string_le (station_of_file <$> files).

(** The file name that [load_station_data] builds for a station. *)
Definition station_file (station_name : string) : string :=
  ("Database - " ++ station_name ++ ".xlsx")%string.

(** The base names that match the glob pattern. *)
Definition matches_pattern (filename : string) : Prop :=
  exists middle : string, filename = ("Database - " ++ middle ++ ".xlsx")%string.

(** [old in s]: [old] occurs in [s]. *)
Fixpoint occursb (old s : string) : bool :=
  String.prefix old s
  || match s with
     | EmptyString => false
     | String _ s' => occursb old s'
     end.

(** A station name that holds neither of the two markers of a file name. *)
Definition plain_name (station_name : string) : Prop :=
  occursb "Database - " station_name = false
  /\ occursb ".xlsx" station_name = false.

(** ** The numbers the weighted path returns for a row *)

Definition allocated_tonnage (tt st sr : Q) (row : gmap string cell) : Q :=
  if decide (row_valid row = Some true)
  then PyNum.round0 (tt * weight_of st sr row) else 0.

Definition allocated_yield (tt tr : Q) (row : gmap string cell) : Q :=
  if decide (row_valid row = Some true) then PyNum.round2 (tr / tt) else 0.

Definition allocated_revenue (tr st sr : Q) (row : gmap string cell) : Q :=
  if decide (row_valid row = Some true)
  then PyNum.round2 (tr * weight_of st sr row) else 0.

(** ** Column dtypes: the stores of pandas 3 *)

(** The dtypes a metric column of the application can have: what
    [pd.read_excel] and [pd.to_numeric] make of a sheet (int64, float64),
    and what an edited or hand-built frame can hold (object, text). *)
Inductive dtype : Type :=
  | float64            (* floating point numbers and NaN *)
  | int64              (* whole numbers *)
  | object             (* any Python object: a column of mixed content *)
  | str.               (* text only *)

(** [df.dtypes[col]]; a column without an entry is an object column. *)
Definition dtype_of (dtypes : gmap string dtype) (col : string) : dtype :=
  default object (dtypes !! col).

Definition is_integral (v : Q) : bool := Qeq_bool v (inject_Z (Qfloor v)).

(** Whether a column of the dtype takes the number without a change of its
    dtype: an int64 column takes whole numbers only, a text column takes no
    number at all. *)
Definition can_hold (d : dtype) (v : Q) : bool :=
  match d with
  | float64 | object => true
  | int64 => is_integral v
  | str => false
  end.

(** The stores [df.loc[idx, col] = v] (or [df.at[idx, col] = v]) of one row,
    in the order of the code: the row as the stores leave it, and [false]
    when one of them raised; the stores after it are not run. *)
Fixpoint stores (dtypes : gmap string dtype) (writes : list (string * Q))
    (row : gmap string cell) : gmap string cell * bool :=
  match writes with
  | [] => (row, true)
  | (col, v) :: writes' =>
      if can_hold (dtype_of dtypes col) v
      then stores dtypes writes' (<[col := Num v]> row)
      else (row, false)
  end.

(** The body of the [try] of one iteration of the normalizer: the row as
    it is left, and whether the body ran to its end. *)
Definition clean_row_try_typed (dtypes : gmap string dtype)
    (row : gmap string cell) : gmap string cell * bool :=
  match to_float (loc row "Tonnage"), to_float (loc row "Yield"),
        to_float (loc row "Revenue") with
  | Some tonnage, Some yield_val, Some revenue =>
      let tonnage := PyNum.max0 tonnage in
      let yield_val := PyNum.max0 yield_val in
      let revenue := PyNum.max0 revenue in
      if Qeq_bool tonnage 0 || Qeq_bool yield_val 0
      then stores dtypes [("Tonnage", 0); ("Yield", 0); ("Revenue", 0)]%string row
      else stores dtypes [("Tonnage", PyNum.round0 tonnage);
                          ("Yield", PyNum.round2 yield_val);
                          ("Revenue", PyNum.round2 (tonnage * yield_val))]%string row
  | _, _, _ => (row, false)
  end.

(** One iteration with its [except] clause; [None] when a store of the
    handler raises in its turn. *)
Definition clean_row_typed (dtypes : gmap string dtype)
    (row : gmap string cell) : option (gmap string cell) :=
  match clean_row_try_typed dtypes row with
  | (row', true) => Some row'
  | (row', false) =>
      match stores dtypes [("Tonnage", 0); ("Yield", 0); ("Revenue", 0)]%string row' with
      | (row'', true) => Some row''
      | (_, false) => None
      end
  end.

Definition clean_and_validate_data_typed (dtypes : gmap string dtype)
    (df : DataFrame) : DataFrame :=
  if empty df then DataFrame_new
  else
    match missing_cols df with
    | _ :: _ => df
    | [] =>
        match mapM (clean_row_typed dtypes) (rows df) with
        | Some rows' => mkDataFrame (columns df) rows'
        | None => df   (* the outer [except]: [return df] *)
        end
    end.

(** One iteration of the distribution loop with its [except] clause;
    [None] when a store of the handler raises in its turn. *)
Definition distribute_row_typed (dtypes : gmap string dtype)
    (target_tonnage target_revenue target_avg_yield : Q)
    (valid_data : list (nat * gmap string cell))
    (idx : nat) (row : gmap string cell) : option (gmap string cell) :=
  let attempt :=
    match at_index idx valid_data with
    | Some vrow =>
        let weight := cell_value (loc vrow "combined_weight") in
        let agent_target_tonnage := target_tonnage * weight in
        let agent_target_revenue := target_revenue * weight in
        let calculated_yield :=
          if PyNum.gtb0 agent_target_tonnage
          then agent_target_revenue / agent_target_tonnage
          else target_avg_yield in
        stores dtypes [("Tonnage", agent_target_tonnage);
                       ("Revenue", agent_target_revenue);
                       ("Yield", calculated_yield)]%string row
    | None =>
        stores dtypes [("Tonnage", 0); ("Revenue", 0); ("Yield", 0)]%string row
    end in
  match attempt with
  | (row', true) => Some row'
  | (row', false) =>
      match stores dtypes [("Tonnage", 0); ("Revenue", 0); ("Yield", 0)]%string row' with
      | (row'', true) => Some row''
      | (_, false) => None
      end
  end.

(** The dtypes after the three whole-column assignments of the fallback: a
    column that is assigned a float is a float64 column. *)
Definition equal_split_dtypes (dtypes : gmap string dtype) (df : DataFrame)
  : gmap string dtype :=
  if (0 <? length (rows df))%nat
  then <["Revenue"%string := float64]>
         (<["Yield"%string := float64]>
            (<["Tonnage"%string := float64]> dtypes))
  else dtypes.

(** The weighted distribution; [None] when a handler raised. *)
Definition distribute_typed (dtypes : gmap string dtype)
    (target_tonnage target_revenue target_avg_yield : Q)
    (total_current_tonnage total_current_revenue : Q)
    (selected : list (nat * gmap string cell)) (df : DataFrame) : option DataFrame :=
  let valid_data :=
    prod_map id (with_weights total_current_tonnage total_current_revenue)
      <$> selected in
  rows' ← mapM id
    (imap (distribute_row_typed dtypes target_tonnage target_revenue
             target_avg_yield valid_data)
          (rows df));
  Some (mkDataFrame (columns df) rows').

Definition calculate_smart_recommendations_typed (dtypes : gmap string dtype)
    (week_df : DataFrame)
    (target_tonnage target_revenue target_avg_yield : Q) : DataFrame :=
  if empty week_df then DataFrame_new
  else if PyNum.leb0 target_tonnage || PyNum.leb0 target_revenue
          || PyNum.leb0 target_avg_yield
  then week_df
  else
    match missing_cols week_df with
    | _ :: _ => week_df
    | [] =>
        match valid_mask week_df with
        | None => week_df   (* the comparison raised: the outer [except] *)
        | Some mask =>
            let valid_data := select_from 0 mask (rows week_df) in
            match valid_data with
            | [] =>
                clean_and_validate_data_typed (equal_split_dtypes dtypes week_df)
                  (equal_split target_tonnage target_revenue target_avg_yield week_df)
            | _ :: _ =>
                let total_current_tonnage := col_sum "Tonnage" (snd <$> valid_data) in
                let total_current_revenue := col_sum "Revenue" (snd <$> valid_data) in
                if Qeq_bool total_current_tonnage 0 || Qeq_bool total_current_revenue 0
                then week_df
                else
                  match distribute_typed dtypes
                          target_tonnage target_revenue target_avg_yield
                          total_current_tonnage total_current_revenue
                          valid_data week_df with
                  | Some recommendations_df =>
                      clean_and_validate_data_typed dtypes recommendations_df
                  | None => week_df   (* a handler raised: the outer [except] *)
                  end
            end
        end
    end.

(** The three metric columns take every number: float64 or object columns. *)
Definition holds_floats (dtypes : gmap string dtype) : bool :=
  forallb (fun col => match dtype_of dtypes col with
                      | float64 | object => true
                      | _ => false
                      end) required_cols.

(** None of the three metric columns is a text column. *)
Definition no_text_column (dtypes : gmap string dtype) : bool :=
  forallb (fun col => match dtype_of dtypes col with
                      | str => false
                      | _ => true
                      end) required_cols.

(** The dtypes of a sheet of whole numbers as [pd.read_excel] and
    [pd.to_numeric] deliver it, and of the same sheet held as floats. *)
Definition whole_number_sheet : gmap string dtype :=
  <["Revenue"%string := int64]>
    (<["Yield"%string := int64]>
       (<["Tonnage"%string := int64]> (<["Agent"%string := str]> ∅))).

Definition float_sheet : gmap string dtype :=
  <["Revenue"%string := float64]>
    (<["Yield"%string := float64]>
       (<["Tonnage"%string := float64]> (<["Agent"%string := str]> ∅))).

(** "Recommend" and "Adjust" on a frame with its dtypes. *)
Definition recommend_typed (dtypes : gmap string dtype) (wa : DataFrame)
    (week_selected : Z) (orig_ton conv_tgt_rev conv_tgt_yld : Q) : option DataFrame :=
  week_df ← week_rows wa week_selected;
  if empty week_df then None
  else
    let target_tonnage := PyNum.max0 orig_ton in
    let target_revenue := PyNum.max0 conv_tgt_rev in
    let target_avg_yield := PyNum.max0 conv_tgt_yld in
    Some (calculate_smart_recommendations_typed dtypes week_df
            target_tonnage target_revenue target_avg_yield).

(** ** Basic facts *)

Section Rows.
Implicit Types row : gmap string cell.

Lemma loc_set_row_tonnage t y r row : loc (set_row t y r row) "Tonnage" = Num t.
Proof. unfold loc, set_row. by simplify_map_eq. Qed.

Lemma loc_set_row_yield t y r row : loc (set_row t y r row) "Yield" = Num y.
Proof. unfold loc, set_row. by simplify_map_eq. Qed.

Lemma loc_set_row_revenue t y r row : loc (set_row t y r row) "Revenue" = Num r.
Proof. unfold loc, set_row. by simplify_map_eq. Qed.

Lemma metrics_set_row t y r row :
  metrics (set_row t y r row) = (Num t, Num y, Num r).
Proof.
  unfold metrics.
  by rewrite loc_set_row_tonnage, loc_set_row_yield, loc_set_row_revenue.
Qed.

Lemma metrics_inv row t y r :
  metrics row = (t, y, r) ->
  loc row "Tonnage" = t /\ loc row "Yield" = y /\ loc row "Revenue" = r.
Proof. unfold metrics. intros [= ? ? ?]. done. Qed.

Lemma other_cols_set_row t y r row :
  other_cols (set_row t y r row) = other_cols row.
Proof.
  unfold other_cols, set_row. apply map_eq. intros k.
  destruct (decide (k = "Tonnage"%string)) as [->|]; [by simplify_map_eq|].
  destruct (decide (k = "Yield"%string)) as [->|]; [by simplify_map_eq|].
  destruct (decide (k = "Revenue"%string)) as [->|]; by simplify_map_eq.
Qed.

(** Every iteration of the normalizer ends in the three assignments. *)
Lemma clean_row_set_row row : exists t y r, clean_row row = set_row t y r row.
Proof.
  unfold clean_row, clean_row_try, zero_row.
  destruct (to_float (loc row "Tonnage")) as [t|]; simpl; [|by eauto].
  destruct (to_float (loc row "Yield")) as [y|]; simpl; [|by eauto].
  destruct (to_float (loc row "Revenue")) as [r|]; simpl; [|by eauto].
  destruct (_ || _); eauto.
Qed.

Lemma other_cols_clean_row row : other_cols (clean_row row) = other_cols row.
Proof.
  destruct (clean_row_set_row row) as (t & y & r & ->).
  apply other_cols_set_row.
Qed.

Lemma other_cols_distribute_row tt tr ty vd idx row :
  other_cols (distribute_row tt tr ty vd idx row) = other_cols row.
Proof.
  unfold distribute_row, zero_row.
  destruct (at_index idx vd); apply other_cols_set_row.
Qed.
End Rows.

Section Frames.
Implicit Types df : DataFrame.

Lemma empty_false df : empty df = false <-> columns df <> [] /\ rows df <> [].
Proof.
  unfold empty. destruct (columns df), (rows df); simpl.
  all: split; [try discriminate | intros [? ?]; try done].
  intros _; by split.
Qed.

Lemma missing_cols_nil df :
  missing_cols df = [] ->
  "Tonnage"%string ∈ columns df /\ "Yield"%string ∈ columns df
  /\ "Revenue"%string ∈ columns df.
Proof.
  unfold missing_cols, required_cols. intros H.
  rewrite !filter_cons, filter_nil in H.
  repeat case_decide; try discriminate.
  by repeat split.
Qed.

Lemma missing_cols_nil_columns df : missing_cols df = [] -> columns df <> [].
Proof.
  intros H%missing_cols_nil. destruct H as [H _]. intros E. rewrite E in H.
  by apply not_elem_of_nil in H.
Qed.

(** The main path of the normalizer. *)
Lemma clean_main df :
  rows df <> [] -> missing_cols df = [] ->
  clean_and_validate_data df = mkDataFrame (columns df) (clean_row <$> rows df).
Proof.
  intros Hr Hm. unfold clean_and_validate_data.
  assert (empty df = false) as ->
    by (apply empty_false; split; [by apply missing_cols_nil_columns | done]).
  by rewrite Hm.
Qed.

Lemma clean_rows_length df :
  columns df <> [] ->
  length (rows (clean_and_validate_data df)) = length (rows df).
Proof.
  intros Hc. unfold clean_and_validate_data.
  destruct (empty df) eqn:He.
  - unfold empty in He. destruct (columns df); [done|].
    by destruct (rows df).
  - destruct (missing_cols df); [|done]. simpl. by rewrite length_fmap.
Qed.

Lemma same_rows_refl df : same_rows df df.
Proof. unfold same_rows. apply Forall_Forall2_diag, Forall_forall. by intros. Qed.

Lemma same_rows_fmap df cols f :
  (forall row, other_cols (f row) = other_cols row) ->
  same_rows df (mkDataFrame cols (f <$> rows df)).
Proof.
  intros Hf. unfold same_rows; simpl.
  apply Forall2_fmap_r, Forall_Forall2_diag, Forall_forall.
  intros row _. apply Hf.
Qed.

Lemma same_rows_imap df cols f :
  (forall i row, other_cols (f i row) = other_cols row) ->
  same_rows df (mkDataFrame cols (imap f (rows df))).
Proof.
  intros Hf. unfold same_rows; simpl.
  generalize dependent f. induction (rows df) as [|row rs IH]; intros f Hf.
  - constructor.
  - simpl. constructor; [apply Hf|]. apply IH. intros. apply Hf.
Qed.

Lemma same_rows_trans df1 df2 df3 :
  same_rows df1 df2 -> same_rows df2 df3 -> same_rows df1 df3.
Proof.
  unfold same_rows. intros H12 H23.
  eapply Forall2_trans; [| exact H12 | exact H23].
  simpl. intros x y z Hxy Hyz. congruence.
Qed.

Lemma same_rows_clean df : columns df <> [] -> same_rows df (clean_and_validate_data df).
Proof.
  intros Hc. unfold clean_and_validate_data.
  destruct (empty df) eqn:He.
  - unfold empty in He. destruct (columns df); [done|].
    unfold same_rows. destruct (rows df); [constructor | done].
  - destruct (missing_cols df); [|apply same_rows_refl].
    apply same_rows_fmap, other_cols_clean_row.
Qed.
End Frames.

Section Numbers.
Lemma gtb0_true x : PyNum.gtb0 x = true <-> 0 < x.
Proof.
  unfold PyNum.gtb0. rewrite negb_true_iff, <- not_true_iff_false, Qle_bool_iff.
  split; [apply Qnot_le_lt | apply Qlt_not_le].
Qed.

Lemma gtb0_false x : PyNum.gtb0 x = false <-> x <= 0.
Proof. unfold PyNum.gtb0. by rewrite negb_false_iff, Qle_bool_iff. Qed.

Lemma leb0_true x : PyNum.leb0 x = true <-> x <= 0.
Proof. apply Qle_bool_iff. Qed.

Lemma leb0_false x : PyNum.leb0 x = false <-> 0 < x.
Proof.
  unfold PyNum.leb0. rewrite <- not_true_iff_false, Qle_bool_iff.
  split; [apply Qnot_le_lt | apply Qlt_not_le].
Qed.

Lemma max0_nonpos x : x <= 0 -> PyNum.max0 x = 0.
Proof. intros H%gtb0_false. unfold PyNum.max0. by rewrite H. Qed.

Lemma max0_pos x : 0 < x -> PyNum.max0 x = x.
Proof. intros H%gtb0_true. unfold PyNum.max0. by rewrite H. Qed.
End Numbers.

(** ** The normalizer: zeroing *)

Lemma clean_row_nonpos row q :
  loc row "Tonnage" = Num q \/ loc row "Yield" = Num q ->
  q <= 0 ->
  clean_row row = zero_row row.
Proof.
  intros Hq Hle. unfold clean_row, clean_row_try.
  destruct (to_float (loc row "Tonnage")) as [t|] eqn:Et; simpl; [|done].
  destruct (to_float (loc row "Yield")) as [y|] eqn:Ey; simpl; [|done].
  destruct (to_float (loc row "Revenue")) as [r|]; simpl; [|done].
  destruct Hq as [Hq|Hq]; rewrite Hq in *; simpl in *; simplify_eq.
  - by rewrite (max0_nonpos _ Hle).
  - rewrite (max0_nonpos _ Hle). simpl. by rewrite orb_true_r.
Qed.

(** C4. A row whose tonnage or whose yield is at most 0 before the
    normalizer runs (for instance a tonnage of -5, whatever the yield and
    the revenue hold, a number of any sign, a missing value or a payload
    that is no number) is (0, 0, 0) after it: the row at the same position
    of the result carries 0 in Tonnage, Yield and Revenue. *)
Theorem normalize_all_or_nothing (df : DataFrame) (i : nat)
    (row : gmap string cell) (q : Q) :
  missing_cols df = [] ->
  rows df !! i = Some row ->
  loc row "Tonnage" = Num q \/ loc row "Yield" = Num q ->
  q <= 0 ->
  exists row',
    rows (clean_and_validate_data df) !! i = Some row'
    /\ metrics row' = (Num 0, Num 0, Num 0)
    /\ other_cols row' = other_cols row.
Proof.
  intros Hm Hi Hq Hle.
  assert (rows df <> []) as Hr by (intros E; by rewrite E in Hi).
  rewrite (clean_main _ Hr Hm). simpl.
  exists (zero_row row). split; [|split].
  - rewrite list_lookup_fmap, Hi. simpl. f_equal. by eapply clean_row_nonpos.
  - apply metrics_set_row.
  - apply other_cols_set_row.
Qed.

Lemma normalize_all_or_nothing_witness :
  exists row',
    rows (clean_and_validate_data
            (week_frame [agent_row "A" (Num 120) (Num 2) (Num 240);
                         agent_row "B" (Num (-5)) (Num 3) (Num (-7))])) !! 1%nat
      = Some row'
    /\ metrics row' = (Num 0, Num 0, Num 0)
    /\ other_cols row' = other_cols (agent_row "B" (Num (-5)) (Num 3) (Num (-7))).
Proof.
  apply (normalize_all_or_nothing _ 1 _ (-5)).
  - reflexivity.
  - reflexivity.
  - left. reflexivity.
  - unfold Qle. simpl. lia.
Defined.

(** ** The normalizer: the revenue it stores *)

(** C1. The normalizer stores the rounded tonnage (2) and the rounded yield
    (2.00) but computes the revenue from the tonnage and the yield as they
    were before rounding: round(2.25 * 2.00, 2) = 4.50.  The row it returns
    is neither (0, 0, 0) nor has revenue round(2 * 2.00, 2) = 4.00. *)
Theorem normalize_revenue_from_unrounded :
  metrics <$> rows (clean_and_validate_data fractional_week)
    = [(Num 2, Num 2, Num (9 # 2))]
  /\ forallb invariant_row (rows (clean_and_validate_data fractional_week)) = false
  /\ ~ (9 # 2 == PyNum.round2 (PyNum.round0 2 * PyNum.round2 2)).
Proof.
  split; [|split].
  - vm_compute. reflexivity.
  - vm_compute. reflexivity.
  - vm_compute. discriminate.
Qed.

(** C3. A second pass of the normalizer changes what the first pass
    returned: the first pass leaves (2, 2.00, 4.50), the second recomputes
    the revenue from the stored tonnage and yield and returns (2, 2.00, 4.00). *)
Theorem normalize_second_pass_differs :
  metrics <$> rows (clean_and_validate_data fractional_week)
    = [(Num 2, Num 2, Num (9 # 2))]
  /\ metrics <$> rows (clean_and_validate_data
                         (clean_and_validate_data fractional_week))
    = [(Num 2, Num 2, Num 4)]
  /\ clean_and_validate_data (clean_and_validate_data fractional_week)
     <> clean_and_validate_data fractional_week.
Proof.
  assert (H1 : metrics <$> rows (clean_and_validate_data fractional_week)
               = [(Num 2, Num 2, Num (9 # 2))])
    by (vm_compute; reflexivity).
  assert (H2 : metrics <$> rows (clean_and_validate_data
                                   (clean_and_validate_data fractional_week))
               = [(Num 2, Num 2, Num 4)])
    by (vm_compute; reflexivity).
  split; [exact H1 | split; [exact H2 |]].
  intros E. rewrite E, H1 in H2. discriminate.
Qed.

(** The zero test of the normalizer runs before the rounding: a tonnage of
    0.25 passes it and is then stored as 0, next to a yield and a revenue
    that are not 0. *)
Example normalize_small_tonnage :
  metrics <$> rows (clean_and_validate_data
                      (week_frame [agent_row "A" (Num (1 # 4)) (Num 1) (Num (1 # 4))]))
  = [(Num 0, Num 1, Num (1 # 4))].
Proof. vm_compute. reflexivity. Qed.

(** ** The allocator: the paths that return the frame as it came *)

(** An empty frame is "no data": both procedures answer it with a new
    frame without rows and without columns. *)
Lemma empty_frame_answer df tt tr ty :
  empty df = true ->
  clean_and_validate_data df = DataFrame_new
  /\ calculate_smart_recommendations df tt tr ty = DataFrame_new.
Proof.
  intros He. unfold clean_and_validate_data, calculate_smart_recommendations.
  by rewrite He.
Qed.

Lemma empty_rows_nil df : columns df <> [] -> empty df = true -> rows df = [].
Proof.
  unfold empty. intros Hc He. destruct (columns df); [done|].
  by destruct (rows df).
Qed.

Lemma targets_test tt tr ty :
  degenerate tt tr ty ->
  PyNum.leb0 tt || PyNum.leb0 tr || PyNum.leb0 ty = true.
Proof.
  intros [H|[H|H]]; apply leb0_true in H; rewrite H;
    rewrite ?orb_true_r; reflexivity.
Qed.

(** C5. With a target that is 0 or negative the allocator gives back the
    table it was given: the rows of the result are the rows of the input,
    and for an input with at least one row the returned frame is the input
    frame itself. *)
Theorem allocate_degenerate_targets_noop (df : DataFrame) (tt tr ty : Q) :
  degenerate tt tr ty ->
  columns df <> [] ->
  rows (calculate_smart_recommendations df tt tr ty) = rows df
  /\ (rows df <> [] -> calculate_smart_recommendations df tt tr ty = df).
Proof.
  intros Hd Hc. unfold calculate_smart_recommendations.
  rewrite (targets_test _ _ _ Hd).
  destruct (empty df) eqn:He.
  - apply empty_rows_nil in He; [|done]. rewrite He. by split.
  - by split.
Qed.

Lemma allocate_degenerate_targets_noop_witness :
  let df := week_frame [agent_row "A" (Num 100) (Num 2) (Num 200);
                        agent_row "B" (Num 300) (Num 3) (Num 900)] in
  rows (calculate_smart_recommendations df 0 100 5) = rows df
  /\ (rows df <> [] -> calculate_smart_recommendations df 0 100 5 = df).
Proof.
  intros df. apply (allocate_degenerate_targets_noop df 0 100 5).
  - left. unfold Qle. simpl. lia.
  - discriminate.
Defined.

(** C10. A frame that lacks one of the columns Tonnage, Yield, Revenue goes
    through both procedures untouched, whatever the targets: no cell is
    coerced, clamped, zeroed or recomputed.  The rows of both results are
    the rows of the input, and for an input with at least one row both
    results are the input frame itself. *)
Theorem missing_columns_unchanged (df : DataFrame) (tt tr ty : Q) :
  missing_cols df <> [] ->
  columns df <> [] ->
  (rows (clean_and_validate_data df) = rows df
   /\ rows (calculate_smart_recommendations df tt tr ty) = rows df)
  /\ (rows df <> [] ->
      clean_and_validate_data df = df
      /\ calculate_smart_recommendations df tt tr ty = df).
Proof.
  intros Hm Hc.
  unfold clean_and_validate_data, calculate_smart_recommendations.
  destruct (empty df) eqn:He.
  - apply empty_rows_nil in He; [|done]. rewrite He. by repeat split.
  - destruct (missing_cols df) as [|c cs]; [done|].
    destruct (_ || _); by repeat split.
Qed.

Lemma missing_columns_unchanged_witness :
  let df := mkDataFrame ["Agent"; "Tonnage"; "Yield"]%string
              [<["Yield"%string := Num (-3)]>
                 (<["Tonnage"%string := Num (-5)]>
                    (<["Agent"%string := Obj "A"]> ∅))] in
  (rows (clean_and_validate_data df) = rows df
   /\ rows (calculate_smart_recommendations df 800 2400 3) = rows df)
  /\ (rows df <> [] ->
      clean_and_validate_data df = df
      /\ calculate_smart_recommendations df 800 2400 3 = df).
Proof.
  intros df. apply (missing_columns_unchanged df 800 2400 3).
  - vm_compute. discriminate.
  - discriminate.
Defined.

(** ** Row count and row order *)

Lemma same_rows_length df df' :
  same_rows df df' -> length (rows df') = length (rows df).
Proof. intros H. symmetry. by eapply Forall2_length. Qed.

Lemma columns_equal_split tt tr ty df :
  columns (equal_split tt tr ty df) = columns df.
Proof. unfold equal_split. by destruct (_ <? _)%nat. Qed.

Lemma same_rows_equal_split tt tr ty df : same_rows df (equal_split tt tr ty df).
Proof.
  unfold equal_split. destruct (_ <? _)%nat; [|apply same_rows_refl].
  apply same_rows_fmap. intros row. apply other_cols_set_row.
Qed.

Lemma same_rows_distribute tt tr ty st sr sel df :
  same_rows df (distribute tt tr ty st sr sel df).
Proof.
  unfold distribute. apply same_rows_imap.
  intros i row. apply other_cols_distribute_row.
Qed.

Lemma same_rows_allocate df tt tr ty :
  columns df <> [] ->
  same_rows df (calculate_smart_recommendations df tt tr ty).
Proof.
  intros Hc. unfold calculate_smart_recommendations.
  destruct (empty df) eqn:He.
  { apply empty_rows_nil in He; [|done]. unfold same_rows. rewrite He. constructor. }
  destruct (_ || _); [apply same_rows_refl|].
  destruct (missing_cols df); [|apply same_rows_refl].
  destruct (valid_mask df) as [mask|]; [|apply same_rows_refl].
  destruct (select_from 0 mask (rows df)) as [|v vd] eqn:Es.
  - eapply same_rows_trans; [apply same_rows_equal_split|].
    apply same_rows_clean. by rewrite columns_equal_split.
  - destruct (_ || _); [apply same_rows_refl|].
    eapply same_rows_trans; [apply same_rows_distribute|].
    by apply same_rows_clean.
Qed.

(** C8. Normalizer and allocator both return as many rows as they were
    given, in the order they were given: row [i] of the result is row [i] of
    the input in every column but the three metrics (the columns that tell
    the agents apart stay where they were). *)
Theorem rows_count_and_order_preserved (df : DataFrame) (tt tr ty : Q) :
  columns df <> [] ->
  (length (rows (clean_and_validate_data df)) = length (rows df)
   /\ same_rows df (clean_and_validate_data df))
  /\ (length (rows (calculate_smart_recommendations df tt tr ty)) = length (rows df)
      /\ same_rows df (calculate_smart_recommendations df tt tr ty)).
Proof.
  intros Hc.
  pose proof (same_rows_clean df Hc) as H1.
  pose proof (same_rows_allocate df tt tr ty Hc) as H2.
  repeat split; auto using same_rows_length.
Qed.

Lemma rows_count_and_order_preserved_witness :
  let df := week_frame [agent_row "A" (Num 100) (Num 2) (Num 200);
                        agent_row "B" NaN (Num 3) (Obj "n/a");
                        agent_row "C" (Num 300) (Num 3) (Num 900)] in
  (length (rows (clean_and_validate_data df)) = length (rows df)
   /\ same_rows df (clean_and_validate_data df))
  /\ (length (rows (calculate_smart_recommendations df 800 2400 3)) = length (rows df)
      /\ same_rows df (calculate_smart_recommendations df 800 2400 3)).
Proof.
  intros df. apply (rows_count_and_order_preserved df 800 2400 3). discriminate.
Defined.

(** ** The selection of the valid rows *)

Section Selection.
Implicit Types (row : gmap string cell) (rs : list (gmap string cell)).

Lemma gt0_true c : gt0 c = Some true -> exists q, c = Num q /\ 0 < q.
Proof.
  destruct c as [q| |s]; simpl; try discriminate.
  intros [= H%gtb0_true]. eauto.
Qed.

(** A valid row holds three strictly positive numbers. *)
Lemma row_valid_true row :
  row_valid row = Some true ->
  exists t y r,
    loc row "Tonnage" = Num t /\ loc row "Yield" = Num y
    /\ loc row "Revenue" = Num r /\ 0 < t /\ 0 < y /\ 0 < r.
Proof.
  unfold row_valid. intros H.
  destruct (gt0 (loc row "Tonnage")) as [bt|] eqn:Et; simpl in H; [|done].
  destruct (gt0 (loc row "Yield")) as [by_|] eqn:Ey; simpl in H; [|done].
  destruct (gt0 (loc row "Revenue")) as [br|] eqn:Er; simpl in H; [|done].
  injection H as H.
  apply andb_true_iff in H as [H Hr]. apply andb_true_iff in H as [Ht Hy].
  subst bt by_ br.
  apply gt0_true in Et as (t & -> & ?).
  apply gt0_true in Ey as (y & -> & ?).
  apply gt0_true in Er as (r & -> & ?).
  exists t, y, r. by repeat split.
Qed.

(** The selected rows are the valid rows, in order. *)
Lemma select_from_filter k mask rs :
  mapM row_valid rs = Some mask ->
  snd <$> select_from k mask rs = valid_rows rs.
Proof.
  unfold valid_rows. intros H%mapM_Some_1. revert k.
  induction H as [|row b rs mask Hb _ IH]; intros k; [done|].
  simpl. rewrite fmap_app, IH, filter_cons.
  destruct b; case_decide; simpl; congruence.
Qed.

Lemma select_from_nil k mask rs :
  mapM row_valid rs = Some mask ->
  select_from k mask rs = []
  <-> Forall (fun row => row_valid row = Some false) rs.
Proof.
  intros H%mapM_Some_1. revert k.
  induction H as [|row b rs mask Hb _ IH]; intros k; [done|].
  simpl. rewrite Forall_cons, <- (IH (S k)).
  destruct b; simpl.
  - split; [discriminate | intros [? _]; congruence].
  - split; [by split | by intros [_ ?]].
Qed.

Lemma no_valid_mask rs :
  Forall (fun row => row_valid row = Some false) rs ->
  exists mask, mapM row_valid rs = Some mask /\ select_from 0 mask rs = [].
Proof.
  intros H.
  assert (exists mask, mapM row_valid rs = Some mask) as [mask Hm].
  { induction H as [|row rs Hrow _ [mask IH]]; [by exists []|].
    exists (false :: mask). apply mapM_Some. constructor; [done|].
    by apply mapM_Some. }
  exists mask. split; [done|]. by apply (select_from_nil 0 mask rs Hm).
Qed.

Lemma valid_rows_positive rs :
  Forall (fun row => exists t y r,
            loc row "Tonnage" = Num t /\ loc row "Yield" = Num y
            /\ loc row "Revenue" = Num r /\ 0 < t /\ 0 < y /\ 0 < r)
         (valid_rows rs).
Proof.
  unfold valid_rows. apply Forall_forall. intros row [Hv _]%list_elem_of_filter.
  by apply row_valid_true.
Qed.
End Selection.

(** ** Sums *)

Section Sums.
Lemma Qsum_pos (l : list Q) : Forall (fun q => 0 < q) l -> l <> [] -> 0 < Qsum l.
Proof.
  intros H. induction H as [|q l Hq Hl IH]; [done|]. intros _.
  unfold Qsum in *. simpl. destruct l as [|q' l'].
  - simpl. lra.
  - assert (0 < foldr Qplus 0 (q' :: l')) by (by apply IH). lra.
Qed.

Lemma col_sum_pos col (rs : list (gmap string cell)) :
  Forall (fun row => exists q, loc row col = Num q /\ 0 < q) rs ->
  rs <> [] -> 0 < col_sum col rs.
Proof.
  intros H Hne. unfold col_sum. apply Qsum_pos.
  - apply Forall_fmap. eapply Forall_impl; [exact H|].
    simpl. intros row (q & -> & Hq). exact Hq.
  - by destruct rs.
Qed.

Lemma valid_rows_sums_pos rs :
  valid_rows rs <> [] ->
  0 < col_sum "Tonnage" (valid_rows rs) /\ 0 < col_sum "Revenue" (valid_rows rs).
Proof.
  intros Hne. pose proof (valid_rows_positive rs) as Hpos.
  split; (apply col_sum_pos; [|done]); (eapply Forall_impl; [exact Hpos|]);
    simpl; intros row (t & y & r & ? & ? & ? & ? & ? & ?); eauto.
Qed.
End Sums.

(** C9. The test [total_current_tonnage == 0 or total_current_revenue == 0]
    of the allocator can not succeed: it is only reached with a selection of
    valid rows that is not empty, and then the tonnage of the selected rows
    and their revenue both sum to a strictly positive number. *)
Theorem abort_branch_unreachable (df : DataFrame) (mask : list bool) :
  valid_mask df = Some mask ->
  select_from 0 mask (rows df) <> [] ->
  let valid_data := snd <$> select_from 0 mask (rows df) in
  0 < col_sum "Tonnage" valid_data
  /\ 0 < col_sum "Revenue" valid_data
  /\ Qeq_bool (col_sum "Tonnage" valid_data) 0
     || Qeq_bool (col_sum "Revenue" valid_data) 0 = false.
Proof.
  intros Hm Hne valid_data. subst valid_data.
  rewrite (select_from_filter 0 mask (rows df) Hm).
  assert (Hv : valid_rows (rows df) <> []).
  { rewrite <- (select_from_filter 0 mask (rows df) Hm).
    destruct (select_from 0 mask (rows df)); [done | discriminate]. }
  destruct (valid_rows_sums_pos _ Hv) as [Ht Hr].
  split; [done | split; [done|]].
  apply orb_false_iff. split; apply not_true_iff_false;
    intros E%Qeq_bool_iff; rewrite E in *; lra.
Qed.

Lemma abort_branch_unreachable_witness :
  let df := week_frame [agent_row "A" (Num 100) (Num 2) (Num 200);
                        agent_row "B" (Num 0) (Num 3) NaN;
                        agent_row "C" (Num 300) (Num 3) (Num 900)] in
  let valid_data := snd <$> select_from 0 [true; false; true] (rows df) in
  0 < col_sum "Tonnage" valid_data
  /\ 0 < col_sum "Revenue" valid_data
  /\ Qeq_bool (col_sum "Tonnage" valid_data) 0
     || Qeq_bool (col_sum "Revenue" valid_data) 0 = false.
Proof.
  intros df. apply (abort_branch_unreachable df [true; false; true]).
  - reflexivity.
  - discriminate.
Defined.

(** ** The equal-split fallback *)

(** C6. Given strictly positive targets and a table with rows of which
    none is valid, the allocator overwrites every row with
    [target_tonnage / n], [target_avg_yield] and [target_revenue / n], where
    [n] is the number of rows, and returns what the normalizer makes of that
    frame, row by row. *)
Theorem equal_split_fallback (df : DataFrame) (tt tr ty : Q) :
  0 < tt -> 0 < tr -> 0 < ty ->
  missing_cols df = [] ->
  rows df <> [] ->
  Forall (fun row => row_valid row = Some false) (rows df) ->
  let n := inject_Z (Z.of_nat (length (rows df))) in
  let pre := mkDataFrame (columns df) (set_row (tt / n) ty (tr / n) <$> rows df) in
  Forall (fun row => metrics row = (Num (tt / n), Num ty, Num (tr / n))) (rows pre)
  /\ same_rows df pre
  /\ calculate_smart_recommendations df tt tr ty = clean_and_validate_data pre
  /\ rows (calculate_smart_recommendations df tt tr ty) = clean_row <$> rows pre.
Proof.
  intros Htt Htr Hty Hm Hr Hv n pre.
  assert (Hpre : equal_split tt tr ty df = pre).
  { unfold equal_split. destruct (rows df) as [|row rs] eqn:E; [done|].
    reflexivity. }
  assert (Hcalc : calculate_smart_recommendations df tt tr ty
                  = clean_and_validate_data pre).
  { unfold calculate_smart_recommendations.
    assert (empty df = false) as ->
      by (apply empty_false; split; [by apply missing_cols_nil_columns | done]).
    apply leb0_false in Htt, Htr, Hty. rewrite Htt, Htr, Hty, Hm. simpl.
    destruct (no_valid_mask _ Hv) as (mask & Hmask & Hsel).
    unfold valid_mask. rewrite Hmask, Hsel. by rewrite Hpre. }
  split; [|split; [|split]].
  - subst pre. simpl. apply Forall_fmap, Forall_forall. intros row _.
    apply metrics_set_row.
  - subst pre. apply same_rows_fmap. intros row. apply other_cols_set_row.
  - exact Hcalc.
  - rewrite Hcalc. rewrite clean_main; [done| |done].
    subst pre. simpl. by destruct (rows df).
Qed.

Lemma equal_split_fallback_witness :
  let df := week_frame [agent_row "A" (Num 0) (Num 2) (Num 200);
                        agent_row "B" (Num 300) (Num 0) (Num 900);
                        agent_row "C" NaN (Num 1) (Num (-4))] in
  let pre := mkDataFrame (columns df)
               (set_row (1000 / inject_Z 3) 5 (5000 / inject_Z 3) <$> rows df) in
  Forall (fun row => metrics row
                     = (Num (1000 / inject_Z 3), Num 5, Num (5000 / inject_Z 3)))
         (rows pre)
  /\ same_rows df pre
  /\ calculate_smart_recommendations df 1000 5000 5 = clean_and_validate_data pre
  /\ rows (calculate_smart_recommendations df 1000 5000 5) = clean_row <$> rows pre.
Proof.
  intros df.
  apply (equal_split_fallback df 1000 5000 5).
  - reflexivity.
  - reflexivity.
  - reflexivity.
  - reflexivity.
  - discriminate.
  - repeat constructor.
Defined.

(** What the fallback returns for three rows and the targets (1000, 5000, 5). *)
Example equal_split_fallback_values :
  metrics <$> rows (calculate_smart_recommendations
                      (week_frame [agent_row "A" (Num 0) (Num 2) (Num 200);
                                   agent_row "B" (Num 300) (Num 0) (Num 900);
                                   agent_row "C" NaN (Num 1) (Num (-4))])
                      1000 5000 5)
  = [(Num 333, Num 5, Num (166667 # 100));
     (Num 333, Num 5, Num (166667 # 100));
     (Num 333, Num 5, Num (166667 # 100))].
Proof. vm_compute. reflexivity. Qed.

(** ** Scenario A *)

(** Scenario A where every store succeeds (float64 columns): for the
    rows (100, 2, 200) and (300, 3, 900) and the targets
    (800, 2400, 3) both rows are valid; the tonnage weights are 1/4 and 3/4,
    the revenue weights 2/11 and 9/11 (0.1818 and 0.8182), the combined
    weights 19/88 and 69/88 (0.2159 and 0.7841); the rows get the tonnage
    1900/11 and 6900/11 (172.7 and 627.3), the revenue 5700/11 and 20700/11
    (518.2 and 1881.8) and the yield 3; the normalizer rounds them and the
    allocator returns (173, 3.00, 518.18) and (627, 3.00, 1881.82). *)
Theorem scenario_A_allocation :
  valid_mask scenario_A = Some [true; true]
  /\ weight_column "tonnage_weight" scenario_A_valid_data = [1 # 4; 3 # 4]
  /\ weight_column "revenue_weight" scenario_A_valid_data = [2 # 11; 9 # 11]
  /\ weight_column "combined_weight" scenario_A_valid_data = [19 # 88; 69 # 88]
  /\ close_to (1 # 10000) [2 # 11; 9 # 11] [1818 # 10000; 8182 # 10000]
  /\ close_to (1 # 10000) [19 # 88; 69 # 88] [2159 # 10000; 7841 # 10000]
  /\ metric_column "Tonnage" scenario_A_distributed = [1900 # 11; 6900 # 11]
  /\ metric_column "Revenue" scenario_A_distributed = [5700 # 11; 20700 # 11]
  /\ metric_column "Yield" scenario_A_distributed = [3; 3]
  /\ close_to (5 # 100) [1900 # 11; 6900 # 11] [1727 # 10; 6273 # 10]
  /\ close_to (5 # 100) [5700 # 11; 20700 # 11] [5182 # 10; 18818 # 10]
  /\ calculate_smart_recommendations scenario_A 800 2400 3
     = clean_and_validate_data scenario_A_distributed
  /\ metrics <$> rows (calculate_smart_recommendations scenario_A 800 2400 3)
     = [(Num 173, Num 3, Num (Qred (51818 # 100)));
        (Num 627, Num 3, Num (Qred (188182 # 100)))].
Proof.
  repeat split; try (vm_compute; reflexivity).
  all: unfold close_to;
    repeat (constructor 2; [vm_compute; discriminate|]); constructor 1.
Qed.

(** ** Rounding *)

Section Rounding.
Lemma round_half_even_bound x :
  - (1 # 2) <= inject_Z (PyNum.round_half_even x) - x <= 1 # 2.
Proof.
  unfold PyNum.round_half_even.
  pose proof (Qfloor_le x) as Hlo. pose proof (Qlt_floor x) as Hhi.
  rewrite inject_Z_plus in Hhi. change (inject_Z 1) with 1 in Hhi.
  destruct (Qcompare_spec (x - inject_Z (Qfloor x)) (1 # 2)) as [E|L|G].
  - destruct (Z.even (Qfloor x)).
    + lra.
    + rewrite inject_Z_plus. change (inject_Z 1) with 1. lra.
  - lra.
  - rewrite inject_Z_plus. change (inject_Z 1) with 1. lra.
Qed.

Lemma round_half_even_comp x y :
  x == y -> PyNum.round_half_even x = PyNum.round_half_even y.
Proof.
  intros E. unfold PyNum.round_half_even.
  rewrite (Qfloor_comp _ _ E).
  assert (x - inject_Z (Qfloor y) == y - inject_Z (Qfloor y)) as -> by lra.
  reflexivity.
Qed.

Lemma round0_bound x : - (1 # 2) <= PyNum.round0 x - x <= 1 # 2.
Proof. apply round_half_even_bound. Qed.

Lemma round2_value x :
  PyNum.round2 x == inject_Z (PyNum.round_half_even (x * 100)) / 100.
Proof.
  unfold PyNum.round2. rewrite Qred_correct.
  unfold Qdiv, Qmult, Qinv, Qeq, inject_Z. simpl. lia.
Qed.

Lemma round2_bound x : - (1 # 200) <= PyNum.round2 x - x <= 1 # 200.
Proof.
  pose proof (round_half_even_bound (x * 100)) as H.
  pose proof (round2_value x) as E.
  assert (inject_Z (PyNum.round_half_even (x * 100)) / 100
          == inject_Z (PyNum.round_half_even (x * 100)) * (1 # 100)) as E'
    by (unfold Qdiv; reflexivity).
  lra.
Qed.

Lemma round2_comp x y : x == y -> PyNum.round2 x = PyNum.round2 y.
Proof.
  intros E. unfold PyNum.round2.
  assert (x * 100 == y * 100) as E' by lra.
  by rewrite (round_half_even_comp _ _ E').
Qed.
End Rounding.

(** ** The weighted distribution, row by row *)

Section Lookup.
Implicit Types (row : gmap string cell) (rs : list (gmap string cell)).
Variable f : gmap string cell -> gmap string cell.

(** Index labels below the first label of a selection are not in it. *)
Lemma at_index_select_below mask rs k j :
  (j < k)%nat ->
  at_index j (prod_map id f <$> select_from k mask rs) = None.
Proof.
  revert mask k. induction rs as [|row rs IH]; intros mask k Hlt.
  - by destruct mask.
  - destruct mask as [|b mask]; [done|]. simpl.
    rewrite fmap_app. destruct b; simpl.
    + assert (Nat.eqb k j = false) as -> by (apply Nat.eqb_neq; lia).
      apply IH. lia.
    + apply IH. lia.
Qed.

(** [idx in valid_data.index] holds exactly for the valid rows, and
    [valid_data.loc[idx]] is then the row of that position. *)
Lemma at_index_select mask rs k i row :
  mapM row_valid rs = Some mask ->
  rs !! i = Some row ->
  at_index (k + i) (prod_map id f <$> select_from k mask rs)
  = if decide (row_valid row = Some true) then Some (f row) else None.
Proof.
  intros H%mapM_Some_1. revert k i.
  induction H as [|row0 b rs mask Hb _ IH]; intros k i Hi; [done|].
  simpl. rewrite fmap_app. destruct i as [|i]; simpl in Hi.
  - injection Hi as ->. rewrite Nat.add_0_r. destruct b; simpl.
    + rewrite Nat.eqb_refl. by rewrite decide_True.
    + rewrite decide_False by congruence.
      apply at_index_select_below. lia.
  - specialize (IH (S k) i Hi).
    replace (S k + i)%nat with (k + S i)%nat in IH by lia.
    destruct b; simpl; [|exact IH].
    destruct (Nat.eqb_spec k (k + S i)) as [E|_]; [lia | exact IH].
Qed.
End Lookup.

Lemma loc_combined_weight st sr row :
  cell_value (loc (with_weights st sr row) "combined_weight") = weight_of st sr row.
Proof. unfold loc, with_weights, weight_of. by simplify_map_eq. Qed.

(** The distribution loop as a map over the rows. *)
Lemma distribute_rows tt tr ty st sr mask df :
  valid_mask df = Some mask ->
  rows (distribute tt tr ty st sr (select_from 0 mask (rows df)) df)
  = allocated_row tt tr ty st sr <$> rows df.
Proof.
  intros Hm. unfold distribute. simpl.
  rewrite <- (imap_const (allocated_row tt tr ty st sr)).
  apply imap_ext. intros i row Hi. simpl.
  unfold distribute_row, allocated_row.
  pose proof (at_index_select (with_weights st sr) mask (rows df) 0 i row Hm Hi)
    as Hat.
  change (0 + i)%nat with i in Hat. rewrite Hat.
  case_decide; [|done]. by rewrite loc_combined_weight.
Qed.

(** The main path of the allocator. *)
Lemma allocate_main df tt tr ty :
  0 < tt -> 0 < tr -> 0 < ty ->
  missing_cols df = [] ->
  is_Some (valid_mask df) ->
  valid_rows (rows df) <> [] ->
  rows (calculate_smart_recommendations df tt tr ty)
  = clean_row <$>
      (allocated_row tt tr ty
         (col_sum "Tonnage" (valid_rows (rows df)))
         (col_sum "Revenue" (valid_rows (rows df))) <$> rows df).
Proof.
  intros Htt Htr Hty Hm [mask Hmask] Hv.
  assert (Hr : rows df <> []) by (intros E; by rewrite E in Hv).
  pose proof (select_from_filter 0 mask (rows df) Hmask) as Hsel.
  destruct (valid_rows_sums_pos _ Hv) as [Hst Hsr].
  unfold calculate_smart_recommendations.
  assert (empty df = false) as ->
    by (apply empty_false; split; [by apply missing_cols_nil_columns | done]).
  apply leb0_false in Htt, Htr, Hty. rewrite Htt, Htr, Hty, Hm, Hmask. simpl.
  destruct (select_from 0 mask (rows df)) as [|v vd] eqn:Es.
  { simpl in Hsel. by rewrite <- Hsel in Hv. }
  rewrite <- Es. rewrite <- Es in Hsel. rewrite Hsel.
  assert (Qeq_bool (col_sum "Tonnage" (valid_rows (rows df))) 0
          || Qeq_bool (col_sum "Revenue" (valid_rows (rows df))) 0 = false) as ->.
  { apply orb_false_iff. split; apply not_true_iff_false;
      intros E%Qeq_bool_iff; rewrite E in *; lra. }
  rewrite clean_main.
  - simpl. f_equal.
    apply (distribute_rows _ _ _ _ _ mask df Hmask).
  - simpl. destruct (rows df); [done | discriminate].
  - exact Hm.
Qed.

(** ** What the normalizer makes of the distributed rows *)

Lemma Qeq_bool_pos x : 0 < x -> Qeq_bool x 0 = false.
Proof.
  intros H. apply not_true_iff_false. intros E%Qeq_bool_iff. rewrite E in H. lra.
Qed.

Lemma clean_row_pos row t y r :
  loc row "Tonnage" = Num t -> loc row "Yield" = Num y -> loc row "Revenue" = Num r ->
  0 < t -> 0 < y ->
  metrics (clean_row row)
  = (Num (PyNum.round0 t), Num (PyNum.round2 y), Num (PyNum.round2 (t * y))).
Proof.
  intros Et Ey Er Ht Hy. unfold clean_row, clean_row_try.
  rewrite Et, Ey, Er. simpl.
  rewrite (max0_pos _ Ht), (max0_pos _ Hy).
  rewrite (Qeq_bool_pos _ Ht), (Qeq_bool_pos _ Hy). simpl.
  apply metrics_set_row.
Qed.

Lemma clean_row_zero row :
  metrics (clean_row (zero_row row)) = (Num 0, Num 0, Num 0).
Proof.
  rewrite (clean_row_nonpos (zero_row row) 0).
  - apply metrics_set_row.
  - left. apply loc_set_row_tonnage.
  - lra.
Qed.

Section Allocated.
Variables (tt tr ty st sr : Q).
Hypotheses (Htt : 0 < tt) (Htr : 0 < tr) (Hst : 0 < st) (Hsr : 0 < sr).

Lemma weight_of_pos row :
  row_valid row = Some true -> 0 < weight_of st sr row.
Proof.
  intros (t & y & r & Et & _ & Er & Ht & _ & Hr)%row_valid_true.
  unfold weight_of. rewrite Et, Er. simpl.
  assert (0 < t / st) by (apply Qlt_shift_div_l; lra).
  assert (0 < r / sr) by (apply Qlt_shift_div_l; lra).
  apply Qlt_shift_div_l; lra.
Qed.

(** A valid row: rounded share of the tonnage target, rounded ratio of
    the two targets, rounded share of the revenue target. *)
Lemma clean_allocated_valid row :
  row_valid row = Some true ->
  metrics (clean_row (allocated_row tt tr ty st sr row))
  = (Num (PyNum.round0 (tt * weight_of st sr row)),
     Num (PyNum.round2 (tr * weight_of st sr row / (tt * weight_of st sr row))),
     Num (PyNum.round2 (tr * weight_of st sr row))).
Proof.
  intros Hv. pose proof (weight_of_pos row Hv) as Hw.
  unfold allocated_row. rewrite decide_True by done. simpl.
  set (w := weight_of st sr row) in *.
  assert (Ha : 0 < tt * w) by (apply Qmult_lt_0_compat; lra).
  assert (Hb : 0 < tr * w) by (apply Qmult_lt_0_compat; lra).
  assert (PyNum.gtb0 (tt * w) = true) as -> by (by apply gtb0_true).
  assert (Hy : 0 < tr * w / (tt * w)) by (apply Qlt_shift_div_l; lra).
  rewrite (clean_row_pos _ (tt * w) (tr * w / (tt * w)) (tr * w));
    auto using loc_set_row_tonnage, loc_set_row_yield, loc_set_row_revenue.
  do 2 f_equal. apply round2_comp. field. lra.
Qed.

Lemma clean_allocated_invalid row :
  row_valid row <> Some true ->
  metrics (clean_row (allocated_row tt tr ty st sr row)) = (Num 0, Num 0, Num 0).
Proof.
  intros Hv. unfold allocated_row. rewrite decide_False by done.
  apply clean_row_zero.
Qed.
End Allocated.

(** ** Sums over the rows *)

Section MoreSums.
Context {A : Type} (P : A -> Prop) `{!forall x, Decision (P x)}.

Lemma inject_nat_S (n : nat) :
  inject_Z (Z.of_nat (S n)) == inject_Z (Z.of_nat n) + 1.
Proof. rewrite Nat2Z.inj_succ, <- Z.add_1_r, inject_Z_plus. reflexivity. Qed.

(** A sum of values that vanish outside [P] and are within [c] of [e]
    inside it is within [c] per element of [P] of the sum of [e]. *)
Lemma Qsum_filter_bound (g e : A -> Q) (c : Q) (l : list A) :
  (forall x, ~ P x -> g x == 0) ->
  (forall x, P x -> - c <= g x - e x <= c) ->
  - (c * inject_Z (Z.of_nat (length (filter P l))))
  <= Qsum (g <$> l) - Qsum (e <$> filter P l)
  <= c * inject_Z (Z.of_nat (length (filter P l))).
Proof.
  intros Hout Hin. induction l as [|x l IH].
  - rewrite filter_nil. unfold Qsum. simpl.
    change (inject_Z (Z.of_nat 0)) with 0. lra.
  - rewrite filter_cons. case_decide as Hx.
    + specialize (Hin x Hx). cbn [length]. rewrite inject_nat_S.
      unfold Qsum in *. rewrite !fmap_cons. cbn [foldr]. nra.
    + specialize (Hout x Hx). unfold Qsum in *. rewrite !fmap_cons.
      cbn [foldr]. lra.
Qed.

Lemma Qsum_scale (c : Q) (f : A -> Q) (l : list A) :
  Qsum ((fun x => c * f x) <$> l) == c * Qsum (f <$> l).
Proof.
  induction l as [|x l IH]; unfold Qsum in *.
  - simpl. lra.
  - rewrite !fmap_cons. cbn [foldr]. lra.
Qed.
End MoreSums.

Lemma Qsum_weight_of st sr (rs : list (gmap string cell)) :
  Qsum (weight_of st sr <$> rs)
  == (col_sum "Tonnage" rs / st + col_sum "Revenue" rs / sr) / 2.
Proof.
  unfold col_sum. induction rs as [|row rs IH]; unfold Qsum in *.
  - simpl. unfold Qdiv. lra.
  - rewrite !fmap_cons. cbn [foldr]. unfold weight_of at 1.
    unfold Qdiv in *. lra.
Qed.

(** The combined weights of the valid rows add up to 1. *)
Lemma valid_weights_sum_1 rs :
  valid_rows rs <> [] ->
  Qsum (weight_of (col_sum "Tonnage" (valid_rows rs))
                  (col_sum "Revenue" (valid_rows rs)) <$> valid_rows rs) == 1.
Proof.
  intros Hne. destruct (valid_rows_sums_pos rs Hne) as [Ht Hr].
  rewrite Qsum_weight_of. field. split; lra.
Qed.

(** ** Conservation of the targets *)


(** Conservation where every store succeeds (float64 or object columns):
    with strictly positive targets and at least one valid row, the
    tonnage of the returned table adds up to the tonnage target and its
    revenue to the revenue target, up to the rounding of the normalizer:
    half a unit of tonnage and half a hundredth of revenue for each valid
    row.  (Exact arithmetic: the rounding error of the floating point
    operations themselves is outside the model.) *)
Theorem allocation_conserves_targets (df : DataFrame) (tt tr ty : Q) :
  0 < tt -> 0 < tr -> 0 < ty ->
  missing_cols df = [] ->
  is_Some (valid_mask df) ->
  valid_rows (rows df) <> [] ->
  let out := calculate_smart_recommendations df tt tr ty in
  let n := inject_Z (Z.of_nat (length (valid_rows (rows df)))) in
  Qabs (col_sum "Tonnage" (rows out) - tt) <= (1 # 2) * n
  /\ Qabs (col_sum "Revenue" (rows out) - tr) <= (1 # 200) * n.
Proof.
  intros Htt Htr Hty Hm Hmask Hv out n. subst out.
  rewrite (allocate_main df tt tr ty Htt Htr Hty Hm Hmask Hv).
  destruct (valid_rows_sums_pos _ Hv) as [Hst Hsr].
  pose proof (valid_weights_sum_1 _ Hv) as Hw.
  set (st := col_sum "Tonnage" (valid_rows (rows df))) in *.
  set (sr := col_sum "Revenue" (valid_rows (rows df))) in *.
  unfold col_sum. rewrite <- !list_fmap_compose.
  split; apply Qabs_Qle_condition.
  - pose proof (Qsum_filter_bound (fun row => row_valid row = Some true)
                  ((fun row => cell_value (loc row "Tonnage"))
                     ∘ clean_row ∘ allocated_row tt tr ty st sr)
                  (fun row => tt * weight_of st sr row) (1 # 2) (rows df)) as Hb.
    fold (valid_rows (rows df)) in Hb. fold n in Hb.
    pose proof (Qsum_scale tt (weight_of st sr) (valid_rows (rows df))) as Hs.
    assert (Hb' := Hb ltac:(
      intros row Hrow; simpl;
      apply (clean_allocated_invalid tt tr ty st sr) in Hrow;
      apply metrics_inv in Hrow as (-> & _ & _); reflexivity)
      ltac:(
      intros row Hrow; simpl;
      rewrite (proj1 (metrics_inv _ _ _ _
                 (clean_allocated_valid tt tr ty st sr Htt Htr Hst Hsr row Hrow)));
      apply round0_bound)).
    rewrite Hw in Hs. clear Hb. lra.
  - pose proof (Qsum_filter_bound (fun row => row_valid row = Some true)
                  ((fun row => cell_value (loc row "Revenue"))
                     ∘ clean_row ∘ allocated_row tt tr ty st sr)
                  (fun row => tr * weight_of st sr row) (1 # 200) (rows df)) as Hb.
    fold (valid_rows (rows df)) in Hb. fold n in Hb.
    pose proof (Qsum_scale tr (weight_of st sr) (valid_rows (rows df))) as Hs.
    assert (Hb' := Hb ltac:(
      intros row Hrow; simpl;
      apply (clean_allocated_invalid tt tr ty st sr) in Hrow;
      apply metrics_inv in Hrow as (_ & _ & ->); reflexivity)
      ltac:(
      intros row Hrow; simpl;
      rewrite (proj2 (proj2 (metrics_inv _ _ _ _
                 (clean_allocated_valid tt tr ty st sr Htt Htr Hst Hsr row Hrow))));
      apply round2_bound)).
    rewrite Hw in Hs. clear Hb. lra.
Qed.

Lemma allocation_conserves_targets_witness :
  let out := calculate_smart_recommendations scenario_A 800 2400 3 in
  let n := inject_Z (Z.of_nat (length (valid_rows (rows scenario_A)))) in
  Qabs (col_sum "Tonnage" (rows out) - 800) <= (1 # 2) * n
  /\ Qabs (col_sum "Revenue" (rows out) - 2400) <= (1 # 200) * n.
Proof.
  apply (allocation_conserves_targets scenario_A 800 2400 3).
  - reflexivity.
  - reflexivity.
  - reflexivity.
  - reflexivity.
  - vm_compute. eauto.
  - vm_compute. discriminate.
Defined.

(** * Further properties of the normalizer *)

Section RoundingMore.
Lemma round_half_even_inject (k : Z) : PyNum.round_half_even (inject_Z k) = k.
Proof.
  unfold PyNum.round_half_even. rewrite Qfloor_Z.
  destruct (Qcompare_spec (inject_Z k - inject_Z k) (1 # 2)) as [E|L|G];
    [lra | done | lra].
Qed.

Lemma round_half_even_mono x y :
  x <= y -> (PyNum.round_half_even x <= PyNum.round_half_even y)%Z.
Proof.
  intros Hxy. pose proof (Qfloor_resp_le x y Hxy) as Hf.
  unfold PyNum.round_half_even.
  pose proof (Qfloor_le x) as Hlx. pose proof (Qlt_floor x) as Hhx.
  pose proof (Qfloor_le y) as Hly. pose proof (Qlt_floor y) as Hhy.
  destruct (Z.eq_dec (Qfloor x) (Qfloor y)) as [E|N].
  - rewrite E in *.
    destruct (Qcompare_spec (x - inject_Z (Qfloor y)) (1 # 2)) as [Ex|Lx|Gx];
      destruct (Qcompare_spec (y - inject_Z (Qfloor y)) (1 # 2)) as [Ey|Ly|Gy];
      try destruct (Z.even (Qfloor y)); try lia; exfalso; lra.
  - assert (Qfloor x + 1 <= Qfloor y)%Z by lia.
    destruct (Qcompare (x - inject_Z (Qfloor x)) (1 # 2));
      destruct (Qcompare (y - inject_Z (Qfloor y)) (1 # 2));
      try destruct (Z.even (Qfloor x)); try destruct (Z.even (Qfloor y)); lia.
Qed.

Lemma round_half_even_nonneg x : 0 <= x -> (0 <= PyNum.round_half_even x)%Z.
Proof.
  intros H. apply round_half_even_mono in H.
  change 0 with (inject_Z 0) in H. by rewrite round_half_even_inject in H.
Qed.

Lemma round0_mono x y : x <= y -> PyNum.round0 x <= PyNum.round0 y.
Proof.
  intros H. unfold PyNum.round0. rewrite <- Zle_Qle.
  by apply round_half_even_mono.
Qed.

Lemma round2_mono x y : x <= y -> PyNum.round2 x <= PyNum.round2 y.
Proof.
  intros H. rewrite !round2_value.
  assert (Hm : x * 100 <= y * 100) by lra.
  apply round_half_even_mono in Hm. rewrite Zle_Qle in Hm.
  unfold Qdiv. apply Qmult_le_compat_r; [exact Hm | done].
Qed.

Lemma round0_nonneg x : 0 <= x -> 0 <= PyNum.round0 x.
Proof.
  intros H%round_half_even_nonneg. unfold PyNum.round0.
  change 0 with (inject_Z 0). by rewrite <- Zle_Qle.
Qed.

Lemma round2_nonneg x : 0 <= x -> 0 <= PyNum.round2 x.
Proof.
  intros H. apply round2_mono in H. exact H.
Qed.

Lemma round0_round0 x : PyNum.round0 (PyNum.round0 x) = PyNum.round0 x.
Proof. unfold PyNum.round0. by rewrite round_half_even_inject. Qed.

Lemma round2_round2 x : PyNum.round2 (PyNum.round2 x) = PyNum.round2 x.
Proof.
  assert (H : PyNum.round_half_even (PyNum.round2 x * 100)
              = PyNum.round_half_even (x * 100)).
  { transitivity (PyNum.round_half_even
                    (inject_Z (PyNum.round_half_even (x * 100)))).
    - apply round_half_even_comp. rewrite round2_value. field.
    - apply round_half_even_inject. }
  unfold PyNum.round2 at 1. by rewrite H.
Qed.
End RoundingMore.

Section NormalizerMore.
Implicit Types (row : gmap string cell) (df : DataFrame).

Lemma set_row_set_row a b c a' b' c' row :
  set_row a b c (set_row a' b' c' row) = set_row a b c row.
Proof.
  unfold set_row. apply map_eq. intros k.
  destruct (decide (k = "Revenue"%string)) as [->|]; [by simplify_map_eq|].
  destruct (decide (k = "Yield"%string)) as [->|]; [by simplify_map_eq|].
  destruct (decide (k = "Tonnage"%string)) as [->|]; by simplify_map_eq.
Qed.

(** The two ways an iteration of the normalizer ends. *)
Lemma clean_row_cases row :
  clean_row row = zero_row row
  \/ exists t y,
       0 < t /\ 0 < y /\ loc row "Tonnage" = Num t /\ loc row "Yield" = Num y
       /\ is_obj (loc row "Revenue") = false
       /\ clean_row row
          = set_row (PyNum.round0 t) (PyNum.round2 y) (PyNum.round2 (t * y)) row.
Proof.
  destruct (loc row "Tonnage") as [t| |s] eqn:Et.
  - destruct (Qlt_le_dec 0 t) as [Ht|Ht];
      [|left; apply (clean_row_nonpos row t); auto].
    destruct (loc row "Yield") as [y| |s] eqn:Ey.
    + destruct (Qlt_le_dec 0 y) as [Hy|Hy];
        [|left; apply (clean_row_nonpos row y); auto].
      destruct (loc row "Revenue") as [r| |s] eqn:Er.
      * right. exists t, y. repeat split; try done.
        unfold clean_row, clean_row_try. rewrite Et, Ey, Er. simpl.
        by rewrite (max0_pos _ Ht), (max0_pos _ Hy),
          (Qeq_bool_pos _ Ht), (Qeq_bool_pos _ Hy).
      * right. exists t, y. repeat split; try done.
        unfold clean_row, clean_row_try. rewrite Et, Ey, Er. simpl.
        by rewrite (max0_pos _ Ht), (max0_pos _ Hy),
          (Qeq_bool_pos _ Ht), (Qeq_bool_pos _ Hy).
      * left. unfold clean_row, clean_row_try. by rewrite Et, Ey, Er.
    + left. unfold clean_row, clean_row_try. rewrite Et, Ey. simpl.
      destruct (to_float (loc row "Revenue")); simpl; [|done].
      by rewrite orb_true_r.
    + left. unfold clean_row, clean_row_try. by rewrite Et, Ey.
  - left. unfold clean_row, clean_row_try. rewrite Et. simpl.
    destruct (to_float (loc row "Yield")); simpl; [|done].
    destruct (to_float (loc row "Revenue")); simpl; done.
  - left. unfold clean_row, clean_row_try. by rewrite Et.
Qed.

(** What the normalizer does to a row it has already produced. *)
Lemma clean_row_twice row :
  clean_row (clean_row row) = zero_row row
  \/ exists t y,
       0 < t /\ 0 < y /\ PyNum.round0 t = t /\ PyNum.round2 y = y
       /\ clean_row (clean_row row) = set_row t y (PyNum.round2 (t * y)) row.
Proof.
  destruct (clean_row_cases row) as [E|(t & y & Ht & Hy & _ & _ & _ & E)].
  - left. rewrite E. rewrite (clean_row_nonpos (zero_row row) 0).
    + apply set_row_set_row.
    + left. apply loc_set_row_tonnage.
    + lra.
  - rewrite E.
    set (t1 := PyNum.round0 t). set (y1 := PyNum.round2 y).
    set (a := set_row t1 y1 (PyNum.round2 (t * y)) row).
    assert (Ht1 : 0 <= t1) by (apply round0_nonneg; lra).
    assert (Hy1 : 0 <= y1) by (apply round2_nonneg; lra).
    destruct (Qlt_le_dec 0 t1) as [Pt|Zt].
    + destruct (Qlt_le_dec 0 y1) as [Py|Zy].
      * right. exists t1, y1. repeat split; try done.
        { apply round0_round0. }
        { apply round2_round2. }
        destruct (clean_row_cases a) as [Ea|(t' & y' & _ & _ & Et' & Ey' & _ & Ea)].
        { exfalso.
          pose proof (clean_row_pos a t1 y1 (PyNum.round2 (t * y))
                        (loc_set_row_tonnage _ _ _ _) (loc_set_row_yield _ _ _ _)
                        (loc_set_row_revenue _ _ _ _) Pt Py) as Hm.
          apply metrics_inv in Hm as (Hm & _ & _).
          rewrite Ea in Hm. unfold zero_row in Hm.
          rewrite loc_set_row_tonnage in Hm.
          apply (f_equal cell_value) in Hm. cbn [cell_value] in Hm. unfold t1 in Hm.
          rewrite round0_round0 in Hm. fold t1 in Hm. rewrite <- Hm in Pt. lra. }
        subst a. rewrite loc_set_row_tonnage in Et'. rewrite loc_set_row_yield in Ey'.
        injection Et' as <-. injection Ey' as <-.
        rewrite Ea, set_row_set_row. unfold t1 at 1, y1 at 1.
        by rewrite round0_round0, round2_round2.
      * left. rewrite (clean_row_nonpos a y1); [apply set_row_set_row | | done].
        right. apply loc_set_row_yield.
    + left. rewrite (clean_row_nonpos a t1); [apply set_row_set_row | | done].
      left. apply loc_set_row_tonnage.
Qed.

(** After two passes a row is a fixed point of the normalizer. *)
Lemma clean_row_stable row :
  clean_row (clean_row (clean_row row)) = clean_row (clean_row row).
Proof.
  destruct (clean_row_twice row) as [E|(t & y & Ht & Hy & Et & Ey & E)]; rewrite E.
  - rewrite (clean_row_nonpos (zero_row row) 0).
    + apply set_row_set_row.
    + left. apply loc_set_row_tonnage.
    + lra.
  - destruct (clean_row_cases (set_row t y (PyNum.round2 (t * y)) row))
      as [Ea|(t' & y' & _ & _ & Et' & Ey' & _ & Ea)].
    + exfalso.
      pose proof (clean_row_pos _ t y (PyNum.round2 (t * y))
                    (loc_set_row_tonnage _ _ _ row) (loc_set_row_yield _ _ _ row)
                    (loc_set_row_revenue _ _ _ row) Ht Hy) as Hm.
      apply metrics_inv in Hm as (Hm & _ & _).
      rewrite Ea in Hm. unfold zero_row in Hm.
      rewrite loc_set_row_tonnage in Hm.
      apply (f_equal cell_value) in Hm. cbn [cell_value] in Hm.
      rewrite Et in Hm. rewrite <- Hm in Ht. lra.
    + rewrite loc_set_row_tonnage in Et'. rewrite loc_set_row_yield in Ey'.
      injection Et' as <-. injection Ey' as <-.
      by rewrite Ea, set_row_set_row, Et, Ey.
Qed.

Lemma invariant_clean_row_twice row :
  invariant_row (clean_row (clean_row row)) = true.
Proof.
  destruct (clean_row_twice row) as [E|(t & y & Ht & Hy & Et & Ey & E)]; rewrite E.
  - unfold invariant_row, zero_row.
    by rewrite loc_set_row_tonnage, loc_set_row_yield, loc_set_row_revenue.
  - unfold invariant_row.
    rewrite loc_set_row_tonnage, loc_set_row_yield, loc_set_row_revenue.
    rewrite Et, Ey. apply orb_true_iff. left. by apply Qeq_bool_iff.
Qed.
End NormalizerMore.

Section NormalizedFrames.
Implicit Types (row : gmap string cell) (df : DataFrame).

(** The normalizer on a frame whose rows were produced by a map. *)
Lemma clean_mapped df (f : gmap string cell -> gmap string cell) :
  empty df = false -> missing_cols df = [] ->
  clean_and_validate_data (mkDataFrame (columns df) (f <$> rows df))
  = mkDataFrame (columns df) (clean_row <$> (f <$> rows df)).
Proof.
  intros He Hm. apply empty_false in He as [Hc Hr].
  rewrite clean_main; [done | | exact Hm].
  simpl. by destruct (rows df).
Qed.

Lemma clean_frame_cases df :
  (empty df = true /\ clean_and_validate_data df = DataFrame_new)
  \/ (empty df = false /\ missing_cols df <> [] /\ clean_and_validate_data df = df)
  \/ (empty df = false /\ missing_cols df = []
      /\ clean_and_validate_data df
         = mkDataFrame (columns df) (clean_row <$> rows df)).
Proof.
  unfold clean_and_validate_data. destruct (empty df) eqn:He; [by left|].
  right. destruct (missing_cols df) eqn:Hm; [right | left]; by repeat split.
Qed.

Lemma clean_twice_rows df :
  empty df = false -> missing_cols df = [] ->
  clean_and_validate_data (clean_and_validate_data df)
  = mkDataFrame (columns df) (clean_row <$> (clean_row <$> rows df)).
Proof.
  intros He Hm. pose proof He as [Hc Hr]%empty_false.
  rewrite (clean_main df Hr Hm). by apply clean_mapped.
Qed.
End NormalizedFrames.

(** X4. Two passes of the normalizer establish the invariant that one pass
    misses: in every row of the result the revenue is
    round(round(tonnage, 0) * round(yield, 2), 2), or the row is (0, 0, 0). *)
Theorem two_passes_establish_invariant (df : DataFrame) :
  missing_cols df = [] ->
  forallb invariant_row
    (rows (clean_and_validate_data (clean_and_validate_data df))) = true.
Proof.
  intros Hm. destruct (empty df) eqn:He.
  - unfold clean_and_validate_data at 2. rewrite He. reflexivity.
  - rewrite (clean_twice_rows df He Hm). simpl.
    apply forallb_forall. intros row' Hin.
    apply in_map_iff in Hin as (row1 & <- & Hin).
    apply in_map_iff in Hin as (row & <- & _).
    apply invariant_clean_row_twice.
Qed.

Lemma two_passes_establish_invariant_witness :
  forallb invariant_row
    (rows (clean_and_validate_data (clean_and_validate_data fractional_week)))
  = true.
Proof. apply (two_passes_establish_invariant fractional_week). reflexivity. Defined.

(** X5. The normalizer is stable from its second pass on: a third pass
    returns the frame of the second, for every frame. *)
Theorem normalize_stable_after_two_passes (df : DataFrame) :
  clean_and_validate_data
    (clean_and_validate_data (clean_and_validate_data df))
  = clean_and_validate_data (clean_and_validate_data df).
Proof.
  destruct (clean_frame_cases df) as [[_ E]|[(_ & _ & E)|(He & Hm & E)]].
  - rewrite E. reflexivity.
  - by rewrite !E.
  - rewrite (clean_twice_rows df He Hm).
    rewrite <- list_fmap_compose.
    rewrite (clean_mapped df (clean_row ∘ clean_row) He Hm).
    f_equal. rewrite <- list_fmap_compose. apply list_fmap_ext.
    intros j row _. simpl. apply clean_row_stable.
Qed.

(** * Further properties of the allocator *)

Section AllocatorMore.
Implicit Types (row : gmap string cell) (df : DataFrame).

(** The main path, the returned frame as a whole. *)
Lemma allocate_main_frame df tt tr ty :
  0 < tt -> 0 < tr -> 0 < ty ->
  missing_cols df = [] ->
  is_Some (valid_mask df) ->
  valid_rows (rows df) <> [] ->
  calculate_smart_recommendations df tt tr ty
  = mkDataFrame (columns df)
      (clean_row <$>
         (allocated_row tt tr ty
            (col_sum "Tonnage" (valid_rows (rows df)))
            (col_sum "Revenue" (valid_rows (rows df))) <$> rows df)).
Proof.
  intros Htt Htr Hty Hm [mask Hmask] Hv.
  assert (Hr : rows df <> []) by (intros E; by rewrite E in Hv).
  pose proof (select_from_filter 0 mask (rows df) Hmask) as Hsel.
  destruct (valid_rows_sums_pos _ Hv) as [Hst Hsr].
  unfold calculate_smart_recommendations.
  assert (empty df = false) as ->
    by (apply empty_false; split; [by apply missing_cols_nil_columns | done]).
  apply leb0_false in Htt, Htr, Hty. rewrite Htt, Htr, Hty, Hm, Hmask. simpl.
  destruct (select_from 0 mask (rows df)) as [|v vd] eqn:Es.
  { simpl in Hsel. by rewrite <- Hsel in Hv. }
  rewrite <- Es. rewrite <- Es in Hsel. rewrite Hsel.
  rewrite (Qeq_bool_pos _ Hst), (Qeq_bool_pos _ Hsr). simpl.
  rewrite clean_main.
  - simpl. f_equal. f_equal.
    apply (distribute_rows _ _ _ _ _ mask df Hmask).
  - simpl. destruct (rows df); [done | discriminate].
  - exact Hm.
Qed.

(** The fallback path, the returned frame as a whole. *)
Lemma allocate_fallback_frame df tt tr ty :
  0 < tt -> 0 < tr -> 0 < ty ->
  missing_cols df = [] ->
  rows df <> [] ->
  Forall (fun row => row_valid row = Some false) (rows df) ->
  calculate_smart_recommendations df tt tr ty
  = mkDataFrame (columns df)
      (clean_row <$>
         (set_row (tt / inject_Z (Z.of_nat (length (rows df)))) ty
                  (tr / inject_Z (Z.of_nat (length (rows df)))) <$> rows df)).
Proof.
  intros Htt Htr Hty Hm Hr Hv.
  assert (He : empty df = false)
    by (apply empty_false; split; [by apply missing_cols_nil_columns | done]).
  unfold calculate_smart_recommendations. rewrite He.
  apply leb0_false in Htt, Htr, Hty. rewrite Htt, Htr, Hty, Hm. simpl.
  destruct (no_valid_mask _ Hv) as (mask & Hmask & Hsel).
  unfold valid_mask. rewrite Hmask, Hsel.
  unfold equal_split.
  assert ((0 <? length (rows df))%nat = true) as ->
    by (apply Nat.ltb_lt; destruct (rows df); [done | simpl; lia]).
  by apply clean_mapped.
Qed.

Lemma allocated_row_yield_unused tt tr ty ty' st sr row :
  0 < tt -> 0 < tr -> 0 < st -> 0 < sr ->
  allocated_row tt tr ty st sr row = allocated_row tt tr ty' st sr row.
Proof.
  intros Htt Htr Hst Hsr. unfold allocated_row. case_decide as Hv; [|done].
  pose proof (weight_of_pos st sr Hst Hsr row Hv) as Hw. simpl.
  assert (0 < tt * weight_of st sr row) as ->%gtb0_true
    by (apply Qmult_lt_0_compat; lra).
  done.
Qed.

(** What a valid row gets: its share of the tonnage target, the ratio of
    the two targets, its share of the revenue target, each rounded. *)
Lemma clean_allocated_valid_ratio tt tr ty st sr row :
  0 < tt -> 0 < tr -> 0 < st -> 0 < sr ->
  row_valid row = Some true ->
  metrics (clean_row (allocated_row tt tr ty st sr row))
  = (Num (PyNum.round0 (tt * weight_of st sr row)),
     Num (PyNum.round2 (tr / tt)),
     Num (PyNum.round2 (tr * weight_of st sr row))).
Proof.
  intros Htt Htr Hst Hsr Hv.
  rewrite (clean_allocated_valid tt tr ty st sr Htt Htr Hst Hsr row Hv).
  pose proof (weight_of_pos st sr Hst Hsr row Hv) as Hw.
  do 2 f_equal. f_equal. apply round2_comp. field. split; lra.
Qed.

Lemma clean_row_set_row_pos t y r row :
  0 < t -> 0 < y ->
  clean_row (set_row t y r row)
  = set_row (PyNum.round0 t) (PyNum.round2 y) (PyNum.round2 (t * y)) row.
Proof.
  intros Ht Hy. unfold clean_row, clean_row_try.
  rewrite loc_set_row_tonnage, loc_set_row_yield, loc_set_row_revenue. simpl.
  rewrite (max0_pos _ Ht), (max0_pos _ Hy), (Qeq_bool_pos _ Ht), (Qeq_bool_pos _ Hy).
  simpl. apply set_row_set_row.
Qed.
End AllocatorMore.

Lemma round0_comp x y : x == y -> PyNum.round0 x = PyNum.round0 y.
Proof. intros E. unfold PyNum.round0. by rewrite (round_half_even_comp _ _ E). Qed.

Lemma length_pos_Q {A} (l : list A) : l <> [] -> 0 < inject_Z (Z.of_nat (length l)).
Proof.
  intros H. change 0 with (inject_Z 0). rewrite <- Zlt_Qlt.
  destruct l; [done | simpl; lia].
Qed.

(** X7. On the weighted path the target for the average yield has no
    influence on the result: two calls that differ only in that target
    return the same frame. *)
Theorem weighted_allocation_ignores_target_yield (df : DataFrame)
    (tt tr ty ty' : Q) :
  0 < tt -> 0 < tr -> 0 < ty -> 0 < ty' ->
  missing_cols df = [] ->
  is_Some (valid_mask df) ->
  valid_rows (rows df) <> [] ->
  calculate_smart_recommendations df tt tr ty
  = calculate_smart_recommendations df tt tr ty'.
Proof.
  intros Htt Htr Hty Hty' Hm Hmask Hv.
  rewrite (allocate_main_frame df tt tr ty Htt Htr Hty Hm Hmask Hv).
  rewrite (allocate_main_frame df tt tr ty' Htt Htr Hty' Hm Hmask Hv).
  destruct (valid_rows_sums_pos _ Hv) as [Hst Hsr].
  do 2 f_equal. apply list_fmap_ext. intros i row _.
  by apply allocated_row_yield_unused.
Qed.

Lemma weighted_allocation_ignores_target_yield_witness :
  calculate_smart_recommendations scenario_A 800 2400 3
  = calculate_smart_recommendations scenario_A 800 2400 7.
Proof.
  apply (weighted_allocation_ignores_target_yield scenario_A 800 2400 3 7).
  - reflexivity.
  - reflexivity.
  - reflexivity.
  - reflexivity.
  - reflexivity.
  - vm_compute. eauto.
  - vm_compute. discriminate.
Defined.

(** X10. The equal-split fallback does not use the revenue target: two
    calls that differ only in the revenue target return the same frame. *)
Theorem fallback_ignores_target_revenue (df : DataFrame) (tt tr tr' ty : Q) :
  0 < tt -> 0 < tr -> 0 < tr' -> 0 < ty ->
  missing_cols df = [] ->
  rows df <> [] ->
  Forall (fun row => row_valid row = Some false) (rows df) ->
  calculate_smart_recommendations df tt tr ty
  = calculate_smart_recommendations df tt tr' ty.
Proof.
  intros Htt Htr Htr' Hty Hm Hr Hv.
  set (share := tt / inject_Z (Z.of_nat (length (rows df)))).
  pose proof (length_pos_Q (rows df) Hr) as Hn.
  assert (Hshare : 0 < share) by (apply Qlt_shift_div_l; lra).
  assert (Hrows : forall r,
             clean_row <$>
               (set_row share ty (r / inject_Z (Z.of_nat (length (rows df))))
                  <$> rows df)
             = set_row (PyNum.round0 share) (PyNum.round2 ty)
                       (PyNum.round2 (share * ty)) <$> rows df).
  { intros r. rewrite <- list_fmap_compose. apply list_fmap_ext.
    intros i row _. simpl. by apply clean_row_set_row_pos. }
  rewrite (allocate_fallback_frame df tt tr ty Htt Htr Hty Hm Hr Hv).
  rewrite (allocate_fallback_frame df tt tr' ty Htt Htr' Hty Hm Hr Hv).
  fold share. by rewrite !Hrows.
Qed.

Lemma fallback_ignores_target_revenue_witness :
  let df := week_frame [agent_row "A" (Num 0) (Num 2) (Num 200);
                        agent_row "B" (Num 300) (Num 0) (Num 900)] in
  calculate_smart_recommendations df 1000 5000 5
  = calculate_smart_recommendations df 1000 9000 5.
Proof.
  intros df.
  apply (fallback_ignores_target_revenue df 1000 5000 9000 5).
  - reflexivity.
  - reflexivity.
  - reflexivity.
  - reflexivity.
  - reflexivity.
  - discriminate.
  - repeat constructor.
Defined.

(** * The "Apply" button *)

Section Series.
Implicit Types (s : list cell) (qs : list Q).

Lemma series_sum_nums qs : series_sum (Num <$> qs) = Some (Qsum qs).
Proof.
  unfold series_sum.
  assert (existsb is_obj (Num <$> qs) = false) as ->
    by (induction qs; [done | simpl; done]).
  f_equal. f_equal. rewrite <- list_fmap_compose. by rewrite list_fmap_id.
Qed.

Lemma series_positive_cons c s :
  series_positive (c :: s)
  = gt0 c ≫= fun b : bool =>
      series_positive s ≫= fun rest : list Q =>
        Some (if b then cell_value c :: rest else rest).
Proof.
  unfold series_positive. simpl.
  destruct (gt0 c) as [b|]; simpl; [|done].
  destruct (mapM gt0 s) as [mask|]; simpl; [|done].
  rewrite filter_cons. simpl. destruct b; case_decide; done.
Qed.

Lemma series_positive_nums qs :
  series_positive (Num <$> qs) = Some (List.filter PyNum.gtb0 qs).
Proof.
  induction qs as [|q qs IH]; [done|].
  rewrite fmap_cons, series_positive_cons, IH. simpl.
  by destruct (PyNum.gtb0 q).
Qed.

Lemma Qsum_const (c : Q) qs :
  Forall (fun q => q == c) qs ->
  Qsum qs == c * inject_Z (Z.of_nat (length qs)).
Proof.
  intros H. induction H as [|q qs Hq _ IH]; unfold Qsum in *.
  - simpl. change (inject_Z (Z.of_nat 0)) with 0. lra.
  - cbn [foldr length]. rewrite inject_nat_S. nra.
Qed.

(** The mean of a list of equal numbers. *)
Lemma mean_or_zero_const (c : Q) qs :
  Forall (fun q => q == c) qs -> qs <> [] -> mean_or_zero qs == c.
Proof.
  intros H Hne. unfold mean_or_zero.
  assert ((0 <? length qs)%nat = true) as ->
    by (apply Nat.ltb_lt; destruct qs; [done | simpl; lia]).
  rewrite (Qsum_const c qs H).
  pose proof (length_pos_Q qs Hne). field. lra.
Qed.

(** The average of the positive entries of a column in which every entry
    is [c] or 0, and [c] occurs if it is positive. *)
Lemma mean_positive_two_valued (c : Q) qs :
  0 <= c ->
  Forall (fun q => q = c \/ q = 0) qs ->
  (0 < c -> Exists (fun q => q = c) qs) ->
  mean_or_zero (List.filter PyNum.gtb0 qs) == c.
Proof.
  intros Hc Hall Hex. destruct (Qlt_le_dec 0 c) as [Hpos|Hzero].
  - apply mean_or_zero_const.
    + apply Forall_forall. intros q Hq%list_elem_of_In%filter_In.
      destruct Hq as [Hin Hg]. apply list_elem_of_In in Hin.
      rewrite Forall_forall in Hall. destruct (Hall q Hin) as [->| ->];
        [reflexivity | discriminate].
    + specialize (Hex Hpos). apply Exists_exists in Hex as (q & Hin & ->).
      intros E. assert (In c (List.filter PyNum.gtb0 qs)) as Hin'.
      { apply filter_In. split; [by apply list_elem_of_In | by apply gtb0_true]. }
      by rewrite E in Hin'.
  - assert (List.filter PyNum.gtb0 qs = []) as ->.
    { clear Hex. induction Hall as [|q qs Hq _ IH]; [done|]. simpl.
      assert (PyNum.gtb0 q = false) as ->; [|exact IH].
      apply gtb0_false. destruct Hq as [->| ->]; lra. }
    unfold mean_or_zero. simpl. lra.
Qed.
End Series.

Section ApplyAfterRecommend.
Variables (df : DataFrame) (tt tr ty : Q).
Hypotheses (Htt : 0 < tt) (Htr : 0 < tr) (Hty : 0 < ty).
Hypotheses (Hm : missing_cols df = []) (Hmask : is_Some (valid_mask df)).
Hypothesis Hv : valid_rows (rows df) <> [].

Local Abbreviation st := (col_sum "Tonnage" (valid_rows (rows df))).
Local Abbreviation sr := (col_sum "Revenue" (valid_rows (rows df))).

Lemma allocated_metrics row :
  metrics (clean_row (allocated_row tt tr ty st sr row))
  = (Num (allocated_tonnage tt st sr row), Num (allocated_yield tt tr row),
     Num (allocated_revenue tr st sr row)).
Proof.
  destruct (valid_rows_sums_pos _ Hv) as [Hst Hsr].
  unfold allocated_tonnage, allocated_yield, allocated_revenue.
  case_decide as Hrow.
  - by apply clean_allocated_valid_ratio.
  - by apply clean_allocated_invalid.
Qed.

(** The three metric columns of the frame the weighted path returns. *)
Lemma allocated_columns :
  let out := calculate_smart_recommendations df tt tr ty in
  column out "Tonnage" = Some (Num <$> (allocated_tonnage tt st sr <$> rows df))
  /\ column out "Yield" = Some (Num <$> (allocated_yield tt tr <$> rows df))
  /\ column out "Revenue" = Some (Num <$> (allocated_revenue tr st sr <$> rows df)).
Proof.
  intros out. subst out.
  rewrite (allocate_main_frame df tt tr ty Htt Htr Hty Hm Hmask Hv).
  destruct (missing_cols_nil df Hm) as (Ht & Hy & Hr).
  unfold column. simpl. rewrite !decide_True by done.
  repeat split; f_equal; rewrite <- !list_fmap_compose;
    apply list_fmap_ext; intros i row _; simpl;
    by destruct (metrics_inv _ _ _ _ (allocated_metrics row)) as (? & ? & ?).
Qed.

Lemma allocated_tonnage_sum :
  - ((1 # 2) * inject_Z (Z.of_nat (length (valid_rows (rows df)))))
  <= Qsum (allocated_tonnage tt st sr <$> rows df) - tt
  <= (1 # 2) * inject_Z (Z.of_nat (length (valid_rows (rows df)))).
Proof.
  pose proof (Qsum_filter_bound (fun row => row_valid row = Some true)
                (allocated_tonnage tt st sr)
                (fun row => tt * weight_of st sr row) (1 # 2) (rows df)) as Hb.
  fold (valid_rows (rows df)) in Hb.
  pose proof (Qsum_scale tt (weight_of st sr) (valid_rows (rows df))) as Hs.
  pose proof (valid_weights_sum_1 _ Hv) as Hw.
  rewrite Hw in Hs.
  assert (Hb' := Hb
    ltac:(intros row Hrow; unfold allocated_tonnage;
          rewrite decide_False by done; reflexivity)
    ltac:(intros row Hrow; unfold allocated_tonnage;
          rewrite decide_True by done; apply round0_bound)).
  clear Hb. lra.
Qed.

Lemma allocated_revenue_sum :
  - ((1 # 200) * inject_Z (Z.of_nat (length (valid_rows (rows df)))))
  <= Qsum (allocated_revenue tr st sr <$> rows df) - tr
  <= (1 # 200) * inject_Z (Z.of_nat (length (valid_rows (rows df)))).
Proof.
  pose proof (Qsum_filter_bound (fun row => row_valid row = Some true)
                (allocated_revenue tr st sr)
                (fun row => tr * weight_of st sr row) (1 # 200) (rows df)) as Hb.
  fold (valid_rows (rows df)) in Hb.
  pose proof (Qsum_scale tr (weight_of st sr) (valid_rows (rows df))) as Hs.
  pose proof (valid_weights_sum_1 _ Hv) as Hw.
  rewrite Hw in Hs.
  assert (Hb' := Hb
    ltac:(intros row Hrow; unfold allocated_revenue;
          rewrite decide_False by done; reflexivity)
    ltac:(intros row Hrow; unfold allocated_revenue;
          rewrite decide_True by done; apply round2_bound)).
  clear Hb. lra.
Qed.

Lemma allocated_yield_mean :
  mean_or_zero (List.filter PyNum.gtb0 (allocated_yield tt tr <$> rows df))
  == PyNum.round2 (tr / tt).
Proof.
  apply mean_positive_two_valued.
  - apply round2_nonneg. apply Qlt_le_weak, Qlt_shift_div_l; lra.
  - apply Forall_fmap, Forall_forall. intros row _. simpl.
    unfold allocated_yield. case_decide; auto.
  - intros _. apply Exists_fmap.
    destruct (valid_rows (rows df)) as [|row vs] eqn:E; [done|].
    assert (row ∈ valid_rows (rows df)) as Hin by (rewrite E; left).
    apply list_elem_of_filter in Hin as [Hrow Hin].
    apply Exists_exists. exists row. split; [done|]. simpl.
    unfold allocated_yield. by rewrite decide_True.
Qed.

(** "Apply" on the frame the weighted path returns. *)
Lemma apply_after_allocation :
  exists p,
    apply_totals (calculate_smart_recommendations df tt tr ty) = Some p
    /\ Qabs (current_tonnage p - tt)
       <= (1 # 2) * inject_Z (Z.of_nat (length (valid_rows (rows df))))
    /\ Qabs (current_revenue p - tr)
       <= (1 # 200) * inject_Z (Z.of_nat (length (valid_rows (rows df))))
    /\ current_yield p == PyNum.round2 (tr / tt).
Proof.
  destruct allocated_columns as (Ect & Ecy & Ecr).
  eexists. split.
  - unfold apply_totals. rewrite Ect, Ecy, Ecr. simpl.
    rewrite !series_sum_nums, series_positive_nums. simpl. reflexivity.
  - cbn [current_tonnage current_revenue current_yield]. split; [|split].
    + apply Qabs_Qle_condition. apply allocated_tonnage_sum.
    + apply Qabs_Qle_condition. apply allocated_revenue_sum.
    + apply allocated_yield_mean.
Qed.
End ApplyAfterRecommend.

(** * The gap boxes *)

Section Gaps.
Lemma percentage_ge (k current target : Q) :
  0 < target ->
  Qle_bool k (percentage current target) = Qle_bool (k * target) (100 * current).
Proof.
  intros Ht. unfold percentage.
  assert (PyNum.gtb0 target = true) as -> by (by apply gtb0_true).
  assert (E : current / target * 100 * target == 100 * current) by (field; lra).
  apply eq_true_iff_eq. rewrite !Qle_bool_iff. split; intros H.
  - rewrite <- E. apply Qmult_le_compat_r; [exact H | lra].
  - rewrite <- E in H. by apply Qmult_le_r in H.
Qed.

Lemma gap_colors_green current target :
  0 < target -> 95 * target <= 100 * current ->
  gap_colors (percentage current target) = ("#c8e6c9", "#2e7d32")%string.
Proof.
  intros Ht H. unfold gap_colors. rewrite (percentage_ge 95 _ _ Ht).
  by apply Qle_bool_iff in H as ->.
Qed.
End Gaps.

(** X13. Without a positive target the achievement counts as 0% and the
    box is red, however large the current value is. *)
Theorem gap_without_target_is_red (current target : Q) :
  target <= 0 ->
  percentage current target = 0
  /\ gap_colors (percentage current target) = ("#ffcdd2", "#c62828")%string.
Proof.
  intros Ht%gtb0_false. unfold percentage. rewrite Ht. by split.
Qed.

Lemma gap_without_target_is_red_witness :
  percentage 5000 0 = 0
  /\ gap_colors (percentage 5000 0) = ("#ffcdd2", "#c62828")%string.
Proof. apply (gap_without_target_is_red 5000 0). unfold Qle. simpl. lia. Defined.

(** * Currencies *)

Lemma get_currency_config_cases (currency : string) :
  get_currency_config currency
  = if decide (currency = "AED"%string) then mkCurrency 1 "AED"
    else if decide (currency = "BHD"%string) then mkCurrency (102 # 1000) "BHD"
    else mkCurrency (1 / (367 # 100)) "$".
Proof.
  unfold get_currency_config, config.
  destruct (decide (currency = "AED"%string)) as [->|Ha]; [done|].
  destruct (decide (currency = "BHD"%string)) as [->|Hb]; [done|].
  destruct (decide (currency = "USD"%string)) as [->|Hu]; [done|].
  by rewrite !lookup_insert_ne, lookup_empty by done.
Qed.

(** X15. A currency that is not in the table is treated as USD; the
    conversion of a target never changes its sign, in whatever currency
    (positive stays positive, negative stays negative, zero stays zero),
    and leaves an amount in AED as it is: a positive target stays a target
    the allocator accepts. *)
Theorem currency_conversion_keeps_sign (currency : string) (orig : Q) :
  (0 < convert_target orig currency <-> 0 < orig)
  /\ (convert_target orig currency < 0 <-> orig < 0)
  /\ (convert_target orig currency == 0 <-> orig == 0)
  /\ convert_target orig "AED" == orig
  /\ (if decide (currency ∈ ["AED"; "USD"; "BHD"]%string) then True
      else get_currency_config currency = get_currency_config "USD").
Proof.
  assert (Hr : 0 < rate (get_currency_config currency)).
  { rewrite get_currency_config_cases. repeat case_decide; reflexivity. }
  assert (E : convert_target orig currency
              == orig * rate (get_currency_config currency))
    by (unfold convert_target; field).
  split; [|split; [|split; [|split]]].
  - rewrite E. split; intros Hsign; nra.
  - rewrite E. split; intros Hsign; nra.
  - rewrite E. split; intros Hsign; nra.
  - unfold convert_target. rewrite get_currency_config_cases. simpl. field.
  - case_decide as Hin; [done|].
    rewrite !get_currency_config_cases.
    repeat case_decide; try done; subst; exfalso; apply Hin; set_solver.
Qed.

(** * The session state *)

Section Session.
Implicit Types st : gmap string session_value.

Lemma fill_defaults st (l : list (string * session_value)) :
  foldl (fun st kv => if decide (is_Some (st !! kv.1)) then st
                      else <[kv.1 := kv.2]> st) st l
  = st ∪ list_to_map l.
Proof.
  revert st. induction l as [|[k v] l IH]; intros st; simpl.
  - apply map_eq. intros j. rewrite lookup_union, lookup_empty.
    by destruct (st !! j).
  - rewrite IH. apply map_eq. intros j. rewrite !lookup_union.
    case_decide as Hk.
    + destruct Hk as [x Hx].
      destruct (decide (j = k)) as [->|Hj].
      * rewrite Hx. by destruct (list_to_map l !! k), (<[k:=v]> (list_to_map l) !! k).
      * by rewrite lookup_insert_ne.
    + apply eq_None_not_Some in Hk.
      destruct (decide (j = k)) as [->|Hj].
      * rewrite !lookup_insert_eq, Hk. simpl.
        by destruct (list_to_map l !! k).
      * by rewrite !lookup_insert_ne.
Qed.

Lemma foldl_delete_lookup st (keys : list string) (j : string) :
  foldl (fun st key => delete key st) st keys !! j
  = if decide (j ∈ keys) then None else st !! j.
Proof.
  revert st. induction keys as [|k keys IH]; intros st; cbn [foldl].
  - destruct (decide (j ∈ [])) as [Hin|_]; [by apply not_elem_of_nil in Hin | done].
  - rewrite IH.
    destruct (decide (j ∈ keys)) as [H1|H1];
      destruct (decide (j ∈ k :: keys)) as [H2|H2]; try done.
    + exfalso. apply H2. by right.
    + apply elem_of_cons in H2 as [->|?]; [|done]. apply lookup_delete_eq.
    + apply lookup_delete_ne. intros ->. apply H2. by left.
Qed.
End Session.

(** X16. Initialising the session state keeps every entry that is already
    there and adds the default of every key that is missing: the result is
    the state completed by the defaults, and a second initialisation
    changes nothing. *)
Theorem initialize_session_state_completes
    (session_state : gmap string session_value) :
  initialize_session_state session_state
  = session_state ∪ list_to_map defaults
  /\ initialize_session_state (initialize_session_state session_state)
     = initialize_session_state session_state.
Proof.
  unfold initialize_session_state. rewrite !fill_defaults. split; [done|].
  by rewrite <- (assoc_L (∪)), (idemp_L (∪)).
Qed.

(** X17. The logout button empties the session state, so after it no entry
    [password_correct] is left, also not once the state is initialised
    again: the next run starts at the password form with the defaults. *)
Theorem logout_clears_session (session_state : gmap string session_value) :
  logout session_state = ∅
  /\ initialize_session_state (logout session_state) = list_to_map defaults
  /\ initialize_session_state (logout session_state) !! "password_correct"%string
     = None.
Proof.
  assert (E : logout session_state = ∅).
  { unfold logout. apply map_eq. intros j.
    rewrite foldl_delete_lookup, lookup_empty. case_decide as Hj; [done|].
    destruct (session_state !! j) as [v|] eqn:Hv; [|done].
    exfalso. apply Hj. apply list_elem_of_fmap. exists (j, v).
    split; [done|]. by apply elem_of_map_to_list. }
  rewrite E. unfold initialize_session_state. rewrite fill_defaults.
  rewrite (left_id_L ∅ (∪)). by repeat split.
Qed.

(** * The "Adjust" button on the weekly average *)

Section Adjust.
Implicit Types (row : gmap string cell) (df wa : DataFrame).

Lemma other_cols_week row row' :
  other_cols row' = other_cols row -> loc row' "Week" = loc row "Week".
Proof.
  intros E. unfold loc.
  assert (H : forall m : gmap string cell,
             other_cols m !! "Week"%string = m !! "Week"%string)
    by (intros m; unfold other_cols; by rewrite !lookup_delete_ne).
  by rewrite <- (H row'), <- (H row), E.
Qed.

Lemma week_is_other_cols w row row' :
  other_cols row' = other_cols row -> week_is w row' = week_is w row.
Proof. intros E. unfold week_is. by rewrite (other_cols_week _ _ E). Qed.

(** The normalizer maps the rows of a frame that is not empty one by one,
    and keeps what identifies them. *)
Lemma clean_rows_mapped df :
  empty df = false ->
  exists f : gmap string cell -> gmap string cell,
    (forall row, other_cols (f row) = other_cols row)
    /\ clean_and_validate_data df = mkDataFrame (columns df) (f <$> rows df).
Proof.
  intros He.
  destruct (clean_frame_cases df) as [[E _]|[(_ & _ & E)|(_ & _ & E)]].
  - congruence.
  - exists id. split; [done|]. rewrite E, list_fmap_id. by destruct df.
  - exists clean_row. split; [apply other_cols_clean_row | exact E].
Qed.

Lemma filter_mapped_app {A} (P : A -> Prop) `{!forall x, Decision (P x)}
    (f : A -> A) (l : list A) :
  (forall x, P (f x) <-> P x) ->
  filter P (filter (fun x => ~ P x) l ++ (f <$> filter P l)) = f <$> filter P l
  /\ filter (fun x => ~ P x) (filter (fun x => ~ P x) l ++ (f <$> filter P l))
     = filter (fun x => ~ P x) l.
Proof.
  intros Hf. rewrite !filter_app.
  assert (H1 : forall k : list A, filter P (filter (fun x => ~ P x) k) = []).
  { induction k as [|x k IH]; [done|]. rewrite (filter_cons (fun x => ~ P x)).
    case_decide; [|done]. rewrite filter_cons. by case_decide. }
  assert (H2 : forall k : list A, filter (fun x => ~ P x) (f <$> filter P k) = []).
  { induction k as [|x k IH]; [done|]. rewrite (filter_cons P).
    case_decide as Hx; [|done]. rewrite fmap_cons, filter_cons.
    case_decide as Hfx; [|done]. exfalso. apply Hfx. by apply Hf. }
  assert (H3 : forall k : list A, filter P (f <$> filter P k) = f <$> filter P k).
  { induction k as [|x k IH]; [done|]. rewrite (filter_cons P).
    case_decide as Hx; [|done]. rewrite fmap_cons, filter_cons.
    case_decide as Hfx; [by rewrite IH|]. exfalso. apply Hfx. by apply Hf. }
  assert (H4 : forall k : list A, filter (fun x => ~ P x) (filter (fun x => ~ P x) k)
                         = filter (fun x => ~ P x) k).
  { induction k as [|x k IH]; [done|]. rewrite (filter_cons (fun x => ~ P x)).
    case_decide as Hx; [|done]. rewrite filter_cons.
    case_decide; [by rewrite IH | done]. }
  rewrite H1, H2, H3, H4. by rewrite app_nil_r.
Qed.

Lemma filter_complement_length {A} (P : A -> Prop) `{!forall x, Decision (P x)}
    (l : list A) :
  (length (filter (fun x => ~ P x) l) + length (filter P l))%nat = length l.
Proof.
  induction l as [|x l IH]; [done|].
  rewrite (filter_cons P), (filter_cons (fun x => ~ P x)).
  repeat case_decide; simpl; try lia; done.
Qed.
End Adjust.

(** X18. "Adjust" on the weekly average, for a week that has rows: the
    stored table keeps its number of rows; the rows of every other week are
    the same as before, in the same order; and the table that is then shown
    for the selected week is the normalized table of that week. *)
Theorem adjust_normalizes_selected_week (wa week_df : DataFrame)
    (week_selected : Z) :
  week_rows wa week_selected = Some week_df ->
  rows week_df <> [] ->
  week_rows (adjust_weekly_average wa week_selected) week_selected
  = Some (clean_and_validate_data week_df)
  /\ other_week_rows (adjust_weekly_average wa week_selected) week_selected
     = other_week_rows wa week_selected
  /\ length (rows (adjust_weekly_average wa week_selected)) = length (rows wa).
Proof.
  intros Hweek Hrows. unfold adjust_weekly_average. rewrite Hweek.
  unfold week_rows, other_week_rows in *.
  destruct (decide ("Week"%string ∈ columns wa)) as [Hin|]; [|done].
  injection Hweek as <-. simpl in Hrows.
  set (P := fun row => week_is week_selected row = true).
  assert (He : empty (mkDataFrame (columns wa) (filter P (rows wa))) = false).
  { apply empty_false. split; [|done]. simpl. intros E. rewrite E in Hin.
    by apply not_elem_of_nil in Hin. }
  rewrite He.
  destruct (clean_rows_mapped _ He) as (f & Hf & ->). simpl.
  unfold concat_rows. simpl. rewrite !decide_True by done.
  destruct (filter_mapped_app P f (rows wa)) as [E1 E2].
  { intros row. unfold P. by rewrite (week_is_other_cols _ _ _ (Hf row)). }
  fold P. split; [|split].
  - do 2 f_equal. exact E1.
  - do 2 f_equal. exact E2.
  - rewrite length_app, length_fmap. apply filter_complement_length.
Qed.

Lemma adjust_normalizes_selected_week_witness :
  let wa := mkDataFrame ["Week"; "Agent"; "Tonnage"; "Yield"; "Revenue"]%string
              [<["Week"%string := Num 7]>
                 (agent_row "A" (Num (9 # 4)) (Num 2) (Num 200));
               <["Week"%string := Num 8]>
                 (agent_row "B" (Num 300) (Num 3) (Num 900))] in
  let week_df := mkDataFrame (columns wa)
                   [<["Week"%string := Num 7]>
                      (agent_row "A" (Num (9 # 4)) (Num 2) (Num 200))] in
  week_rows (adjust_weekly_average wa 7) 7 = Some (clean_and_validate_data week_df)
  /\ other_week_rows (adjust_weekly_average wa 7) 7 = other_week_rows wa 7
  /\ length (rows (adjust_weekly_average wa 7)) = length (rows wa).
Proof.
  intros wa week_df.
  apply (adjust_normalizes_selected_week wa week_df 7).
  - vm_compute. reflexivity.
  - discriminate.
Defined.

(** * Station files *)

Section Strings.
Implicit Types (s t old new : string).
Local Open Scope string_scope.

Lemma prefix_cons a old c s :
  String.prefix (String a old) (String c s) = true
  <-> a = c /\ String.prefix old s = true.
Proof.
  simpl. destruct (Ascii.ascii_dec a c) as [->|Hne]; [tauto|].
  split; [discriminate | intros [? _]; done].
Qed.

Lemma prefix_app old s : String.prefix old (old ++ s) = true.
Proof.
  induction old as [|a old IH]; simpl; [by destruct s|].
  by destruct (Ascii.ascii_dec a a).
Qed.

(** A match that starts in [n] and does not end in it runs on into [t]. *)
Lemma prefix_split old n t :
  String.prefix old (n ++ t) = true ->
  String.prefix old n = true
  \/ exists b, old = n ++ b /\ String.prefix b t = true.
Proof.
  revert n. induction old as [|a old IH]; intros n H.
  - left. by destruct n.
  - destruct n as [|c n].
    + right. exists (String a old). by split.
    + change (String c n ++ t) with (String c (n ++ t)) in H.
      apply prefix_cons in H as [-> H].
      destruct (IH n H) as [Hp|(b & -> & Hb)].
      * left. by apply prefix_cons.
      * right. by exists b.
Qed.

(** The characters of an occurrence under replacement are dropped. *)
Lemma replace_from_skip old new a s :
  replace_from old new (String.length a) (a ++ s) = replace_from old new 0 s.
Proof. induction a as [|c a IH]; [done | simpl; exact IH]. Qed.

Lemma replace_from_head old new a s :
  replace_from (String a old) new 0 (String a old ++ s)
  = new ++ replace_from (String a old) new 0 s.
Proof.
  change (String a old ++ s) with (String a (old ++ s)).
  cbn [replace_from].
  assert (String.prefix (String a old) (String a (old ++ s)) = true) as ->
    by (apply prefix_cons; split; [done | apply prefix_app]).
  f_equal. cbn [String.length]. rewrite Nat.sub_1_r. cbn [Nat.pred].
  apply replace_from_skip.
Qed.

(** Without an occurrence nothing is replaced. *)
Lemma replace_from_none old new s :
  occursb old s = false -> replace_from old new 0 s = s.
Proof.
  induction s as [|c s IH]; [done|].
  cbn [occursb replace_from]. intros [Hp Ho]%orb_false_iff.
  rewrite Hp. f_equal. by apply IH.
Qed.
End Strings.

Section StationNames.
Implicit Types (name n b : string).
Local Open Scope string_scope.

(** Splits [old = n ++ b] of a given text [old], one prefix [n] at a time. *)
Ltac split_cases n b Heq Hp :=
  repeat (destruct n as [|? n];
          [ vm_compute in Heq; subst b; first [ by auto | by vm_compute in Hp ]
          | vm_compute in Heq; first [ discriminate Heq
                                     | injection Heq as ? Heq; subst ] ]).

(** No end of "Database - " begins ".xlsx". *)
Lemma straddle_database n b :
  "Database - " = n ++ b -> String.prefix b ".xlsx" = true -> b = "".
Proof. intros Heq Hp. split_cases n b Heq Hp. Qed.

(** No proper end of ".xlsx" begins ".xlsx". *)
Lemma straddle_xlsx n b :
  ".xlsx" = n ++ b -> String.prefix b ".xlsx" = true -> b = "" \/ n = "".
Proof. intros Heq Hp. split_cases n b Heq Hp. Qed.

Lemma prefix_self_app n : String.prefix (n ++ "") n = true.
Proof.
  induction n as [|c n IH]; [done|]. simpl.
  by destruct (Ascii.ascii_dec c c).
Qed.

Lemma no_database_in_file name :
  occursb "Database - " name = false ->
  occursb "Database - " (name ++ ".xlsx") = false.
Proof.
  induction name as [|c name IH]; [done|].
  cbn [occursb]. intros [Hp Ho]%orb_false_iff.
  change (String c name ++ ".xlsx") with (String c (name ++ ".xlsx")).
  cbn [occursb]. rewrite (IH Ho), orb_false_r.
  apply not_true_iff_false. intros H.
  change (String c (name ++ ".xlsx")) with (String c name ++ ".xlsx") in H.
  apply prefix_split in H as [H|(b & Heq & Hb)]; [congruence|].
  pose proof (straddle_database _ _ Heq Hb) as ->.
  rewrite Heq, prefix_self_app in Hp. discriminate.
Qed.

Lemma replace_xlsx_suffix name :
  occursb ".xlsx" name = false -> replace ".xlsx" "" (name ++ ".xlsx") = name.
Proof.
  unfold replace. induction name as [|c name IH]; [done|].
  cbn [occursb]. intros [Hp Ho]%orb_false_iff.
  change (String c name ++ ".xlsx") with (String c (name ++ ".xlsx")).
  cbn [replace_from].
  assert (String.prefix ".xlsx" (String c (name ++ ".xlsx")) = false) as ->.
  { apply not_true_iff_false. intros H.
    change (String c (name ++ ".xlsx")) with (String c name ++ ".xlsx") in H.
    apply prefix_split in H as [H|(b & Heq & Hb)]; [congruence|].
    destruct (straddle_xlsx _ _ Heq Hb) as [->|?]; [|done].
    rewrite Heq, prefix_self_app in Hp. discriminate. }
  f_equal. by apply IH.
Qed.

(** The name read off the file of a station is the name of the station. *)
Lemma station_of_station_file name :
  plain_name name -> station_of_file (station_file name) = name.
Proof.
  intros [Hd Hx]. unfold station_of_file, station_file, replace.
  rewrite (replace_from_head "atabase - " "" _ (name ++ ".xlsx")).
  rewrite (replace_from_none "Database - " "" (name ++ ".xlsx"))
    by (by apply no_database_in_file).
  by apply replace_xlsx_suffix.
Qed.

#[local] Instance string_le_total : Total string_le.
Proof.
  intros a b. unfold string_le.
  destruct (String.leb_total a b) as [->| ->]; [by left | by right].
Qed.
End StationNames.

(** X19. When no station name holds the text "Database - " or ".xlsx", the
    list offered for selection is the list of the stations that have a
    file, in ascending order, and the file name built for any station of
    that list is the name of one of the files that were found. *)
Theorem stations_offered_have_files (names : list string) :
  Forall plain_name names ->
  get_available_stations (station_file <$> names) ≡ₚ names
  /\ Sorted string_le (get_available_stations (station_file <$> names))
  /\ Forall (fun station => station_file station ∈ station_file <$> names)
            (get_available_stations (station_file <$> names)).
Proof.
  intros Hplain.
  assert (E : station_of_file <$> (station_file <$> names) = names).
  { rewrite <- list_fmap_compose. rewrite <- (list_fmap_id names) at 2.
    apply list_fmap_ext. intros i name Hi. simpl.
    apply station_of_station_file.
    rewrite Forall_forall in Hplain. apply Hplain.
    apply list_elem_of_lookup. eauto. }
  assert (Hperm : get_available_stations (station_file <$> names) ≡ₚ names).
  { unfold get_available_stations. rewrite E. apply merge_sort_Permutation. }
  split; [exact Hperm | split].
  - unfold get_available_stations.
    apply (Sorted_merge_sort string_le (Total0 := string_le_total)).
  - apply Forall_forall. intros station Hin. rewrite Hperm in Hin.
    by apply list_elem_of_fmap_2.
Qed.

Lemma stations_offered_have_files_witness :
  let names := ["DXB"; "BAH"; "AUH 2"]%string in
  get_available_stations (station_file <$> names) ≡ₚ names
  /\ Sorted string_le (get_available_stations (station_file <$> names))
  /\ Forall (fun station => station_file station ∈ station_file <$> names)
            (get_available_stations (station_file <$> names)).
Proof.
  intros names. apply (stations_offered_have_files names).
  repeat constructor.
Defined.

(** * More on how the buttons compose *)

Lemma no_valid_rows_all_false (df : DataFrame) :
  is_Some (valid_mask df) ->
  valid_rows (rows df) = [] ->
  Forall (fun row => row_valid row = Some false) (rows df).
Proof.
  intros Hmask%mapM_is_Some Hnone. apply Forall_forall. intros row Hin.
  rewrite Forall_forall in Hmask. destruct (Hmask row Hin) as [b Hb].
  simpl in Hb. destruct b; [|done].
  assert (row ∈ valid_rows (rows df)) as Hv by (by apply list_elem_of_filter).
  rewrite Hnone in Hv. by apply not_elem_of_nil in Hv.
Qed.

(** With positive targets and metrics that can be compared, the allocator
    returns a frame that the normalizer has mapped row by row. *)
Lemma allocate_cleaned (df : DataFrame) (tt tr ty : Q) :
  0 < tt -> 0 < tr -> 0 < ty ->
  missing_cols df = [] ->
  is_Some (valid_mask df) ->
  rows df <> [] ->
  exists g : gmap string cell -> gmap string cell,
    calculate_smart_recommendations df tt tr ty
    = mkDataFrame (columns df) (clean_row <$> (g <$> rows df)).
Proof.
  intros Htt Htr Hty Hm Hmask Hr.
  destruct (decide (valid_rows (rows df) = [])) as [Hnone|Hv].
  - eexists.
    apply (allocate_fallback_frame df tt tr ty Htt Htr Hty Hm Hr).
    by apply no_valid_rows_all_false.
  - eexists. by apply allocate_main_frame.
Qed.

(** X20. "Recommend", then "Adjust": with positive targets, the table that
    "Adjust" makes of the recommendations satisfies the invariant in every
    row (revenue = round(tonnage * yield, 2) on the stored values, or the
    row is (0, 0, 0)), on the weighted path and on the equal-split path. *)
Theorem adjust_after_recommend_invariant (df : DataFrame) (tt tr ty : Q) :
  0 < tt -> 0 < tr -> 0 < ty ->
  missing_cols df = [] ->
  is_Some (valid_mask df) ->
  forallb invariant_row
    (rows (clean_and_validate_data
             (calculate_smart_recommendations df tt tr ty))) = true.
Proof.
  intros Htt Htr Hty Hm Hmask.
  destruct (empty df) eqn:He.
  { unfold calculate_smart_recommendations. rewrite He. reflexivity. }
  pose proof He as [_ Hr]%empty_false.
  destruct (allocate_cleaned df tt tr ty Htt Htr Hty Hm Hmask Hr) as [g ->].
  rewrite <- list_fmap_compose.
  rewrite (clean_mapped df (clean_row ∘ g) He Hm). simpl.
  apply forallb_forall. intros row' Hin.
  apply in_map_iff in Hin as (row1 & <- & Hin).
  apply in_map_iff in Hin as (row & <- & _). simpl.
  apply invariant_clean_row_twice.
Qed.

Lemma adjust_after_recommend_invariant_witness :
  forallb invariant_row
    (rows (clean_and_validate_data
             (calculate_smart_recommendations scenario_A 800 2400 3))) = true.
Proof.
  apply (adjust_after_recommend_invariant scenario_A 800 2400 3).
  - reflexivity.
  - reflexivity.
  - reflexivity.
  - reflexivity.
  - vm_compute. eauto.
Defined.

(** X21. The equal-split fallback conserves the tonnage target up to half
    a unit per row; its revenue adds up to T_t * T_y (not to the revenue
    target) up to half a hundredth per row. *)
Theorem fallback_totals (df : DataFrame) (tt tr ty : Q) :
  0 < tt -> 0 < tr -> 0 < ty ->
  missing_cols df = [] ->
  rows df <> [] ->
  Forall (fun row => row_valid row = Some false) (rows df) ->
  let out := calculate_smart_recommendations df tt tr ty in
  let n := inject_Z (Z.of_nat (length (rows df))) in
  Qabs (col_sum "Tonnage" (rows out) - tt) <= (1 # 2) * n
  /\ Qabs (col_sum "Revenue" (rows out) - tt * ty) <= (1 # 200) * n.
Proof.
  intros Htt Htr Hty Hm Hr Hv out n. subst out.
  pose proof (length_pos_Q (rows df) Hr) as Hn. fold n in Hn.
  rewrite (allocate_fallback_frame df tt tr ty Htt Htr Hty Hm Hr Hv). fold n.
  set (share := tt / n).
  assert (Hshare : 0 < share) by (apply Qlt_shift_div_l; lra).
  assert (Hsn : share * n == tt) by (unfold share; field; lra).
  assert (Hrows : clean_row <$> (set_row share ty (tr / n) <$> rows df)
                  = set_row (PyNum.round0 share) (PyNum.round2 ty)
                            (PyNum.round2 (share * ty)) <$> rows df).
  { rewrite <- list_fmap_compose. apply list_fmap_ext.
    intros i row _. simpl. by apply clean_row_set_row_pos. }
  cbn [rows]. rewrite Hrows. unfold col_sum. rewrite <- !list_fmap_compose.
  assert (Hsum : forall (c : Q) (f : gmap string cell -> Q),
             (forall row, f row = c) -> Qsum (f <$> rows df) == c * n).
  { intros c f Hf. unfold n.
    rewrite <- (length_fmap f (rows df)). apply Qsum_const.
    apply Forall_fmap, Forall_forall. intros row _. simpl.
    by rewrite Hf. }
  pose proof (round0_bound share) as Hb0.
  pose proof (round2_bound (share * ty)) as Hb2.
  split; apply Qabs_Qle_condition.
  - match goal with |- context [Qsum (?f <$> rows df)] =>
      pose proof (Hsum (PyNum.round0 share) f
                    ltac:(intros row; simpl; by rewrite loc_set_row_tonnage)) as Hc
    end.
    assert (Hup : (PyNum.round0 share - share) * n <= (1 # 2) * n)
      by (apply Qmult_le_compat_r; lra).
    assert (Hlo : - (1 # 2) * n <= (PyNum.round0 share - share) * n)
      by (apply Qmult_le_compat_r; lra).
    clear Hsum Hrows. lra.
  - match goal with |- context [Qsum (?f <$> rows df)] =>
      pose proof (Hsum (PyNum.round2 (share * ty)) f
                    ltac:(intros row; simpl; by rewrite loc_set_row_revenue)) as Hc
    end.
    assert (Hst : share * ty * n == tt * ty) by (rewrite <- Hsn; ring).
    assert (Hup : (PyNum.round2 (share * ty) - share * ty) * n <= (1 # 200) * n)
      by (apply Qmult_le_compat_r; lra).
    assert (Hlo : - (1 # 200) * n <= (PyNum.round2 (share * ty) - share * ty) * n)
      by (apply Qmult_le_compat_r; lra).
    clear Hsum Hrows. lra.
Qed.

Lemma fallback_totals_witness :
  let df := week_frame [agent_row "A" (Num 0) (Num 2) (Num 200);
                        agent_row "B" (Num 300) (Num 0) (Num 900);
                        agent_row "C" NaN (Num 1) (Num (-4))] in
  let out := calculate_smart_recommendations df 1000 5000 5 in
  let n := inject_Z (Z.of_nat (length (rows df))) in
  Qabs (col_sum "Tonnage" (rows out) - 1000) <= (1 # 2) * n
  /\ Qabs (col_sum "Revenue" (rows out) - 1000 * 5) <= (1 # 200) * n.
Proof.
  intros df. apply (fallback_totals df 1000 5000 5).
  - reflexivity.
  - reflexivity.
  - reflexivity.
  - reflexivity.
  - discriminate.
  - repeat constructor.
Defined.

Section ZeroRows.
Implicit Types (s z : list cell).

Lemma series_sum_app_zero s z q :
  Forall (fun c => c = Num 0) z ->
  series_sum s = Some q ->
  exists q', series_sum (s ++ z) = Some q' /\ q' == q.
Proof.
  intros Hz. unfold series_sum. rewrite existsb_app.
  assert (existsb is_obj z = false) as ->
    by (induction Hz as [|c z -> _ IH]; [done | exact IH]).
  rewrite orb_false_r. destruct (existsb is_obj s); [done|].
  intros [= <-]. eexists. split; [done|].
  rewrite fmap_app. unfold Qsum. rewrite foldr_app.
  assert (foldr Qplus 0 (cell_value <$> z) == 0) as Hzero.
  { induction Hz as [|c z -> _ IH]; [done|]. rewrite fmap_cons. cbn [foldr].
    rewrite IH. reflexivity. }
  generalize dependent (foldr Qplus 0 (cell_value <$> z)). intros e He.
  induction (cell_value <$> s) as [|x l IH]; cbn [foldr]; [exact He|].
  by rewrite IH.
Qed.

Lemma series_positive_zeros z :
  Forall (fun c => c = Num 0) z -> series_positive z = Some [].
Proof.
  intros Hz. induction Hz as [|c z -> _ IH]; [done|].
  by rewrite series_positive_cons, IH.
Qed.

Lemma series_positive_app_zero s z :
  Forall (fun c => c = Num 0) z ->
  series_positive (s ++ z) = series_positive s.
Proof.
  intros Hz. induction s as [|c s IH].
  - rewrite app_nil_l. apply (series_positive_zeros z Hz).
  - rewrite <- app_comm_cons, !series_positive_cons, IH. reflexivity.
Qed.

Lemma zero_rows_column (zs : list (gmap string cell)) (col : string) :
  Forall (fun row => metrics row = (Num 0, Num 0, Num 0)) zs ->
  col ∈ required_cols ->
  Forall (fun c => c = Num 0) ((fun row => loc row col) <$> zs).
Proof.
  intros Hz Hcol. apply Forall_fmap. eapply Forall_impl; [exact Hz|].
  simpl. intros row (Ht & Hy & Hr)%metrics_inv.
  unfold required_cols in Hcol.
  apply elem_of_cons in Hcol as [->|Hcol]; [done|].
  apply elem_of_cons in Hcol as [->|Hcol]; [done|].
  apply list_elem_of_singleton in Hcol as ->. done.
Qed.
End ZeroRows.

(** X22. "Apply" does not see the rows that are (0, 0, 0): adding such
    rows to the table on display changes neither the totals of tonnage and
    revenue nor the average yield, which is taken over the rows with a
    positive yield only. *)
Theorem apply_ignores_zero_rows (cols : list string)
    (rs zs : list (gmap string cell)) (p : performance) :
  apply_totals (mkDataFrame cols rs) = Some p ->
  Forall (fun row => metrics row = (Num 0, Num 0, Num 0)) zs ->
  exists p',
    apply_totals (mkDataFrame cols (rs ++ zs)) = Some p'
    /\ current_tonnage p' == current_tonnage p
    /\ current_yield p' = current_yield p
    /\ current_revenue p' == current_revenue p.
Proof.
  intros Hp Hz. unfold apply_totals, column in *. simpl in *.
  destruct (decide ("Tonnage"%string ∈ cols)); [|done].
  destruct (decide ("Revenue"%string ∈ cols)); [|by simplify_option_eq].
  destruct (decide ("Yield"%string ∈ cols)); [|by simplify_option_eq].
  simpl in *. rewrite !fmap_app.
  destruct (series_sum ((fun row => loc row "Tonnage") <$> rs)) as [qt|] eqn:Et;
    [|done].
  destruct (series_sum ((fun row => loc row "Revenue") <$> rs)) as [qr|] eqn:Er;
    [|done].
  simpl in Hp.
  destruct (series_positive ((fun row => loc row "Yield") <$> rs)) as [ys|] eqn:Ey;
    [|done].
  simpl in Hp. injection Hp as <-.
  destruct (series_sum_app_zero _ _ qt
              (zero_rows_column zs "Tonnage" Hz ltac:(set_solver)) Et)
    as (qt' & -> & Hqt).
  destruct (series_sum_app_zero _ _ qr
              (zero_rows_column zs "Revenue" Hz ltac:(set_solver)) Er)
    as (qr' & -> & Hqr).
  rewrite (series_positive_app_zero _ _
             (zero_rows_column zs "Yield" Hz ltac:(set_solver))), Ey.
  simpl. eexists. split; [reflexivity|]. by repeat split.
Qed.

Lemma apply_ignores_zero_rows_witness :
  exists p',
    apply_totals
      (mkDataFrame ["Agent"; "Tonnage"; "Yield"; "Revenue"]%string
         ([agent_row "A" (Num 173) (Num 3) (Num 519)]
          ++ [agent_row "B" (Num 0) (Num 0) (Num 0)])) = Some p'
    /\ current_tonnage p' == current_tonnage (mkPerformance (173 + 0) (3 / 1) (519 + 0))
    /\ current_yield p' = current_yield (mkPerformance (173 + 0) (3 / 1) (519 + 0))
    /\ current_revenue p' == current_revenue (mkPerformance (173 + 0) (3 / 1) (519 + 0)).
Proof.
  apply (apply_ignores_zero_rows _ [agent_row "A" (Num 173) (Num 3) (Num 519)]).
  - reflexivity.
  - repeat constructor.
Defined.

(** * Column dtypes *)

#[local] Arguments stores : simpl never.

Section Stores.
Implicit Types (row : gmap string cell) (dtypes : gmap string dtype).

Lemma stores_cons dtypes col v writes row :
  stores dtypes ((col, v) :: writes) row
  = if can_hold (dtype_of dtypes col) v
    then stores dtypes writes (<[col := Num v]> row)
    else (row, false).
Proof. reflexivity. Qed.

Lemma stores_nil dtypes row : stores dtypes [] row = (row, true).
Proof. reflexivity. Qed.

Lemma in_required col :
  col ∈ required_cols ->
  col = "Tonnage"%string \/ col = "Yield"%string \/ col = "Revenue"%string.
Proof.
  unfold required_cols. rewrite !elem_of_cons, elem_of_nil. tauto.
Qed.

Lemma holds_floats_can_hold dtypes col v :
  holds_floats dtypes = true -> col ∈ required_cols ->
  can_hold (dtype_of dtypes col) v = true.
Proof.
  intros H Hc. unfold holds_floats in H.
  rewrite forallb_forall in H. apply list_elem_of_In in Hc.
  specialize (H col Hc). by destruct (dtype_of dtypes col).
Qed.

Lemma no_text_can_hold_0 dtypes col :
  no_text_column dtypes = true -> col ∈ required_cols ->
  can_hold (dtype_of dtypes col) 0 = true.
Proof.
  intros H Hc. unfold no_text_column in H.
  rewrite forallb_forall in H. apply list_elem_of_In in Hc.
  specialize (H col Hc). by destruct (dtype_of dtypes col).
Qed.

Lemma holds_floats_no_text dtypes :
  holds_floats dtypes = true -> no_text_column dtypes = true.
Proof.
  unfold holds_floats, no_text_column. rewrite !forallb_forall.
  intros H col Hc. specialize (H col Hc). by destruct (dtype_of dtypes col).
Qed.

Lemma zero_row_insert col c row :
  col ∈ required_cols -> zero_row (<[col := c]> row) = zero_row row.
Proof.
  intros [-> | [-> | ->]]%in_required; unfold zero_row, set_row;
    apply map_eq; intros k;
    (destruct (decide (k = "Revenue"%string)) as [E | ?];
       [subst k; by simplify_map_eq|]);
    (destruct (decide (k = "Yield"%string)) as [E | ?];
       [subst k; by simplify_map_eq|]);
    (destruct (decide (k = "Tonnage"%string)) as [E | ?];
       [subst k; by simplify_map_eq|]);
    by simplify_map_eq.
Qed.

(** What a sequence of stores on the metric columns leaves behind is
    overwritten by the three zeros of a handler. *)
Lemma zero_row_stores dtypes writes row :
  Forall (fun w => w.1 ∈ required_cols) writes ->
  zero_row (stores dtypes writes row).1 = zero_row row.
Proof.
  intros H. revert row. induction H as [|[col v] writes Hc _ IH]; intros row.
  - done.
  - rewrite stores_cons. destruct (can_hold (dtype_of dtypes col) v); [|done].
    rewrite IH. by apply zero_row_insert.
Qed.

Lemma stores_clean_order dtypes t y r row :
  can_hold (dtype_of dtypes "Tonnage") t = true ->
  can_hold (dtype_of dtypes "Yield") y = true ->
  can_hold (dtype_of dtypes "Revenue") r = true ->
  stores dtypes [("Tonnage", t); ("Yield", y); ("Revenue", r)]%string row
  = (set_row t y r row, true).
Proof. intros Ht Hy Hr. rewrite !stores_cons. by rewrite Ht, Hy, Hr. Qed.

Lemma stores_allocator_order dtypes t y r row :
  can_hold (dtype_of dtypes "Tonnage") t = true ->
  can_hold (dtype_of dtypes "Yield") y = true ->
  can_hold (dtype_of dtypes "Revenue") r = true ->
  stores dtypes [("Tonnage", t); ("Revenue", r); ("Yield", y)]%string row
  = (set_row t y r row, true).
Proof.
  intros Ht Hy Hr. rewrite !stores_cons, Ht, Hr, Hy, stores_nil. f_equal.
  unfold set_row. by rewrite insert_insert_ne.
Qed.

Lemma required_tonnage : "Tonnage"%string ∈ required_cols.
Proof. unfold required_cols. set_solver. Qed.
Lemma required_yield : "Yield"%string ∈ required_cols.
Proof. unfold required_cols. set_solver. Qed.
Lemma required_revenue : "Revenue"%string ∈ required_cols.
Proof. unfold required_cols. set_solver. Qed.

Lemma stores_zero_clean dtypes row :
  no_text_column dtypes = true ->
  stores dtypes [("Tonnage", 0); ("Yield", 0); ("Revenue", 0)]%string row
  = (zero_row row, true).
Proof.
  intros H. apply stores_clean_order;
    auto using no_text_can_hold_0, required_tonnage, required_yield, required_revenue.
Qed.

Lemma stores_zero_allocator dtypes row :
  no_text_column dtypes = true ->
  stores dtypes [("Tonnage", 0); ("Revenue", 0); ("Yield", 0)]%string row
  = (zero_row row, true).
Proof.
  intros H. apply stores_allocator_order;
    auto using no_text_can_hold_0, required_tonnage, required_yield, required_revenue.
Qed.

(** With no text column among the metrics the handler of the normalizer
    never raises: a row comes back as the stores of the body leave it, or
    zeroed. *)
Lemma clean_row_typed_cases dtypes row :
  no_text_column dtypes = true ->
  clean_row_typed dtypes row = Some (clean_row row)
  \/ clean_row_typed dtypes row = Some (zero_row row).
Proof.
  intros H. unfold clean_row_typed, clean_row_try_typed, clean_row, clean_row_try.
  destruct (to_float (loc row "Tonnage")) as [t|]; simpl;
    [|rewrite stores_zero_clean by done; by right].
  destruct (to_float (loc row "Yield")) as [y|]; simpl;
    [|rewrite stores_zero_clean by done; by right].
  destruct (to_float (loc row "Revenue")) as [r|]; simpl;
    [|rewrite stores_zero_clean by done; by right].
  destruct (Qeq_bool (PyNum.max0 t) 0 || Qeq_bool (PyNum.max0 y) 0).
  - rewrite stores_zero_clean by done. by left.
  - match goal with
    | |- context [stores dtypes ?w row] =>
        pose proof (zero_row_stores dtypes w row) as Hz;
        destruct (stores dtypes w row) as [row' b] eqn:E
    end.
    destruct b.
    + left. revert E. rewrite !stores_cons, stores_nil.
      repeat match goal with
      | |- context [can_hold ?d ?v] => destruct (can_hold d v)
      end; intros [= <-]; done.
    + right. rewrite stores_zero_clean by done. f_equal. apply Hz.
      repeat constructor; simpl;
        auto using required_tonnage, required_yield, required_revenue.
Qed.

(** On float64 and object columns every store succeeds. *)
Lemma clean_row_typed_wide dtypes row :
  holds_floats dtypes = true ->
  clean_row_typed dtypes row = Some (clean_row row).
Proof.
  intros H. pose proof (holds_floats_no_text _ H) as Hn.
  unfold clean_row_typed, clean_row_try_typed, clean_row, clean_row_try.
  destruct (to_float (loc row "Tonnage")) as [t|]; simpl;
    [|by rewrite stores_zero_clean].
  destruct (to_float (loc row "Yield")) as [y|]; simpl;
    [|by rewrite stores_zero_clean].
  destruct (to_float (loc row "Revenue")) as [r|]; simpl;
    [|by rewrite stores_zero_clean].
  destruct (Qeq_bool (PyNum.max0 t) 0 || Qeq_bool (PyNum.max0 y) 0).
  - by rewrite stores_zero_clean.
  - rewrite stores_clean_order;
      auto using holds_floats_can_hold, required_tonnage, required_yield,
        required_revenue.
Qed.

Lemma distribute_row_typed_wide dtypes tt tr ty vd idx row :
  holds_floats dtypes = true ->
  distribute_row_typed dtypes tt tr ty vd idx row
  = Some (distribute_row tt tr ty vd idx row).
Proof.
  intros H. pose proof (holds_floats_no_text _ H) as Hn.
  unfold distribute_row_typed, distribute_row.
  destruct (at_index idx vd) as [vrow|].
  - rewrite stores_allocator_order;
      auto using holds_floats_can_hold, required_tonnage, required_yield,
        required_revenue.
  - by rewrite stores_zero_allocator.
Qed.

End Stores.

Section TypedFrames.
Implicit Types (row : gmap string cell) (df : DataFrame)
  (dtypes : gmap string dtype).

Lemma mapM_total {A B} (f : A -> option B) (g : A -> B) (l : list A) :
  (forall x, f x = Some (g x)) -> mapM f l = Some (g <$> l).
Proof.
  intros H. apply mapM_Some. apply Forall2_fmap_r, Forall_Forall2_diag.
  apply Forall_forall. intros x _. apply H.
Qed.

Lemma mapM_id_imap {A B} (f : nat -> A -> option B) (g : nat -> A -> B)
    (l : list A) :
  (forall i x, f i x = Some (g i x)) -> mapM id (imap f l) = Some (imap g l).
Proof.
  intros H.
  rewrite (imap_ext f (fun i x => Some (g i x)) l) by (intros; apply H).
  change (fun i x => Some (g i x)) with (fun i => Some ∘ g i).
  rewrite <- fmap_imap. by apply mapM_fmap_Some.
Qed.

(** On float64 and object columns the dtypes make no difference. *)
Lemma clean_typed_wide dtypes df :
  holds_floats dtypes = true ->
  clean_and_validate_data_typed dtypes df = clean_and_validate_data df.
Proof.
  intros H. unfold clean_and_validate_data_typed, clean_and_validate_data.
  destruct (empty df); [done|]. destruct (missing_cols df); [|done].
  rewrite (mapM_total _ clean_row); [done|].
  intros row. by apply clean_row_typed_wide.
Qed.

Lemma holds_floats_equal_split dtypes df :
  rows df <> [] -> holds_floats (equal_split_dtypes dtypes df) = true.
Proof.
  intros Hr. unfold equal_split_dtypes.
  assert ((0 <? length (rows df))%nat = true) as ->
    by (apply Nat.ltb_lt; destruct (rows df); [done | simpl; lia]).
  unfold holds_floats, required_cols, dtype_of. simpl.
  by simplify_map_eq.
Qed.

Lemma distribute_typed_wide dtypes tt tr ty st sr sel df :
  holds_floats dtypes = true ->
  distribute_typed dtypes tt tr ty st sr sel df
  = Some (distribute tt tr ty st sr sel df).
Proof.
  intros H. unfold distribute_typed, distribute.
  rewrite (mapM_id_imap _ (distribute_row tt tr ty
             (prod_map id (with_weights st sr) <$> sel))); [done|].
  intros i row. by apply distribute_row_typed_wide.
Qed.

Lemma calculate_typed_wide dtypes df tt tr ty :
  holds_floats dtypes = true ->
  calculate_smart_recommendations_typed dtypes df tt tr ty
  = calculate_smart_recommendations df tt tr ty.
Proof.
  intros H.
  unfold calculate_smart_recommendations_typed, calculate_smart_recommendations.
  destruct (empty df) eqn:He; [done|].
  destruct (_ || _); [done|].
  destruct (missing_cols df); [|done].
  destruct (valid_mask df) as [mask|]; [|done].
  destruct (select_from 0 mask (rows df)) as [|v vd].
  - apply clean_typed_wide, holds_floats_equal_split.
    by apply empty_false in He as [_ ?].
  - destruct (_ || _); [done|].
    rewrite distribute_typed_wide by done. by apply clean_typed_wide.
Qed.

(** With no text column among the metrics no handler raises: the
    normalizer returns a frame of rows that went through the loop. *)
Lemma clean_typed_no_text dtypes df :
  no_text_column dtypes = true ->
  rows df <> [] -> missing_cols df = [] ->
  clean_and_validate_data_typed dtypes df
  = mkDataFrame (columns df)
      ((fun row => default row (clean_row_typed dtypes row)) <$> rows df).
Proof.
  intros H Hr Hm. unfold clean_and_validate_data_typed.
  assert (empty df = false) as ->
    by (apply empty_false; split; [by apply missing_cols_nil_columns | done]).
  rewrite Hm.
  rewrite (mapM_total _ (fun row => default row (clean_row_typed dtypes row)));
    [done|].
  intros row. by destruct (clean_row_typed_cases dtypes row H) as [-> | ->].
Qed.

Lemma stores_snd dtypes writes row row' :
  (stores dtypes writes row).2 = (stores dtypes writes row').2.
Proof.
  revert row row'. induction writes as [|[col v] writes IH]; intros row row'.
  - done.
  - rewrite !stores_cons. destruct (can_hold _ _); [apply IH | done].
Qed.

Lemma stores_success dtypes t y r row :
  (stores dtypes [("Tonnage", t); ("Yield", y); ("Revenue", r)]%string row).2 = true ->
  stores dtypes [("Tonnage", t); ("Yield", y); ("Revenue", r)]%string row
  = (set_row t y r row, true).
Proof.
  rewrite !stores_cons, stores_nil.
  repeat match goal with
  | |- context [can_hold ?d ?v] => destruct (can_hold d v)
  end; done.
Qed.

Lemma handler_no_text dtypes writes row :
  no_text_column dtypes = true ->
  Forall (fun w => w.1 ∈ required_cols) writes ->
  match stores dtypes writes row with
  | (row', true) => Some row'
  | (row', false) =>
      match stores dtypes [("Tonnage", 0); ("Yield", 0); ("Revenue", 0)]%string row' with
      | (row'', true) => Some row''
      | (_, false) => None
      end
  end
  = Some (if (stores dtypes writes row).2 then (stores dtypes writes row).1
          else zero_row row).
Proof.
  intros H Hw. pose proof (zero_row_stores dtypes writes row Hw) as Hz.
  destruct (stores dtypes writes row) as [row' [|]]; simpl in *; [done|].
  rewrite stores_zero_clean by done. by rewrite Hz.
Qed.

Lemma set_row_insert_revenue t y r v row :
  set_row t y r (<["Revenue"%string := v]> row) = set_row t y r row.
Proof.
  unfold set_row. apply map_eq. intros k.
  destruct (decide (k = "Revenue"%string)) as [->|]; [by simplify_map_eq|].
  destruct (decide (k = "Yield"%string)) as [->|]; [by simplify_map_eq|].
  destruct (decide (k = "Tonnage"%string)) as [->|]; by simplify_map_eq.
Qed.

(** The Revenue cell of the input reaches the result of an iteration only
    through [float()]. *)
Lemma clean_row_typed_revenue_cell dtypes row (v : cell) :
  no_text_column dtypes = true ->
  is_obj (loc row "Revenue") = false -> is_obj v = false ->
  clean_row_typed dtypes (<["Revenue"%string := v]> row)
  = clean_row_typed dtypes row.
Proof.
  intros H Hr Hv.
  assert (Ht : loc (<["Revenue"%string := v]> row) "Tonnage" = loc row "Tonnage")
    by (unfold loc; by simplify_map_eq).
  assert (Hy : loc (<["Revenue"%string := v]> row) "Yield" = loc row "Yield")
    by (unfold loc; by simplify_map_eq).
  assert (Hv' : loc (<["Revenue"%string := v]> row) "Revenue" = v)
    by (unfold loc; by simplify_map_eq).
  assert (Hz : zero_row (<["Revenue"%string := v]> row) = zero_row row)
    by apply set_row_insert_revenue.
  assert (Hreq : forall a b c : Q,
             Forall (fun w : string * Q => w.1 ∈ required_cols)
               [("Tonnage", a); ("Yield", b); ("Revenue", c)]%string).
  { intros. repeat constructor; simpl;
      auto using required_tonnage, required_yield, required_revenue. }
  assert (Hsame : forall a b c,
    match stores dtypes [("Tonnage", a); ("Yield", b); ("Revenue", c)]%string
            (<["Revenue"%string := v]> row) with
    | (row', true) => Some row'
    | (row', false) =>
        match stores dtypes [("Tonnage", 0); ("Yield", 0); ("Revenue", 0)]%string row' with
        | (row'', true) => Some row''
        | (_, false) => None
        end
    end
    = match stores dtypes [("Tonnage", a); ("Yield", b); ("Revenue", c)]%string row with
      | (row', true) => Some row'
      | (row', false) =>
          match stores dtypes [("Tonnage", 0); ("Yield", 0); ("Revenue", 0)]%string row' with
          | (row'', true) => Some row''
          | (_, false) => None
          end
      end).
  { intros a b c. rewrite !handler_no_text by auto.
    rewrite (stores_snd dtypes _ (<["Revenue"%string := v]> row) row), Hz.
    destruct (stores dtypes _ row).2 eqn:E; [|done].
    rewrite (stores_success _ _ _ _ row E).
    rewrite (stores_success _ _ _ _ (<["Revenue"%string := v]> row))
      by (by rewrite (stores_snd dtypes _ _ row)).
    simpl. by rewrite set_row_insert_revenue. }
  unfold clean_row_typed, clean_row_try_typed. rewrite Ht, Hy, Hv'.
  destruct (to_float (loc row "Tonnage")) as [t|];
    [|by rewrite !stores_zero_clean, Hz].
  destruct (to_float (loc row "Yield")) as [y|];
    [|by rewrite !stores_zero_clean, Hz].
  destruct v as [q| |s]; [| |done];
    (destruct (loc row "Revenue") as [r| |s']; [| |done]);
    cbn [to_float]; (destruct (_ || _); apply Hsame).
Qed.
End TypedFrames.

Section FailingStores.
Implicit Types (row : gmap string cell) (df : DataFrame)
  (dtypes : gmap string dtype).

Lemma stores_text_column dtypes writes row col :
  dtype_of dtypes col = str ->
  col ∈ writes.*1 ->
  (stores dtypes writes row).2 = false.
Proof.
  intros Hd. revert row. induction writes as [|[c v] writes IH]; intros row Hin.
  - by apply not_elem_of_nil in Hin.
  - rewrite stores_cons. destruct (can_hold (dtype_of dtypes c) v) eqn:E; [|done].
    apply IH. rewrite fmap_cons in Hin. apply elem_of_cons in Hin as [->|Hin];
      [|done].
    simpl in Hd. by rewrite Hd in E.
Qed.

(** With a text column among the metrics every iteration of the normalizer
    ends in a handler that raises. *)
Lemma clean_row_typed_text_column dtypes row col :
  col ∈ required_cols -> dtype_of dtypes col = str ->
  clean_row_typed dtypes row = None.
Proof.
  intros Hc Hd.
  assert (Hin : forall a b c : Q,
             col ∈ [("Tonnage", a); ("Yield", b); ("Revenue", c)]%string.*1).
  { intros. exact Hc. }
  assert (Hh : forall row',
    match stores dtypes [("Tonnage", 0); ("Yield", 0); ("Revenue", 0)]%string row' with
    | (row'', true) => Some row''
    | (_, false) => None
    end = None).
  { intros row'. pose proof (stores_text_column dtypes _ row' col Hd (Hin 0 0 0)) as E.
    by destruct (stores dtypes _ row') as [? []]. }
  assert (Hs : forall a b c,
    match stores dtypes [("Tonnage", a); ("Yield", b); ("Revenue", c)]%string row with
    | (row', true) => Some row'
    | (row', false) =>
        match stores dtypes [("Tonnage", 0); ("Yield", 0); ("Revenue", 0)]%string row' with
        | (row'', true) => Some row''
        | (_, false) => None
        end
    end = None).
  { intros a b c.
    pose proof (stores_text_column dtypes _ row col Hd (Hin a b c)) as E.
    destruct (stores dtypes _ row) as [row' []]; [done|]. apply Hh. }
  unfold clean_row_typed, clean_row_try_typed.
  destruct (to_float (loc row "Tonnage")); [|apply Hh].
  destruct (to_float (loc row "Yield")); [|apply Hh].
  destruct (to_float (loc row "Revenue")); [|apply Hh].
  cbn zeta. destruct (_ || _); apply Hs.
Qed.


Lemma clean_row_typed_zero_row dtypes row :
  no_text_column dtypes = true ->
  exists row', clean_row_typed dtypes (zero_row row) = Some row'
               /\ metrics row' = (Num 0, Num 0, Num 0).
Proof.
  intros Hd.
  destruct (clean_row_typed_cases dtypes (zero_row row) Hd) as [-> | ->];
    eexists; (split; [reflexivity|]).
  - apply clean_row_zero.
  - apply metrics_set_row.
Qed.
End FailingStores.

(** ** The allocator on a sheet of whole numbers *)

(** C2. The conservation of the targets fails on a sheet of whole
    numbers.  Scenario A as it is read from such a sheet has int64 metric
    columns.  With the targets (800, 2400, 3) both rows are valid, but the
    first store of the loop, the tonnage 800 * 19/88, is no whole number:
    the int64 column refuses it, the handler zeroes the row, and so it goes
    for the other row.  The tonnage and the revenue of the returned table
    add up to 0, not to 800 and 2400 up to the rounding of the normalizer
    (half a unit and half a hundredth for each of the 2 valid rows). *)
Theorem allocation_zeroes_whole_number_sheet :
  let out := calculate_smart_recommendations_typed
               whole_number_sheet scenario_A 800 2400 3 in
  length (valid_rows (rows scenario_A)) = 2%nat
  /\ can_hold (dtype_of whole_number_sheet "Tonnage") (800 * (19 # 88)) = false
  /\ metrics <$> rows out = [(Num 0, Num 0, Num 0); (Num 0, Num 0, Num 0)]
  /\ col_sum "Tonnage" (rows out) == 0
  /\ col_sum "Revenue" (rows out) == 0
  /\ ~ Qabs (col_sum "Tonnage" (rows out) - 800) <= (1 # 2) * 2
  /\ ~ Qabs (col_sum "Revenue" (rows out) - 2400) <= (1 # 200) * 2.
Proof.
  repeat split; try (vm_compute; reflexivity); vm_compute; intros H; by apply H.
Qed.

(** C7. Scenario A, the rows (100, 2, 200) and (300, 3, 900) with the
    targets (800, 2400, 3), on a sheet of whole numbers (int64 columns):
    both rows are valid and the weights are 1/4 and 3/4, 2/11 and 9/11,
    19/88 and 69/88, but the rows come back as (0, 0, 0) and (0, 0, 0).
    Held as floats (float64 columns) the same table comes back as
    (173, 3.00, 518.18) and (627, 3.00, 1881.82). *)
Theorem scenario_A_whole_number_sheet :
  valid_mask scenario_A = Some [true; true]
  /\ weight_column "tonnage_weight" scenario_A_valid_data = [1 # 4; 3 # 4]
  /\ weight_column "revenue_weight" scenario_A_valid_data = [2 # 11; 9 # 11]
  /\ weight_column "combined_weight" scenario_A_valid_data = [19 # 88; 69 # 88]
  /\ metrics <$> rows (calculate_smart_recommendations_typed
                         whole_number_sheet scenario_A 800 2400 3)
     = [(Num 0, Num 0, Num 0); (Num 0, Num 0, Num 0)]
  /\ metrics <$> rows (calculate_smart_recommendations_typed
                         float_sheet scenario_A 800 2400 3)
     = [(Num 173, Num 3, Num (Qred (51818 # 100)));
        (Num 627, Num 3, Num (Qred (188182 # 100)))].
Proof. repeat split; vm_compute; reflexivity. Qed.



(** X23. Conservation on float columns: when the three metric columns are
    float64 or object columns, strictly positive targets and at least one
    valid row give a table whose tonnage adds up to the tonnage target up
    to half a unit per valid row, and whose revenue adds up to the revenue
    target up to half a hundredth per valid row.  (Exact arithmetic: the
    rounding error of the floating point operations themselves is outside
    the model.) *)
Theorem allocation_conserves_targets_float_columns
    (dtypes : gmap string dtype) (df : DataFrame) (tt tr ty : Q) :
  holds_floats dtypes = true ->
  0 < tt -> 0 < tr -> 0 < ty ->
  missing_cols df = [] ->
  is_Some (valid_mask df) ->
  valid_rows (rows df) <> [] ->
  let out := calculate_smart_recommendations_typed dtypes df tt tr ty in
  let n := inject_Z (Z.of_nat (length (valid_rows (rows df)))) in
  Qabs (col_sum "Tonnage" (rows out) - tt) <= (1 # 2) * n
  /\ Qabs (col_sum "Revenue" (rows out) - tr) <= (1 # 200) * n.
Proof.
  intros Hd Htt Htr Hty Hm Hmask Hv. rewrite (calculate_typed_wide _ _ _ _ _ Hd).
  by apply allocation_conserves_targets.
Qed.

Lemma allocation_conserves_targets_float_columns_witness :
  let out := calculate_smart_recommendations_typed float_sheet scenario_A 800 2400 3 in
  let n := inject_Z (Z.of_nat (length (valid_rows (rows scenario_A)))) in
  Qabs (col_sum "Tonnage" (rows out) - 800) <= (1 # 2) * n
  /\ Qabs (col_sum "Revenue" (rows out) - 2400) <= (1 # 200) * n.
Proof.
  apply (allocation_conserves_targets_float_columns float_sheet scenario_A 800 2400 3).
  - reflexivity.
  - reflexivity.
  - reflexivity.
  - reflexivity.
  - reflexivity.
  - vm_compute. eauto.
  - vm_compute. discriminate.
Defined.

(** ** The normalizer with dtypes *)

(** X1. When none of the three metric columns is a text column, every
    metric the normalizer returns is a number that is not negative: no
    missing value, no text and no negative number is left in the three
    columns, whatever the input cells held and whether the stores of a row
    succeeded or its handler zeroed it. *)
Theorem normalized_metrics_nonnegative (dtypes : gmap string dtype)
    (df : DataFrame) (row' : gmap string cell) :
  no_text_column dtypes = true ->
  missing_cols df = [] ->
  row' ∈ rows (clean_and_validate_data_typed dtypes df) ->
  exists t y r : Q,
    metrics row' = (Num t, Num y, Num r) /\ 0 <= t /\ 0 <= y /\ 0 <= r.
Proof.
  intros Hd Hm Hin.
  destruct (decide (rows df = [])) as [Hr|Hr].
  { unfold clean_and_validate_data_typed in Hin.
    assert (empty df = true) as He
      by (unfold empty; rewrite Hr; by destruct (columns df)).
    rewrite He in Hin. by apply not_elem_of_nil in Hin. }
  rewrite (clean_typed_no_text dtypes df Hd Hr Hm) in Hin. simpl in Hin.
  apply list_elem_of_fmap in Hin as (row & -> & _).
  assert (Hz : exists t y r : Q,
             metrics (zero_row row) = (Num t, Num y, Num r)
             /\ 0 <= t /\ 0 <= y /\ 0 <= r).
  { exists 0, 0, 0. unfold zero_row. rewrite metrics_set_row.
    repeat split; lra. }
  destruct (clean_row_typed_cases dtypes row Hd) as [-> | ->]; [|exact Hz].
  simpl.
  destruct (clean_row_cases row) as [->|(t & y & Ht & Hy & _ & _ & _ & ->)];
    [exact Hz|].
  exists (PyNum.round0 t), (PyNum.round2 y), (PyNum.round2 (t * y)).
  rewrite metrics_set_row. repeat split.
  - apply round0_nonneg. lra.
  - apply round2_nonneg. lra.
  - apply round2_nonneg.
    assert (0 < t * y) by (by apply Qmult_lt_0_compat). lra.
Qed.

Lemma normalized_metrics_nonnegative_witness :
  exists t y r : Q,
    metrics (set_row 0 0 0 (agent_row "A" (Num 101) (Num (9 # 4)) (Num 201)))
    = (Num t, Num y, Num r) /\ 0 <= t /\ 0 <= y /\ 0 <= r.
Proof.
  apply (normalized_metrics_nonnegative (<["Revenue"%string := int64]> float_sheet)
           (week_frame [agent_row "A" (Num 101) (Num (9 # 4)) (Num 201)])).
  - reflexivity.
  - reflexivity.
  - vm_compute. apply list_elem_of_here.
Defined.

(** X2. When none of the three metric columns is a text column, a row
    with a payload that is no number in Tonnage, Yield or Revenue, or with
    a missing Tonnage or Yield, comes back as (0, 0, 0) at its position,
    all its other columns untouched: the failure of one row does not stop
    the normalizer. *)
Theorem malformed_row_zeroed (dtypes : gmap string dtype) (df : DataFrame)
    (i : nat) (row : gmap string cell) :
  no_text_column dtypes = true ->
  missing_cols df = [] ->
  rows df !! i = Some row ->
  is_obj (loc row "Tonnage") || is_obj (loc row "Yield")
    || is_obj (loc row "Revenue") = true
  \/ loc row "Tonnage" = NaN \/ loc row "Yield" = NaN ->
  exists row',
    rows (clean_and_validate_data_typed dtypes df) !! i = Some row'
    /\ metrics row' = (Num 0, Num 0, Num 0)
    /\ other_cols row' = other_cols row.
Proof.
  intros Hd Hm Hi Hbad.
  assert (rows df <> []) as Hr by (intros E; by rewrite E in Hi).
  rewrite (clean_typed_no_text dtypes df Hd Hr Hm). simpl.
  exists (zero_row row). split; [|split].
  - rewrite list_lookup_fmap, Hi. simpl. f_equal.
    destruct (clean_row_typed_cases dtypes row Hd) as [-> | ->]; [|done].
    simpl.
    destruct (clean_row_cases row)
      as [Ez|(t & y & _ & _ & Et & Ey & Er & _)]; [done|].
    exfalso. rewrite Et, Ey, Er in Hbad. simpl in Hbad.
    destruct Hbad as [?|[?|?]]; done.
  - apply metrics_set_row.
  - apply other_cols_set_row.
Qed.

Lemma malformed_row_zeroed_witness :
  exists row',
    rows (clean_and_validate_data_typed
            (<["Revenue"%string := object]> float_sheet)
            (week_frame [agent_row "A" (Num 120) (Num 2) (Num 240);
                         agent_row "B" (Num 80) (Num 3) (Obj "n/a")])) !! 1%nat
      = Some row'
    /\ metrics row' = (Num 0, Num 0, Num 0)
    /\ other_cols row' = other_cols (agent_row "B" (Num 80) (Num 3) (Obj "n/a")).
Proof.
  apply (malformed_row_zeroed _ _ 1).
  - reflexivity.
  - reflexivity.
  - reflexivity.
  - left. reflexivity.
Defined.

(** X3. The revenue of the input is never trusted: with the dtypes of
    the columns unchanged and no text column among the metrics, overwriting
    the Revenue cell of a row by any number or by a missing value (where it
    held a number or a missing value) does not change what the normalizer
    returns. *)
Theorem normalize_ignores_input_revenue (dtypes : gmap string dtype)
    (df : DataFrame) (i : nat) (row : gmap string cell) (v : cell) :
  no_text_column dtypes = true ->
  missing_cols df = [] ->
  rows df !! i = Some row ->
  is_obj (loc row "Revenue") = false ->
  is_obj v = false ->
  clean_and_validate_data_typed dtypes
    (mkDataFrame (columns df) (<[i := <["Revenue"%string := v]> row]> (rows df)))
  = clean_and_validate_data_typed dtypes df.
Proof.
  intros Hd Hm Hi Hr Hv.
  assert (rows df <> []) as Hne by (intros E; by rewrite E in Hi).
  rewrite (clean_typed_no_text dtypes df Hd Hne Hm).
  rewrite clean_typed_no_text; [simpl | done | | exact Hm].
  - f_equal. rewrite list_fmap_insert. cbn beta.
    rewrite (clean_row_typed_revenue_cell dtypes row v Hd Hr Hv).
    destruct (clean_row_typed_cases dtypes row Hd) as [E | E]; rewrite E; simpl;
      apply list_insert_id; rewrite list_lookup_fmap, Hi; simpl; by rewrite E.
  - simpl. intros E. apply (f_equal length) in E.
    rewrite length_insert in E. by destruct (rows df).
Qed.

Lemma normalize_ignores_input_revenue_witness :
  clean_and_validate_data_typed whole_number_sheet
    (mkDataFrame (columns scenario_A)
       (<[0%nat := <["Revenue"%string := Num 250]>
                     (agent_row "A" (Num 100) (Num 2) (Num 200))]>
          (rows scenario_A)))
  = clean_and_validate_data_typed whole_number_sheet scenario_A.
Proof.
  apply (normalize_ignores_input_revenue whole_number_sheet scenario_A 0
           (agent_row "A" (Num 100) (Num 2) (Num 200)) (Num 250)); reflexivity.
Defined.

(** X24. With a text column among the three metrics (pandas 3), the
    normalizer returns a frame with rows as it got it: the stores of the
    first row raise, the stores of its handler raise as well, and the outer
    [except] returns the argument, text and all. *)
Theorem text_column_leaves_frame_untouched (dtypes : gmap string dtype)
    (df : DataFrame) (col : string) :
  col ∈ required_cols -> dtype_of dtypes col = str ->
  columns df <> [] -> rows df <> [] ->
  clean_and_validate_data_typed dtypes df = df.
Proof.
  intros Hc Hd Hcols Hrows. unfold clean_and_validate_data_typed.
  assert (empty df = false) as -> by (by apply empty_false).
  destruct (missing_cols df); [|done].
  destruct (mapM (clean_row_typed dtypes) (rows df)) as [rows'|] eqn:E; [|done].
  exfalso. apply mapM_Some_1 in E.
  destruct (rows df) as [|row rs]; [done|].
  apply Forall2_cons_inv_l in E as (row' & ? & E & _).
  by rewrite (clean_row_typed_text_column dtypes row col Hc Hd) in E.
Qed.

Lemma text_column_leaves_frame_untouched_witness :
  let df := week_frame [agent_row "A" (Num 120) (Num 2) (Obj "n/a");
                        agent_row "B" (Num 80) (Num 3) (Obj "n/a")] in
  clean_and_validate_data_typed (<["Revenue"%string := str]> float_sheet) df = df.
Proof.
  intros df.
  apply (text_column_leaves_frame_untouched _ df "Revenue").
  - apply required_revenue.
  - reflexivity.
  - discriminate.
  - discriminate.
Defined.

(** ** The allocator on float columns *)

(** X6. On the weighted path (strictly positive targets, at least one
    valid row) with float64 or object metric columns, a row that is not
    valid comes back as (0, 0, 0), and a valid row with combined weight [w]
    comes back with a tonnage within half a unit of T_t * w, a revenue
    within half a hundredth of T_r * w and a yield within half a hundredth
    of T_r / T_t, the ratio of the two targets. *)
Theorem allocation_row_by_row (dtypes : gmap string dtype) (df : DataFrame)
    (tt tr ty : Q) (i : nat) (row : gmap string cell) :
  holds_floats dtypes = true ->
  0 < tt -> 0 < tr -> 0 < ty ->
  missing_cols df = [] ->
  is_Some (valid_mask df) ->
  valid_rows (rows df) <> [] ->
  rows df !! i = Some row ->
  let w := weight_of (col_sum "Tonnage" (valid_rows (rows df)))
                     (col_sum "Revenue" (valid_rows (rows df))) row in
  exists t y r : Q,
    (metrics <$> rows (calculate_smart_recommendations_typed dtypes df tt tr ty)) !! i
    = Some (Num t, Num y, Num r)
    /\ if decide (row_valid row = Some true)
       then Qabs (t - tt * w) <= 1 # 2
            /\ Qabs (y - tr / tt) <= 1 # 200
            /\ Qabs (r - tr * w) <= 1 # 200
       else t = 0 /\ y = 0 /\ r = 0.
Proof.
  intros Hd Htt Htr Hty Hm Hmask Hv Hi w.
  rewrite (calculate_typed_wide _ _ _ _ _ Hd).
  rewrite (allocate_main_frame df tt tr ty Htt Htr Hty Hm Hmask Hv). cbn [rows].
  destruct (valid_rows_sums_pos _ Hv) as [Hst Hsr].
  rewrite !list_lookup_fmap, Hi. cbn [fmap option_fmap option_map].
  case_decide as Hrow.
  - rewrite (clean_allocated_valid_ratio tt tr ty _ _ row Htt Htr Hst Hsr Hrow).
    fold w. eexists _, _, _. split; [reflexivity|].
    repeat split; apply Qabs_Qle_condition;
      auto using round0_bound, round2_bound.
  - rewrite (clean_allocated_invalid tt tr ty _ _ row Hrow).
    by exists 0, 0, 0.
Qed.

Lemma allocation_row_by_row_witness :
  let w := weight_of (col_sum "Tonnage" (valid_rows (rows scenario_A)))
                     (col_sum "Revenue" (valid_rows (rows scenario_A)))
                     (agent_row "A" (Num 100) (Num 2) (Num 200)) in
  exists t y r : Q,
    (metrics <$> rows (calculate_smart_recommendations_typed
                         float_sheet scenario_A 200 201 1)) !! 0%nat
    = Some (Num t, Num y, Num r)
    /\ if decide (row_valid (agent_row "A" (Num 100) (Num 2) (Num 200)) = Some true)
       then Qabs (t - 200 * w) <= 1 # 2
            /\ Qabs (y - 201 / 200) <= 1 # 200
            /\ Qabs (r - 201 * w) <= 1 # 200
       else t = 0 /\ y = 0 /\ r = 0.
Proof.
  apply (allocation_row_by_row float_sheet scenario_A 200 201 1 0).
  - reflexivity.
  - reflexivity.
  - reflexivity.
  - reflexivity.
  - reflexivity.
  - vm_compute. eauto.
  - vm_compute. discriminate.
  - reflexivity.
Defined.

(** X8. With float64 or object metric columns the allocation keeps the
    ranking of the agents: of two valid rows, the one with no more tonnage
    and no more revenue on record gets no more tonnage allocated, and no
    more revenue up to one hundredth. *)
Theorem allocation_keeps_ranking (dtypes : gmap string dtype) (df : DataFrame)
    (tt tr ty : Q) (i j : nat) (row_i row_j : gmap string cell) :
  holds_floats dtypes = true ->
  0 < tt -> 0 < tr -> 0 < ty ->
  missing_cols df = [] ->
  is_Some (valid_mask df) ->
  rows df !! i = Some row_i -> rows df !! j = Some row_j ->
  row_valid row_i = Some true -> row_valid row_j = Some true ->
  cell_value (loc row_i "Tonnage") <= cell_value (loc row_j "Tonnage") ->
  cell_value (loc row_i "Revenue") <= cell_value (loc row_j "Revenue") ->
  exists out_i out_j,
    rows (calculate_smart_recommendations_typed dtypes df tt tr ty) !! i = Some out_i
    /\ rows (calculate_smart_recommendations_typed dtypes df tt tr ty) !! j
       = Some out_j
    /\ cell_value (loc out_i "Tonnage") <= cell_value (loc out_j "Tonnage")
    /\ cell_value (loc out_i "Revenue") <= cell_value (loc out_j "Revenue") + (1 # 100).
Proof.
  intros Hd Htt Htr Hty Hm Hmask Hi Hj Hvi Hvj Hton Hrev.
  assert (Hv : valid_rows (rows df) <> []).
  { intros E. assert (row_i ∈ valid_rows (rows df)) as Hin.
    { apply list_elem_of_filter. split; [done|].
      apply list_elem_of_lookup. eauto. }
    rewrite E in Hin. by apply not_elem_of_nil in Hin. }
  rewrite (calculate_typed_wide _ _ _ _ _ Hd).
  rewrite (allocate_main_frame df tt tr ty Htt Htr Hty Hm Hmask Hv). simpl.
  destruct (valid_rows_sums_pos _ Hv) as [Hst Hsr].
  set (st := col_sum "Tonnage" (valid_rows (rows df))) in *.
  set (sr := col_sum "Revenue" (valid_rows (rows df))) in *.
  exists (clean_row (allocated_row tt tr ty st sr row_i)),
    (clean_row (allocated_row tt tr ty st sr row_j)).
  rewrite !list_lookup_fmap, Hi, Hj. simpl.
  split; [done | split; [done|]].
  destruct (metrics_inv _ _ _ _
              (clean_allocated_valid_ratio tt tr ty st sr row_i Htt Htr Hst Hsr Hvi))
    as (-> & _ & ->).
  destruct (metrics_inv _ _ _ _
              (clean_allocated_valid_ratio tt tr ty st sr row_j Htt Htr Hst Hsr Hvj))
    as (-> & _ & ->).
  simpl.
  assert (Hw : weight_of st sr row_i <= weight_of st sr row_j).
  { unfold weight_of, Qdiv.
    assert (0 <= / st) by (apply Qlt_le_weak; by apply Qinv_lt_0_compat).
    assert (0 <= / sr) by (apply Qlt_le_weak; by apply Qinv_lt_0_compat).
    apply Qmult_le_compat_r; [|done].
    apply Qplus_le_compat; by apply Qmult_le_compat_r. }
  split.
  - apply round0_mono.
    rewrite (Qmult_comm _ (weight_of st sr row_i)),
      (Qmult_comm _ (weight_of st sr row_j)).
    apply Qmult_le_compat_r; [exact Hw | lra].
  - assert (PyNum.round2 (tr * weight_of st sr row_i)
            <= PyNum.round2 (tr * weight_of st sr row_j)); [|lra].
    apply round2_mono.
    rewrite (Qmult_comm _ (weight_of st sr row_i)),
      (Qmult_comm _ (weight_of st sr row_j)).
    apply Qmult_le_compat_r; [exact Hw | lra].
Qed.

Lemma allocation_keeps_ranking_witness :
  exists out_i out_j,
    rows (calculate_smart_recommendations_typed float_sheet scenario_A 800 2400 3)
      !! 0%nat = Some out_i
    /\ rows (calculate_smart_recommendations_typed float_sheet scenario_A 800 2400 3)
         !! 1%nat = Some out_j
    /\ cell_value (loc out_i "Tonnage") <= cell_value (loc out_j "Tonnage")
    /\ cell_value (loc out_i "Revenue") <= cell_value (loc out_j "Revenue") + (1 # 100).
Proof.
  apply (allocation_keeps_ranking float_sheet scenario_A 800 2400 3 0 1
           (agent_row "A" (Num 100) (Num 2) (Num 200))
           (agent_row "B" (Num 300) (Num 3) (Num 900))).
  - reflexivity.
  - reflexivity.
  - reflexivity.
  - reflexivity.
  - reflexivity.
  - vm_compute. eauto.
  - reflexivity.
  - reflexivity.
  - reflexivity.
  - reflexivity.
  - vm_compute. discriminate.
  - vm_compute. discriminate.
Defined.

(** X9. With float64 or object metric columns a table with exactly one
    valid row gives that row the whole of both targets: it comes back with
    the tonnage round(T_t, 0), a yield within half a hundredth of
    T_r / T_t and a revenue within half a hundredth of T_r, every other row
    with (0, 0, 0). *)
Theorem single_valid_row_takes_all (dtypes : gmap string dtype) (df : DataFrame)
    (tt tr ty : Q) (row : gmap string cell) :
  holds_floats dtypes = true ->
  0 < tt -> 0 < tr -> 0 < ty ->
  missing_cols df = [] ->
  is_Some (valid_mask df) ->
  valid_rows (rows df) = [row] ->
  exists y r : Q,
    Qabs (y - tr / tt) <= 1 # 200
    /\ Qabs (r - tr) <= 1 # 200
    /\ metrics <$> rows (calculate_smart_recommendations_typed dtypes df tt tr ty)
       = (fun row =>
            if decide (row_valid row = Some true)
            then (Num (PyNum.round0 tt), Num y, Num r)
            else (Num 0, Num 0, Num 0)) <$> rows df.
Proof.
  intros Hd Htt Htr Hty Hm Hmask Hone.
  assert (Hv : valid_rows (rows df) <> []) by (by rewrite Hone).
  exists (PyNum.round2 (tr / tt)), (PyNum.round2 tr).
  split; [apply Qabs_Qle_condition, round2_bound|].
  split; [apply Qabs_Qle_condition, round2_bound|].
  rewrite (calculate_typed_wide _ _ _ _ _ Hd).
  rewrite (allocate_main_frame df tt tr ty Htt Htr Hty Hm Hmask Hv). simpl.
  destruct (valid_rows_sums_pos _ Hv) as [Hst Hsr].
  rewrite <- !list_fmap_compose. apply list_fmap_ext. intros i r Hr. simpl.
  case_decide as Hrow; [|by apply clean_allocated_invalid].
  rewrite (clean_allocated_valid_ratio tt tr ty _ _ r Htt Htr Hst Hsr Hrow).
  assert (r = row) as ->.
  { assert (r ∈ valid_rows (rows df)) as Hin.
    { apply list_elem_of_filter. split; [done|].
      apply list_elem_of_lookup. eauto. }
    rewrite Hone in Hin. by apply list_elem_of_singleton in Hin. }
  assert (Hw : weight_of (col_sum "Tonnage" (valid_rows (rows df)))
                         (col_sum "Revenue" (valid_rows (rows df))) row == 1).
  { rewrite Hone in *. unfold col_sum, Qsum in *. simpl in *.
    unfold weight_of. field. split; lra. }
  f_equal; [f_equal|]; f_equal.
  - apply round0_comp. rewrite Hw. ring.
  - apply round2_comp. rewrite Hw. ring.
Qed.

Lemma single_valid_row_takes_all_witness :
  let df := week_frame [agent_row "A" (Num 0) (Num 2) (Num 200);
                        agent_row "B" (Num 300) (Num 3) (Num 900)] in
  exists y r : Q,
    Qabs (y - 2400 / 800) <= 1 # 200
    /\ Qabs (r - 2400) <= 1 # 200
    /\ metrics <$> rows (calculate_smart_recommendations_typed
                           float_sheet df 800 2400 3)
       = (fun row =>
            if decide (row_valid row = Some true)
            then (Num (PyNum.round0 800), Num y, Num r)
            else (Num 0, Num 0, Num 0)) <$> rows df.
Proof.
  intros df.
  apply (single_valid_row_takes_all float_sheet df 800 2400 3
           (agent_row "B" (Num 300) (Num 3) (Num 900))).
  - reflexivity.
  - reflexivity.
  - reflexivity.
  - reflexivity.
  - reflexivity.
  - vm_compute. eauto.
  - vm_compute. reflexivity.
Defined.

(** ** The buttons on float columns *)

(** X11. "Recommend" followed by "Apply" with float64 or object metric
    columns: on the weighted path the current tonnage becomes the tonnage
    target up to half a unit per valid row, the current revenue the revenue
    target up to half a hundredth per valid row, and the current yield, the
    average over the rows with a positive yield, is within half a hundredth
    of T_r / T_t, whatever the target for the average yield was. *)
Theorem apply_after_recommend_totals (dtypes : gmap string dtype)
    (df : DataFrame) (tt tr ty : Q) :
  holds_floats dtypes = true ->
  0 < tt -> 0 < tr -> 0 < ty ->
  missing_cols df = [] ->
  is_Some (valid_mask df) ->
  valid_rows (rows df) <> [] ->
  exists p,
    apply_totals (calculate_smart_recommendations_typed dtypes df tt tr ty) = Some p
    /\ Qabs (current_tonnage p - tt)
       <= (1 # 2) * inject_Z (Z.of_nat (length (valid_rows (rows df))))
    /\ Qabs (current_revenue p - tr)
       <= (1 # 200) * inject_Z (Z.of_nat (length (valid_rows (rows df))))
    /\ Qabs (current_yield p - tr / tt) <= 1 # 200.
Proof.
  intros Hd Htt Htr Hty Hm Hmask Hv.
  rewrite (calculate_typed_wide _ _ _ _ _ Hd).
  destruct (apply_after_allocation df tt tr ty Htt Htr Hty Hm Hmask Hv)
    as (p & Hp & Ht & Hr & Hy).
  exists p. repeat split; try done.
  rewrite Hy. apply Qabs_Qle_condition, round2_bound.
Qed.

Lemma apply_after_recommend_totals_witness :
  exists p,
    apply_totals (calculate_smart_recommendations_typed
                    float_sheet scenario_A 200 201 1) = Some p
    /\ Qabs (current_tonnage p - 200)
       <= (1 # 2) * inject_Z (Z.of_nat (length (valid_rows (rows scenario_A))))
    /\ Qabs (current_revenue p - 201)
       <= (1 # 200) * inject_Z (Z.of_nat (length (valid_rows (rows scenario_A))))
    /\ Qabs (current_yield p - 201 / 200) <= 1 # 200.
Proof.
  apply (apply_after_recommend_totals float_sheet scenario_A 200 201 1).
  - reflexivity.
  - reflexivity.
  - reflexivity.
  - reflexivity.
  - reflexivity.
  - vm_compute. eauto.
  - vm_compute. discriminate.
Defined.



(** X14. "Recommend", then "Apply", then the gap boxes, with float64 or
    object metric columns: for a week with at least one valid row and
    targets that are large against the number [n] of valid rows (tonnage
    target at least 20 n, revenue target at least n / 5) the tonnage box
    and the revenue box turn green. *)
Theorem recommend_apply_boxes_green (dtypes : gmap string dtype)
    (wa week_df : DataFrame) (week_selected : Z)
    (orig_ton conv_tgt_rev conv_tgt_yld : Q) :
  holds_floats dtypes = true ->
  week_rows wa week_selected = Some week_df ->
  0 < orig_ton -> 0 < conv_tgt_rev -> 0 < conv_tgt_yld ->
  missing_cols week_df = [] ->
  is_Some (valid_mask week_df) ->
  valid_rows (rows week_df) <> [] ->
  20 * inject_Z (Z.of_nat (length (valid_rows (rows week_df)))) <= orig_ton ->
  inject_Z (Z.of_nat (length (valid_rows (rows week_df)))) <= 5 * conv_tgt_rev ->
  exists recommendations p,
    recommend_typed dtypes wa week_selected orig_ton conv_tgt_rev conv_tgt_yld
    = Some recommendations
    /\ apply_totals recommendations = Some p
    /\ gap_colors (percentage (current_tonnage p) orig_ton)
       = ("#c8e6c9", "#2e7d32")%string
    /\ gap_colors (percentage (current_revenue p) conv_tgt_rev)
       = ("#c8e6c9", "#2e7d32")%string.
Proof.
  intros Hd Hweek Hton Hrev Hyld Hm Hmask Hv Hbig_t Hbig_r.
  destruct (apply_after_allocation week_df orig_ton conv_tgt_rev conv_tgt_yld
              Hton Hrev Hyld Hm Hmask Hv) as (p & Hp & Ht & Hr & _).
  exists (calculate_smart_recommendations week_df
            orig_ton conv_tgt_rev conv_tgt_yld), p.
  split; [|split; [exact Hp | split]].
  - unfold recommend_typed. rewrite Hweek. simpl.
    assert (empty week_df = false) as ->.
    { apply empty_false. split; [by apply missing_cols_nil_columns|].
      intros E. by rewrite E in Hv. }
    rewrite !max0_pos by done. by rewrite (calculate_typed_wide _ _ _ _ _ Hd).
  - apply gap_colors_green; [done|]. apply Qabs_Qle_condition in Ht. lra.
  - apply gap_colors_green; [done|]. apply Qabs_Qle_condition in Hr. lra.
Qed.

Lemma recommend_apply_boxes_green_witness :
  let wa := mkDataFrame ["Week"; "Agent"; "Tonnage"; "Yield"; "Revenue"]%string
              [<["Week"%string := Num 7]> (agent_row "A" (Num 100) (Num 2) (Num 200));
               <["Week"%string := Num 8]> (agent_row "B" (Num 300) (Num 3) (Num 900))] in
  exists recommendations p,
    recommend_typed float_sheet wa 7 800 2400 3 = Some recommendations
    /\ apply_totals recommendations = Some p
    /\ gap_colors (percentage (current_tonnage p) 800)
       = ("#c8e6c9", "#2e7d32")%string
    /\ gap_colors (percentage (current_revenue p) 2400)
       = ("#c8e6c9", "#2e7d32")%string.
Proof.
  intros wa.
  apply (recommend_apply_boxes_green float_sheet wa
           (mkDataFrame ["Week"; "Agent"; "Tonnage"; "Yield"; "Revenue"]%string
              [<["Week"%string := Num 7]>
                 (agent_row "A" (Num 100) (Num 2) (Num 200))])
           7 800 2400 3).
  - reflexivity.
  - vm_compute. reflexivity.
  - reflexivity.
  - reflexivity.
  - reflexivity.
  - reflexivity.
  - vm_compute. eauto.
  - vm_compute. discriminate.
  - vm_compute. discriminate.
  - vm_compute. discriminate.
Defined.
